(** * MapMyNotes: the text-to-mind-map pipeline

    A shallow embedding of [modules/pipeline.py], of [modules/copilot.py]
    and of the explanation request of [modules/hover_tooltip.py], the
    properties of the specification that they decide and further properties
    of the code.

    Conventions of the embedding.
    - A Python [str] is a [string]; a character of type [ascii] stands for
      the code point of the same number, U+0000 to U+00FF.
    - A Python value that can come out of [json.loads], or be stored in a
      node, an edge or the [meta] mapping, is a [value].
    - The external model, the random source behind [uuid.uuid4] and the
      functions [json.loads] and [json.dumps] are parameters of the
      pipeline; a concrete JSON reader and writer is given in [Module Json].
    - A call that can raise returns a [result]; the calls made to the
      external model and the number of random draws are threaded in a
      [state].
    - [time.sleep] is not modelled.  The recursion limit of the interpreter
      is a parameter of the graph builder and of the JSON reader: what the
      interpreter allows depends on its version and on the frames in use. *)

From Stdlib Require Import String Ascii List ZArith NArith Arith Bool Lia.
From Stdlib Require Import DecimalString DecimalNat DecimalN.
From Stdlib Require Import Sorted Permutation.
Import ListNotations.
Open Scope string_scope.

(** ** Python strings *)

Module PyStr.

(** The double quote and the line feed, which a literal cannot hold. *)
Definition dq : string := String (ascii_of_nat 34) "".
Definition nl : string := String (ascii_of_nat 10) "".

(** [quoted s] is [s] between double quotes. *)
Definition quoted (s : string) : string := dq ++ s ++ dq.

Definition in_range (lo hi : nat) (c : ascii) : bool :=
  Nat.leb lo (nat_of_ascii c) && Nat.leb (nat_of_ascii c) hi.

(** [str.isspace] on one character: the characters [str.strip()] and
    [str.split()] treat as white space. *)
Definition is_space (c : ascii) : bool :=
  in_range 9 13 c || in_range 28 32 c
  || Nat.eqb (nat_of_ascii c) 133 || Nat.eqb (nat_of_ascii c) 160.

(** The line boundaries of [str.splitlines]. *)
Definition is_linebreak (c : ascii) : bool :=
  in_range 10 13 c || in_range 28 30 c || Nat.eqb (nat_of_ascii c) 133.

Definition is_empty (s : string) : bool :=
  match s with EmptyString => true | String _ _ => false end.

Fixpoint mem_char (c : ascii) (chars : string) : bool :=
  match chars with
  | EmptyString => false
  | String a r => Ascii.eqb c a || mem_char c r
  end.

Fixpoint lstrip_with (p : ascii -> bool) (s : string) : string :=
  match s with
  | EmptyString => EmptyString
  | String c r => if p c then lstrip_with p r else s
  end.

Fixpoint rstrip_with (p : ascii -> bool) (s : string) : string :=
  match s with
  | EmptyString => EmptyString
  | String c r =>
      match rstrip_with p r with
      | EmptyString => if p c then EmptyString else String c EmptyString
      | r' => String c r'
      end
  end.

(** [s.strip()] *)
Definition strip (s : string) : string :=
  rstrip_with is_space (lstrip_with is_space s).

(** [s.strip(chars)] *)
Definition strip_chars (chars : string) (s : string) : string :=
  rstrip_with (fun c => mem_char c chars)
              (lstrip_with (fun c => mem_char c chars) s).

(** [s[:n]] *)
Fixpoint take (n : nat) (s : string) : string :=
  match n, s with
  | S n', String c r => String c (take n' r)
  | _, _ => EmptyString
  end.

(** [s[n:]] *)
Fixpoint drop (n : nat) (s : string) : string :=
  match n, s with
  | S n', String _ r => drop n' r
  | _, _ => s
  end.

(** [sep.join(parts)] *)
Fixpoint join (sep : string) (parts : list string) : string :=
  match parts with
  | [] => ""
  | [p] => p
  | p :: rest => p ++ sep ++ join sep rest
  end.

(** [s.split()]: the maximal runs of characters that are not white space. *)
Fixpoint split_from (cur : string) (s : string) : list string :=
  match s with
  | EmptyString => if is_empty cur then [] else [cur]
  | String c r =>
      if is_space c
      then (if is_empty cur then split_from "" r else cur :: split_from "" r)
      else split_from (cur ++ String c "") r
  end.

Definition split (s : string) : list string := split_from "" s.

(** [s.splitlines()]: [cur] is the line being read, [open] tells that the
    text read so far does not end at a line boundary, [after_cr] that the
    previous character was a carriage return. *)
Fixpoint splitlines_from (cur : string) (open after_cr : bool) (s : string)
  : list string :=
  match s with
  | EmptyString => if open then [cur] else []
  | String c r =>
      if after_cr && Nat.eqb (nat_of_ascii c) 10
      then splitlines_from "" false false r
      else if is_linebreak c
           then cur :: splitlines_from "" false (Nat.eqb (nat_of_ascii c) 13) r
           else splitlines_from (cur ++ String c "") true false r
  end.

Definition splitlines (s : string) : list string :=
  splitlines_from "" false false s.

(** [c.lower()] on U+0000..U+00FF: the letters A to Z and the capital
    letters of the Latin-1 supplement (U+00C0..U+00DE without U+00D7). *)
Definition lower_char (c : ascii) : ascii :=
  if in_range 65 90 c
     || (in_range 192 222 c && negb (Nat.eqb (nat_of_ascii c) 215))
  then ascii_of_nat (nat_of_ascii c + 32)
  else c.

Fixpoint lower (s : string) : string :=
  match s with
  | EmptyString => EmptyString
  | String c r => String (lower_char c) (lower r)
  end.

(** [str(n)] for a natural number. *)
Definition of_nat (n : nat) : string := NilEmpty.string_of_uint (Nat.to_uint n).

(** [[s[i:i+k] for i in range(0, len(s), k)]] for [k = S k']. *)
Fixpoint chunks_fuel (fuel : nat) (k' : nat) (s : string) : list string :=
  match fuel, s with
  | _, EmptyString => []
  | 0, _ => []
  | S fuel', _ => take (S k') s :: chunks_fuel fuel' k' (drop (S k') s)
  end.

Definition chunks (k' : nat) (s : string) : list string :=
  chunks_fuel (String.length s) k' s.

(** The first match of the pattern [(\{.*\}|\[.*\])] under [re.S]:
    [upto_last c s] is the prefix of [s] that ends at the last [c]. *)
Fixpoint upto_last (c : ascii) (s : string) : option string :=
  match s with
  | EmptyString => None
  | String a r =>
      match upto_last c r with
      | Some t => Some (String a t)
      | None => if Ascii.eqb a c then Some (String a "") else None
      end
  end.

(** [re.search(r'(\{.*\}|\[.*\])', s, re.S)], as the matched group: at the
    leftmost position where one alternative matches, the greedy [.*] runs
    to the last closing character of the text. *)
Fixpoint re_search_span (s : string) : option string :=
  match s with
  | EmptyString => None
  | String a r =>
      if Ascii.eqb a "{" then
        match upto_last "}" r with
        | Some t => Some (String a t)
        | None => re_search_span r
        end
      else if Ascii.eqb a "[" then
        match upto_last "]" r with
        | Some t => Some (String a t)
        | None => re_search_span r
        end
      else re_search_span r
  end.

End PyStr.

(** ** Python values *)

(** A [float], as far as it is needed: the special values and a finite
    decimal literal [(-1)^neg * mantissa * 10^exponent], which stands for
    the double nearest to it.  Only its type and its truth value are used. *)
Inductive pyfloat : Type :=
| FNaN
| FInfinity (neg : bool)
| FDecimal (neg : bool) (mantissa : N) (exponent : Z).

(** [None], [bool], [int], [float], [str], [list] and [dict] with string
    keys.  A dict keeps its keys in insertion order. *)
#[warning="-register-all"] Inductive value : Type :=
| VNone
| VBool (b : bool)
| VInt (z : Z)
| VFloat (f : pyfloat)
| VStr (s : string)
| VList (items : list value)
| VDict (entries : list (string * value)).

Definition dict : Type := list (string * value).

(** An exception: its class and the text [str(e)] gives. *)
Record exn : Type := Exn { exn_class : string; exn_str : string }.

Inductive result (A : Type) : Type :=
| Ok (a : A)
| Raise (e : exn).
Arguments Ok {A} a.
Arguments Raise {A} e.

Module Py.
Import PyStr.

Definition type_name (v : value) : string :=
  match v with
  | VNone => "NoneType"
  | VBool _ => "bool"
  | VInt _ => "int"
  | VFloat _ => "float"
  | VStr _ => "str"
  | VList _ => "list"
  | VDict _ => "dict"
  end.

Definition AttributeError (v : value) (attr : string) : exn :=
  Exn "AttributeError"
      ("'" ++ type_name v ++ "' object has no attribute '" ++ attr ++ "'").

Definition TypeError (msg : string) : exn := Exn "TypeError" msg.

(** A decimal literal denotes a number that rounds to zero when it is at
    most [2^-1075], half the least positive double. *)
Definition float_is_zero (f : pyfloat) : bool :=
  match f with
  | FNaN => false
  | FInfinity _ => false
  | FDecimal _ m e =>
      (m =? 0)%N
      || ((e <? 0)%Z && (Z.of_N m * 2 ^ 1075 <=? 10 ^ (- e))%Z)
  end.

(** [bool(v)] *)
Definition truthy (v : value) : bool :=
  match v with
  | VNone => false
  | VBool b => b
  | VInt z => negb (z =? 0)%Z
  | VFloat f => negb (float_is_zero f)
  | VStr s => negb (is_empty s)
  | VList l => match l with [] => false | _ => true end
  | VDict d => match d with [] => false | _ => true end
  end.

(** [isinstance(v, list)] *)
Definition is_list (v : value) : bool :=
  match v with VList _ => true | _ => false end.

(** [isinstance(v, dict)] *)
Definition is_dict (v : value) : bool :=
  match v with VDict _ => true | _ => false end.

(** [d.get(k)] on a dict, [None] when the key is absent. *)
Fixpoint dict_get (k : string) (d : dict) : option value :=
  match d with
  | [] => None
  | (k', v) :: r => if String.eqb k k' then Some v else dict_get k r
  end.

(** [d[k] = v]: the value is replaced where the key stands, a new key goes
    to the end. *)
Fixpoint dict_set (k : string) (v : value) (d : dict) : dict :=
  match d with
  | [] => [(k, v)]
  | (k', v') :: r =>
      if String.eqb k k' then (k, v) :: r else (k', v') :: dict_set k v r
  end.

(** [v.get(k, default)] on any value. *)
Definition get (v : value) (k : string) (default : value) : result value :=
  match v with
  | VDict d => Ok (match dict_get k d with Some x => x | None => default end)
  | _ => Raise (AttributeError v "get")
  end.

(** [v[:n]] *)
Definition slice_to (n : nat) (v : value) : result value :=
  match v with
  | VStr s => Ok (VStr (take n s))
  | VList l => Ok (VList (firstn n l))
  | VDict _ => Raise (TypeError "unhashable type: 'slice'")
  | _ => Raise (TypeError ("'" ++ type_name v ++ "' object is not subscriptable"))
  end.

(** [len(v)], where it is defined. *)
Definition len (v : value) : option nat :=
  match v with
  | VStr s => Some (String.length s)
  | VList l => Some (List.length l)
  | VDict d => Some (List.length d)
  | _ => None
  end.

(** [v.strip()] *)
Definition strip (v : value) : result string :=
  match v with
  | VStr s => Ok (PyStr.strip s)
  | _ => Raise (AttributeError v "strip")
  end.

(** [v + s] for a string [s] *)
Definition add_str (v : value) (s : string) : result string :=
  match v with
  | VStr a => Ok (a ++ s)
  | VList _ =>
      Raise (TypeError ("can only concatenate list (not " ++ quoted "str" ++ ") to list"))
  | _ =>
      Raise (TypeError ("unsupported operand type(s) for +: '"
                        ++ type_name v ++ "' and 'str'"))
  end.

(** [s + v] for a string [s] *)
Definition str_add (s : string) (v : value) : result string :=
  match v with
  | VStr b => Ok (s ++ b)
  | _ =>
      Raise (TypeError ("can only concatenate str (not " ++ quoted (type_name v)
                        ++ ") to str"))
  end.

(** The items [for x in v] goes through. *)
Definition iter (v : value) : result (list value) :=
  match v with
  | VList l => Ok l
  | VStr s => Ok (map (fun c => VStr (String c "")) (list_ascii_of_string s))
  | VDict d => Ok (map (fun kv => VStr (fst kv)) d)
  | _ => Raise (TypeError ("'" ++ type_name v ++ "' object is not iterable"))
  end.

(** The strings of a list of values, or the first item that is not one. *)
Fixpoint all_str (i : nat) (l : list value) : result (list string) :=
  match l with
  | [] => Ok []
  | VStr s :: r =>
      match all_str (S i) r with
      | Ok ss => Ok (s :: ss)
      | Raise e => Raise e
      end
  | v :: _ =>
      Raise (TypeError ("sequence item " ++ of_nat i ++ ": expected str instance, "
                        ++ type_name v ++ " found"))
  end.

(** [sep.join(v)] *)
Definition join (sep : string) (v : value) : result string :=
  match v with
  | VList _ | VStr _ | VDict _ =>
      match iter v with
      | Ok items =>
          match all_str 0 items with
          | Ok ss => Ok (PyStr.join sep ss)
          | Raise e => Raise e
          end
      | Raise e => Raise e
      end
  | _ => Raise (TypeError "can only join an iterable")
  end.





(** [v or ""] *)
Definition or_empty (v : value) : value :=
  if truthy v then v else VStr "".

End Py.

(** ** [json.loads] and [json.dumps] *)

(** The reader follows the scanner of CPython's [json] module with its
    default settings (strict strings, [NaN] and [Infinity] accepted), the
    writer its encoder ([ensure_ascii], separators [", "] and [": "]).
    The reader raises, as the interpreter does, on an integer of more
    digits than [int] converts and on a document nested deeper than the
    interpreter allows.  Two limits of the embedding remain.  An escape
    [\uXXXX] above U+00FF names a character that [ascii] does not have:
    [loads] has no value for a document that holds one, and is not to be
    read as [json.loads] there.  A finite float is written back as a
    decimal literal that denotes it, not in the shortest form that [repr]
    picks, and the writer is defined on every value, also on those on which
    [json.dumps] raises (an integer of too many digits, a nesting too
    deep): [dumps] is [json.dumps] on values without finite floats that it
    writes. *)

Module Json.
Import PyStr.

Definition is_ws (c : ascii) : bool :=
  Nat.eqb (nat_of_ascii c) 32 || Nat.eqb (nat_of_ascii c) 9
  || Nat.eqb (nat_of_ascii c) 10 || Nat.eqb (nat_of_ascii c) 13.

Definition skip_ws (s : string) : string := lstrip_with is_ws s.

Definition is_digit (c : ascii) : bool := in_range 48 57 c.

(** The longest run of digits at the head of [s], and what follows. *)
Fixpoint span_digits (s : string) : string * string :=
  match s with
  | EmptyString => ("", "")
  | String c r =>
      if is_digit c
      then match span_digits r with (d, rest) => (String c d, rest) end
      else ("", s)
  end.

(** [int(d)] for a run of digits. *)
Definition digits_value (d : string) : N :=
  match NilEmpty.uint_of_string d with
  | Some u => N.of_uint u
  | None => 0%N
  end.

(** The integer part: [0], or a digit from 1 to 9 and more digits. *)
Definition scan_int_part (s : string) : option (string * string) :=
  match s with
  | EmptyString => None
  | String c r =>
      if Nat.eqb (nat_of_ascii c) 48 then Some ("0", r)
      else if in_range 49 57 c
           then match span_digits r with (d, rest) => Some (String c d, rest) end
           else None
  end.

(** The fraction: a dot and at least one digit. *)
Definition scan_frac (s : string) : option string * string :=
  match s with
  | String dot (String c r) =>
      if Ascii.eqb dot "." && is_digit c
      then match span_digits (String c r) with (d, rest) => (Some d, rest) end
      else (None, s)
  | _ => (None, s)
  end.

(** The exponent: [e] or [E], a sign or none, and at least one digit. *)
Definition scan_exp (s : string) : option Z * string :=
  match s with
  | String e r =>
      if Ascii.eqb e "e" || Ascii.eqb e "E" then
        let '(neg, r1) :=
          match r with
          | String sg r' =>
              if Ascii.eqb sg "-" then (true, r')
              else if Ascii.eqb sg "+" then (false, r')
              else (false, r)
          | EmptyString => (false, r)
          end in
        match span_digits r1 with
        | (d, rest) =>
            if is_empty d then (None, s)
            else (Some (if neg then (- Z.of_N (digits_value d))%Z
                        else Z.of_N (digits_value d)), rest)
        end
      else (None, s)
  | EmptyString => (None, s)
  end.

(** The most digits that [int] converts from or to a decimal string:
    [sys.int_info.default_max_str_digits], in force since Python 3.11. *)
Definition max_str_digits : nat := 4300.

(** A number, after its sign: an [int] when it has neither fraction nor
    exponent, a [float] otherwise.  An [int] of too many digits raises. *)
Definition scan_number (neg : bool) (s : string) : option (value * string) :=
  match scan_int_part s with
  | None => None
  | Some (ip, r1) =>
      match scan_frac r1 with
      | (frac, r2) =>
          match scan_exp r2 with
          | (ex, r3) =>
              match frac, ex with
              | None, None =>
                  if Nat.ltb max_str_digits (String.length ip) then None
                  else Some (VInt (if neg then (- Z.of_N (digits_value ip))%Z
                                   else Z.of_N (digits_value ip)), r3)
              | _, _ =>
                  let fd := match frac with Some d => d | None => "" end in
                  let e := match ex with Some z => z | None => 0%Z end in
                  Some (VFloat (FDecimal neg (digits_value (ip ++ fd))
                                         (e - Z.of_nat (String.length fd))), r3)
              end
          end
      end
  end.

Definition hex_value (c : ascii) : option nat :=
  if in_range 48 57 c then Some (nat_of_ascii c - 48)
  else if in_range 97 102 c then Some (nat_of_ascii c - 87)
  else if in_range 65 70 c then Some (nat_of_ascii c - 55)
  else None.

(** The code point of the four hexadecimal digits of an escape. *)
Definition hex4 (a b c d : ascii) : option nat :=
  match hex_value a, hex_value b, hex_value c, hex_value d with
  | Some x, Some y, Some z, Some w => Some (((x * 16 + y) * 16 + z) * 16 + w)
  | _, _, _, _ => None
  end.

(** The character of a one-letter escape. *)
Definition simple_escape (e : ascii) : option ascii :=
  if Ascii.eqb e (ascii_of_nat 34) then Some (ascii_of_nat 34)
  else if Ascii.eqb e "\" then Some "\"%char
  else if Ascii.eqb e "/" then Some "/"%char
  else if Ascii.eqb e "b" then Some (ascii_of_nat 8)
  else if Ascii.eqb e "f" then Some (ascii_of_nat 12)
  else if Ascii.eqb e "n" then Some (ascii_of_nat 10)
  else if Ascii.eqb e "r" then Some (ascii_of_nat 13)
  else if Ascii.eqb e "t" then Some (ascii_of_nat 9)
  else None.

(** A string, after its opening quote: its characters and what follows the
    closing quote. *)
Fixpoint scanstring (s : string) : option (string * string) :=
  match s with
  | EmptyString => None
  | String c r =>
      if Nat.eqb (nat_of_ascii c) 34 then Some ("", r)
      else if Ascii.eqb c "\" then
        match r with
        | String e r' =>
            if Ascii.eqb e "u" then
              match r' with
              | String h1 (String h2 (String h3 (String h4 rest))) =>
                  match hex4 h1 h2 h3 h4 with
                  | Some n =>
                      if Nat.leb n 255 then
                        match scanstring rest with
                        | Some (t, rest') => Some (String (ascii_of_nat n) t, rest')
                        | None => None
                        end
                      else None
                  | None => None
                  end
              | _ => None
              end
            else
              match simple_escape e with
              | Some x =>
                  match scanstring r' with
                  | Some (t, rest') => Some (String x t, rest')
                  | None => None
                  end
              | None => None
              end
        | EmptyString => None
        end
      else if Nat.leb (nat_of_ascii c) 31 then None
      else
        match scanstring r with
        | Some (t, rest') => Some (String c t, rest')
        | None => None
        end
  end.

(** [s] without the prefix [p], when it starts with it. *)
Fixpoint strip_prefix (p s : string) : option string :=
  match p, s with
  | EmptyString, _ => Some s
  | String a p', String b s' => if Ascii.eqb a b then strip_prefix p' s' else None
  | String _ _, EmptyString => None
  end.

(** The scanner.  [scan_once] reads one value at the head of the text;
    [array_items] and [object_items] are the loops over the items of an
    array and of an object, [acc] holding what was read so far.  [room] is
    the number of arrays and objects, one inside the other, that the
    interpreter still allows: entering one more raises [RecursionError]. *)
Fixpoint scan_once (fuel room : nat) (s : string) : option (value * string) :=
  match fuel with
  | 0 => None
  | S fuel' =>
      match s with
      | EmptyString => None
      | String c r =>
          if Nat.eqb (nat_of_ascii c) 34 then
            match scanstring r with
            | Some (t, rest) => Some (VStr t, rest)
            | None => None
            end
          else if Ascii.eqb c "{" then
            match room with
            | 0 => None
            | S room' =>
                match skip_ws r with
                | String c' r' =>
                    if Ascii.eqb c' "}" then Some (VDict [], r')
                    else object_items fuel' room' (String c' r') []
                | EmptyString => None
                end
            end
          else if Ascii.eqb c "[" then
            match room with
            | 0 => None
            | S room' =>
                match skip_ws r with
                | String c' r' =>
                    if Ascii.eqb c' "]" then Some (VList [], r')
                    else array_items fuel' room' (String c' r') []
                | EmptyString => None
                end
            end
          else
            match strip_prefix "null" s, strip_prefix "true" s,
                  strip_prefix "false" s, strip_prefix "NaN" s,
                  strip_prefix "Infinity" s, strip_prefix "-Infinity" s with
            | Some rest, _, _, _, _, _ => Some (VNone, rest)
            | _, Some rest, _, _, _, _ => Some (VBool true, rest)
            | _, _, Some rest, _, _, _ => Some (VBool false, rest)
            | _, _, _, Some rest, _, _ => Some (VFloat FNaN, rest)
            | _, _, _, _, Some rest, _ => Some (VFloat (FInfinity false), rest)
            | _, _, _, _, _, Some rest => Some (VFloat (FInfinity true), rest)
            | None, None, None, None, None, None =>
                if Ascii.eqb c "-" then scan_number true r
                else scan_number false s
            end
      end
  end
with array_items (fuel room : nat) (s : string) (acc : list value)
  : option (value * string) :=
  match fuel with
  | 0 => None
  | S fuel' =>
      match scan_once fuel' room s with
      | None => None
      | Some (v, rest) =>
          match skip_ws rest with
          | String c r =>
              if Ascii.eqb c "]" then Some (VList (acc ++ [v])%list, r)
              else if Ascii.eqb c ","
                   then array_items fuel' room (skip_ws r) (acc ++ [v])%list
              else None
          | EmptyString => None
          end
      end
  end
with object_items (fuel room : nat) (s : string) (acc : dict)
  : option (value * string) :=
  match fuel with
  | 0 => None
  | S fuel' =>
      match s with
      | String q r =>
          if Nat.eqb (nat_of_ascii q) 34 then
            match scanstring r with
            | None => None
            | Some (key, rest) =>
                match skip_ws rest with
                | String colon r1 =>
                    if Ascii.eqb colon ":" then
                      match scan_once fuel' room (skip_ws r1) with
                      | None => None
                      | Some (v, rest') =>
                          match skip_ws rest' with
                          | String c r2 =>
                              if Ascii.eqb c "}"
                              then Some (VDict (Py.dict_set key v acc), r2)
                              else if Ascii.eqb c ","
                                   then object_items fuel' room (skip_ws r2)
                                                     (Py.dict_set key v acc)
                                   else None
                          | EmptyString => None
                          end
                      end
                    else None
                | EmptyString => None
                end
            end
          else None
      | EmptyString => None
      end
  end.

(** [json.loads(s)], [None] when it raises; [room] is the nesting of
    arrays and objects that the interpreter allows when it is called. *)
Definition loads (room : nat) (s : string) : option value :=
  match scan_once (S (String.length s)) room (skip_ws s) with
  | Some (v, rest) => if is_empty (skip_ws rest) then Some v else None
  | None => None
  end.

(** The writer. *)

Definition hex_char (n : nat) : ascii :=
  if Nat.ltb n 10 then ascii_of_nat (48 + n) else ascii_of_nat (87 + n).

(** One character of a string, as [ensure_ascii] writes it. *)
Definition escape_char (c : ascii) : string :=
  let n := nat_of_ascii c in
  if Nat.eqb n 34 then String "\" dq
  else if Nat.eqb n 92 then "\\"
  else if Nat.eqb n 10 then "\n"
  else if Nat.eqb n 13 then "\r"
  else if Nat.eqb n 9 then "\t"
  else if Nat.eqb n 8 then "\b"
  else if Nat.eqb n 12 then "\f"
  else if in_range 32 126 c then String c ""
  else "\u00" ++ String (hex_char (n / 16)) (String (hex_char (n mod 16)) "").

Fixpoint escape (s : string) : string :=
  match s with
  | EmptyString => ""
  | String c r => escape_char c ++ escape r
  end.

Definition dumps_str (s : string) : string := dq ++ escape s ++ dq.

Definition dumps_N (n : N) : string := NilEmpty.string_of_uint (N.to_uint n).

Definition dumps_int (z : Z) : string :=
  match z with
  | Zneg p => "-" ++ dumps_N (Npos p)
  | _ => dumps_N (Z.to_N z)
  end.

Definition dumps_float (f : pyfloat) : string :=
  match f with
  | FNaN => "NaN"
  | FInfinity neg => if neg then "-Infinity" else "Infinity"
  | FDecimal neg m e =>
      (if neg then "-" else "") ++ dumps_N m ++ "e" ++ dumps_int e
  end.

(** [json.dumps(v)] *)
Fixpoint dumps (v : value) : string :=
  match v with
  | VNone => "null"
  | VBool b => if b then "true" else "false"
  | VInt z => dumps_int z
  | VFloat f => dumps_float f
  | VStr s => dumps_str s
  | VList items =>
      "[" ++ (fix go (l : list value) : string :=
                match l with
                | [] => ""
                | [x] => dumps x
                | x :: r => dumps x ++ ", " ++ go r
                end) items ++ "]"
  | VDict entries =>
      "{" ++ (fix go (l : list (string * value)) : string :=
                match l with
                | [] => ""
                | [(k, x)] => dumps_str k ++ ": " ++ dumps x
                | (k, x) :: r => dumps_str k ++ ": " ++ dumps x ++ ", " ++ go r
                end) entries ++ "}"
  end.

End Json.

(** ** State and exceptions *)

(** A computation over a mutable state [S] that returns or raises; the
    state reached is kept in both cases, as an [except] clause sees the
    effects of the block it guards. *)
Definition M (S A : Type) : Type := S -> result A * S.

Definition ret {S A} (a : A) : M S A := fun s => (Ok a, s).

Definition raise {S A} (e : exn) : M S A := fun s => (Raise e, s).

Definition bind {S A B} (m : M S A) (k : A -> M S B) : M S B :=
  fun s =>
    match m s with
    | (Ok a, s') => k a s'
    | (Raise e, s') => (Raise e, s')
    end.

(** A pure operation that can raise. *)
Definition lift {S A} (r : result A) : M S A := fun s => (r, s).

(** [try: body  except Exception as e: handler(e)] *)
Definition try_except {S A} (body : M S A) (handler : exn -> M S A) : M S A :=
  fun s =>
    match body s with
    | (Ok a, s') => (Ok a, s')
    | (Raise e, s') => handler e s'
    end.

Declare Scope py_scope.
Delimit Scope py_scope with py.
Notation "x <- m ;; k" := (bind m (fun x => k))
  (at level 61, m at next level, right associativity) : py_scope.
Notation "m ;;; k" := (bind m (fun _ => k))
  (at level 61, right associativity) : py_scope.
Open Scope py_scope.

(** What the external model does with one request: it answers with a
    response object, of which [resp_text] is the attribute [text] (absent or
    [None] when [None]) and [resp_str] is [str(resp)], or it raises. *)
Record response : Type := Response { resp_text : option string; resp_str : string }.

Inductive outcome : Type :=
| Returns (r : response)
| Raises (e : exn).

(** The world outside the pipeline: the prompts sent to the model so far,
    in order, and the number of identifiers drawn. *)
Record state : Type := State { prompts : list string; draws : nat }.

(** The objects [process_text_to_mindmap] mutates in place, with the world. *)
Record frame : Type :=
  Frame { world : state; nodes : list dict; edges : list dict; meta : dict }.

Definition in_world {A} (m : M state A) : M frame A :=
  fun fr =>
    match m (world fr) with
    | (r, w) => (r, Frame w (nodes fr) (edges fr) (meta fr))
    end.

Definition get_nodes : M frame (list dict) := fun fr => (Ok (nodes fr), fr).

Definition set_nodes (ns : list dict) : M frame unit :=
  fun fr => (Ok tt, Frame (world fr) ns (edges fr) (meta fr)).

(** [meta[k] = v] *)
Definition set_meta (k : string) (v : value) : M frame unit :=
  fun fr => (Ok tt, Frame (world fr) (nodes fr) (edges fr) (Py.dict_set k v (meta fr))).

(** ** Identifiers *)

Definition hex_digit (n : N) : ascii :=
  if (n <? 10)%N then ascii_of_N (48 + n) else ascii_of_N (87 + n).

(** ['%0kx' % n], the last [k] digits. *)
Fixpoint hex_fixed (k : nat) (n : N) : string :=
  match k with
  | 0 => ""
  | S k' => hex_fixed k' (n / 16) ++ String (hex_digit (n mod 16)) ""
  end.

(** ** [collections.Counter] *)

Definition counter : Type := list (string * nat).

(** [c[w] += 1] *)
Fixpoint counter_add (w : string) (c : counter) : counter :=
  match c with
  | [] => [(w, 1)]
  | (w', n) :: r =>
      if String.eqb w w' then (w', S n) :: r else (w', n) :: counter_add w r
  end.

(** [Counter(words)]: the counts, in the order the words are first met. *)
Definition Counter (words : list string) : counter :=
  fold_left (fun c w => counter_add w c) words [].

(** [x] goes before the first entry whose count is not larger than its own;
    [x] was met before every entry of [l]. *)
Fixpoint insert_desc (x : string * nat) (l : counter) : counter :=
  match l with
  | [] => [x]
  | y :: r => if Nat.ltb (snd x) (snd y) then y :: insert_desc x r else x :: l
  end.

(** [sorted(c.items(), key=itemgetter(1), reverse=True)], a stable sort. *)
Fixpoint sort_desc (c : counter) : counter :=
  match c with
  | [] => []
  | x :: r => insert_desc x (sort_desc r)
  end.

(** [c.most_common(n)] *)
Definition most_common (n : nat) (c : counter) : counter :=
  firstn n (sort_desc c).

(** ** Prompts *)

Module Prompts.
Import PyStr.

(** Three characters of the prompts lie outside U+0000..U+00FF (the bullet,
    the en dash and the em dash); they stand here as their UTF-8 bytes.
    Only the external model reads them. *)
Definition utf8 (a b c : nat) : string :=
  String (ascii_of_nat a) (String (ascii_of_nat b) (String (ascii_of_nat c) "")).
Definition bullet : string := utf8 226 128 162.
Definition en_dash : string := utf8 226 128 147.
Definition em_dash : string := utf8 226 128 148.

Definition lines (l : list string) : string := join nl l.

Definition STRUCTURE_PROMPT (text : string) : string :=
  lines
    [ "";
      "You are an expert educational AI that converts study material into a detailed mind map.";
      "";
      "INPUT TEXT:";
      text;
      "";
      "TASK:";
      "- Identify key topics and organize them hierarchically.";
      "- There can be multiple levels (like 3, 4, or more) if the content naturally supports it.";
      "- Each node must include:";
      "  " ++ bullet ++ " " ++ quoted "title" ++ ": short descriptive name (2" ++ en_dash ++ "6 words)";
      "  " ++ bullet ++ " " ++ quoted "summary" ++ ": a concise explanation (<= 40 words)";
      "  " ++ bullet ++ " " ++ quoted "key_points" ++ ": 1" ++ en_dash ++ "4 short bullet points (optional)";
      "  " ++ bullet ++ " " ++ quoted "subtopics" ++ ": a list of deeper related nodes (if applicable)";
      "";
      "OUTPUT:";
      "Return strictly valid JSON with the structure:";
      "[";
      "  {";
      "    " ++ quoted "title" ++ ": " ++ quoted "Root Topic" ++ ",";
      "    " ++ quoted "summary" ++ ": " ++ quoted "..." ++ ",";
      "    " ++ quoted "key_points" ++ ": [" ++ quoted "point1" ++ ", " ++ quoted "point2" ++ "],";
      "    " ++ quoted "subtopics" ++ ": [";
      "      {";
      "        " ++ quoted "title" ++ ": " ++ quoted "Subtopic 1" ++ ",";
      "        " ++ quoted "summary" ++ ": " ++ quoted "..." ++ ",";
      "        " ++ quoted "key_points" ++ ": [" ++ quoted "p1" ++ ", " ++ quoted "p2" ++ "],";
      "        " ++ quoted "subtopics" ++ ": [ ... ]";
      "      }";
      "    ]";
      "  }";
      "]";
      "" ].

Definition MAP_SUMMARY_PROMPT (hierarchy : string) : string :=
  lines
    [ "";
      "You are an academic summarizer. Given the structured hierarchy of a mind map, ";
      "generate a short, clear study summary in JSON format.";
      "";
      "Input (hierarchy JSON):";
      hierarchy;
      "";
      "Return valid JSON:";
      "{";
      "  " ++ quoted "thesis" ++ ": " ++ quoted "1-line overall takeaway" ++ ",";
      "  " ++ quoted "bullets" ++ ": [" ++ quoted "6 quick revision points" ++ "],";
      "  " ++ quoted "quiz" ++ ": [";
      "    {" ++ quoted "q" ++ ": " ++ quoted "Question 1?" ++ ", " ++ quoted "a" ++ ": " ++ quoted "Answer" ++ "},";
      "    {" ++ quoted "q" ++ ": " ++ quoted "Question 2?" ++ ", " ++ quoted "a" ++ ": " ++ quoted "Answer" ++ "}";
      "  ]";
      "}";
      "" ].

Definition ROOT_NAME_PROMPT (text : string) : string :=
  lines
    [ "";
      "You are given a block of study material.";
      "Generate a short, descriptive title (max 6 words) that represents the main theme or subject.";
      "Return only the title " ++ em_dash ++ " no explanation.";
      "";
      "Input text:";
      text;
      "" ].

(** The prompt of the pre-summarization of one chunk. *)
Definition chunk_prompt (c : string) : string :=
  "Summarize this text in one short sentence (<=25 words):" ++ nl ++ nl ++ c.

(** The stricter prompt of the retry. *)
Definition retry_prompt (structure_prompt : string) : string :=
  structure_prompt ++ nl ++ nl
  ++ "Re-output strictly valid JSON with nested subtopics only.".

(** The prompt of the batched explanations. *)
Definition batch_prompt (titles : list string) : string :=
  "You are an AI educator. Given a list of study topics, return a JSON array where "
  ++ "each item is {" ++ quoted "title" ++ ": " ++ quoted "topic" ++ ", "
  ++ quoted "explanation" ++ ": " ++ quoted "Layman + Technical + Tip (max 90 words)"
  ++ "}." ++ nl ++ nl
  ++ "Topics:" ++ nl ++ join nl (map (fun t => "- " ++ t) titles).

(** The prompt of the companion generator that is in force (the second
    definition of [generate_quiz_and_flashcards] in [copilot.py]). *)
Definition quiz_prompt (summary_text : string) : string :=
  lines
    [ "";
      "    You are an academic NLP assistant. From the text below, create:";
      "    1. 5 flashcards (question + concise answer)";
      "    2. 5 multiple-choice quiz questions (with 4 options and the correct answer).";
      "";
      "    Text:";
      "    " ++ summary_text;
      "";
      "    Output valid JSON:";
      "    {";
      "      " ++ quoted "flashcards" ++ ": [{" ++ quoted "q" ++ ": " ++ quoted "..." ++ ", " ++ quoted "a" ++ ": " ++ quoted "..." ++ "}],";
      "      " ++ quoted "quiz" ++ ": [{" ++ quoted "q" ++ ": " ++ quoted "..." ++ ", " ++ quoted "options" ++ ": ["
        ++ quoted "A" ++ "," ++ quoted "B" ++ "," ++ quoted "C" ++ "," ++ quoted "D" ++ "], "
        ++ quoted "answer" ++ ": " ++ quoted "A" ++ "}]";
      "    }";
      "    " ].

(** The prompt of the first definition, which the second one replaces. *)
Definition quiz_prompt_shadowed (summary_text : string) : string :=
  lines
    [ "";
      "You are an academic assistant. Based on the text below, create:";
      "1. 5 concise flashcards (front = question, back = answer)";
      "2. 5 short quiz questions with 4 options each and the correct answer marked.";
      "";
      "Return valid JSON:";
      "{";
      "  " ++ quoted "flashcards" ++ ": [{" ++ quoted "q" ++ ": " ++ quoted "..." ++ ", " ++ quoted "a" ++ ": " ++ quoted "..." ++ "}],";
      "  " ++ quoted "quiz" ++ ": [{" ++ quoted "q" ++ ": " ++ quoted "..." ++ ", " ++ quoted "options" ++ ": ["
        ++ quoted "..." ++ "," ++ quoted "..." ++ "," ++ quoted "..." ++ "," ++ quoted "..." ++ "], "
        ++ quoted "answer" ++ ": " ++ quoted "..." ++ "}]";
      "}";
      "";
      "Text:";
      summary_text;
      "" ].

End Prompts.

(** ** The pipeline of [modules/pipeline.py] *)

Section Pipeline.

(** [json.loads], [None] when it raises, and [json.dumps]. *)
Variable json_loads : string -> option value.
Variable json_dumps : value -> string.

(** [MODEL.generate_content]: what the external model does with the
    [n]-th request it receives, given the prompt. *)
Variable generate_content : nat -> string -> outcome.

(** [uuid.uuid4().int] of the [n]-th draw. *)
Variable uuid4 : nat -> N.

(** The number of nested calls of [build_graph_from_hierarchy] that the
    interpreter has frames for when the function is called, the frames
    that a call needs for the calls it makes itself (to [_short_id] and
    from there to [uuid.uuid4]) being set aside: a call nested deeper
    raises [RecursionError]. *)
Variable recursion_limit : nat.

(** [uuid.uuid4().hex] *)
Definition uuid4_hex (n : nat) : string := hex_fixed 32 (uuid4 n).

(** [_short_id(prefix)] *)
Definition _short_id (prefix : string) : M state string :=
  fun st =>
    (Ok (prefix ++ "_" ++ PyStr.take 8 (uuid4_hex (draws st))),
     State (prompts st) (S (draws st))).

(** [_safe_json_loads(s)]; the failure indicator is [None]. *)
Definition _safe_json_loads (s : string) : value :=
  match json_loads s with
  | Some v => v
  | None =>
      match PyStr.re_search_span s with
      | Some group =>
          match json_loads group with
          | Some v => v
          | None => VNone
          end
      | None => VNone
      end
  end.

(** One request to the external model. *)
Definition MODEL_generate_content (prompt : string) : state -> outcome * state :=
  fun st =>
    (generate_content (List.length (prompts st)) prompt,
     State (prompts st ++ [prompt])%list (draws st)).

(** [getattr(resp, "text", None) or str(resp)] *)
Definition text_or_str (resp : response) : string :=
  match resp_text resp with
  | Some t => if PyStr.is_empty t then resp_str resp else t
  | None => resp_str resp
  end.

(** The loop of [_call_gemini] from one attempt on, [left] being the
    number of attempts that may follow it. *)
Fixpoint _call_gemini_attempts (left : nat) (prompt : string) (st : state)
  : string * state :=
  match MODEL_generate_content prompt st with
  | (Returns resp, st') => (PyStr.strip (text_or_str resp), st')
  | (Raises e, st') =>
      match left with
      | S left' => _call_gemini_attempts left' prompt st'
      | 0 => ("__GEMINI_ERROR__: " ++ exn_str e, st')
      end
  end.

(** [_call_gemini(prompt, retry)] *)
Definition _call_gemini_retry (retry : nat) (prompt : string) : M state string :=
  fun st =>
    match _call_gemini_attempts retry prompt st with
    | (text, st') => (Ok text, st')
    end.

(** [_call_gemini(prompt)], with the default [retry=1]. *)
Definition _call_gemini (prompt : string) : M state string :=
  _call_gemini_retry 1 prompt.

(** *** The graph builder *)

(** The node of one outline item. *)
Definition make_node (node_id : string) (label : value) (level : nat)
    (summary key_points : value) : dict :=
  [ ("id", VStr node_id); ("label", label); ("level", VInt (Z.of_nat level));
    ("summary", summary); ("key_points", key_points) ].

Definition make_edge (source target : string) : dict :=
  [ ("source", VStr source); ("target", VStr target) ].

(** [if parent_id:] *)
Definition parent_given (parent_id : option string) : option string :=
  match parent_id with
  | Some p => if PyStr.is_empty p then None else Some p
  | None => None
  end.

(** One turn of the loop [for item in hierarchy], the lists being [acc];
    [recur] is the recursive call on the subtopics. *)
Definition build_item
    (recur : value -> option string -> nat -> list dict * list dict
             -> M state (list dict * list dict))
    (parent_id : option string) (level : nat) (item : value)
    (acc : list dict * list dict) : M state (list dict * list dict) :=
  node_id <- _short_id ("n" ++ PyStr.of_nat level) ;;
  title <- lift (Py.get item "title" (VStr "")) ;;
  label <- lift (Py.slice_to 140 title) ;;
  summary0 <- lift (Py.get item "summary" (VStr "")) ;;
  summary <- lift (Py.slice_to 400 summary0) ;;
  key_points0 <- lift (Py.get item "key_points" (VList [])) ;;
  key_points <- lift (Py.slice_to 6 key_points0) ;;
  subtopics <- lift (Py.get item "subtopics" (VList [])) ;;
  let nodes1 := (fst acc ++ [make_node node_id label level summary key_points])%list in
  let edges1 :=
    match parent_given parent_id with
    | Some p => (snd acc ++ [make_edge p node_id])%list
    | None => snd acc
    end in
  if Py.is_list subtopics && Py.truthy subtopics
  then recur subtopics (Some node_id) (S level) (nodes1, edges1)
  else ret (nodes1, edges1).

(** The loop [for item in hierarchy]. *)
Fixpoint build_items
    (recur : value -> option string -> nat -> list dict * list dict
             -> M state (list dict * list dict))
    (parent_id : option string) (level : nat) (items : list value)
    (acc : list dict * list dict) : M state (list dict * list dict) :=
  match items with
  | [] => ret acc
  | item :: rest =>
      acc' <- build_item recur parent_id level item acc ;;
      build_items recur parent_id level rest acc'
  end.

(** [build_graph_from_hierarchy(hierarchy, parent_id, level, nodes, edges)],
    the two lists being given; [fuel] is the number of nested calls the
    interpreter still has frames for.  Only the class of the
    [RecursionError] is used: its message depends on the call at which the
    interpreter runs out of frames. *)
Fixpoint build_graph_fuel (fuel : nat) (hierarchy : value)
    (parent_id : option string) (level : nat) (acc : list dict * list dict)
  : M state (list dict * list dict) :=
  match fuel with
  | 0 => raise (Exn "RecursionError" "maximum recursion depth exceeded")
  | S fuel' =>
      items <- lift (Py.iter hierarchy) ;;
      build_items (build_graph_fuel fuel') parent_id level items acc
  end.

(** The nesting depth of lists and dicts in a value. *)
Fixpoint depth (v : value) : nat :=
  match v with
  | VList items =>
      S ((fix go (l : list value) : nat :=
            match l with
            | [] => 0
            | x :: r => Nat.max (depth x) (go r)
            end) items)
  | VDict entries =>
      S ((fix go (l : list (string * value)) : nat :=
            match l with
            | [] => 0
            | (_, x) :: r => Nat.max (depth x) (go r)
            end) entries)
  | _ => 0
  end.

(** [build_graph_from_hierarchy(hierarchy)]: the recursion is one call
    deep for each level of the outline, within the limit of the
    interpreter. *)
Definition build_graph_from_hierarchy (hierarchy : value)
  : M state (list dict * list dict) :=
  build_graph_fuel recursion_limit hierarchy None 0 ([], []).

(** *** The orchestrator *)

(** [s.splitlines()[0]] *)
Definition first_line (s : string) : result string :=
  match PyStr.splitlines s with
  | l :: _ => Ok l
  | [] => Raise (Exn "IndexError" "list index out of range")
  end.

(** [[text[i:i+k] for i in range(0, len(text), k)]] for an integer [k]. *)
Definition chunks_of (text : string) (k : Z) : result (list string) :=
  if (k =? 0)%Z then Raise (Exn "ValueError" "range() arg 3 must not be zero")
  else if (k <? 0)%Z then Ok []
  else Ok (PyStr.chunks (Nat.pred (Z.to_nat k)) text).

(** The loop over the chunks of an oversized text. *)
Fixpoint summarize_chunks (chunks : list string) (summaries : list string)
  : M state (list string) :=
  match chunks with
  | [] => ret summaries
  | c :: rest =>
      out <- _call_gemini (Prompts.chunk_prompt c) ;;
      line <- lift (first_line out) ;;
      summarize_chunks rest (summaries ++ [PyStr.strip line])%list
  end.

(** The working text: the input, or the one-line summaries of its chunks. *)
Definition working_text (text : string) (chunk_threshold_chars : Z)
  : M state string :=
  if (chunk_threshold_chars <? Z.of_nat (String.length text))%Z then
    chunks <- lift (chunks_of text chunk_threshold_chars) ;;
    summaries <- summarize_chunks chunks [] ;;
    ret (PyStr.join PyStr.nl summaries)
  else ret text.

(** The value returned on blank input. *)
Definition no_text_result : value :=
  VDict [ ("nodes", VList []); ("edges", VList []);
          ("meta", VDict [ ("summary", VStr ""); ("error", VStr "no_text") ]) ].

(** The value returned when no outline could be read. *)
Definition parse_failed_result (root_id root_title text : string) : value :=
  let node :=
    [ ("id", VStr root_id);
      ("label", VStr (if PyStr.is_empty root_title then "Main Topic" else root_title));
      ("level", VInt 0);
      ("summary", VStr (PyStr.take 320 text)) ] in
  VDict [ ("nodes", VList [VDict node]); ("edges", VList []);
          ("meta", VDict [ ("summary", VStr (PyStr.take 800 text));
                           ("warning", VStr "parse_failed") ]) ].

(** The value returned at the end of the normal path. *)
Definition graph_result (fr : frame) : value :=
  VDict [ ("nodes", VList (map VDict (nodes fr)));
          ("edges", VList (map VDict (edges fr)));
          ("meta", VDict (meta fr)) ].

(** The body of the [try] of the summary and quiz stage. *)
Definition summary_try (structure : value) : M frame unit :=
  top3 <- lift (Py.slice_to 3 structure) ;;
  let compact := json_dumps top3 in
  let map_prompt := Prompts.MAP_SUMMARY_PROMPT compact in
  raw_map <- in_world (_call_gemini map_prompt) ;;
  let parsed_map := _safe_json_loads raw_map in
  if Py.truthy parsed_map then
    thesis <- lift (Py.get parsed_map "thesis" (VStr "")) ;;
    head <- lift (Py.add_str thesis (PyStr.nl ++ PyStr.nl)) ;;
    bullets <- lift (Py.get parsed_map "bullets" (VList [])) ;;
    tail <- lift (Py.join PyStr.nl bullets) ;;
    set_meta "summary" (VStr (head ++ tail)) ;;;
    quiz <- lift (Py.get parsed_map "quiz" (VList [])) ;;
    set_meta "quiz" quiz
  else ret tt.

Definition summary_stage (enable_map_summary : bool) (structure : value)
  : M frame unit :=
  if enable_map_summary then
    try_except (summary_try structure)
               (fun e => set_meta "summary_error" (VStr (exn_str e)))
  else ret tt.

(** [n.get("label", "").strip()] for a node [n]. *)
Definition node_label (n : dict) : result string :=
  Py.strip (match Py.dict_get "label" n with Some v => v | None => VStr "" end).

(** [[n.get("label", "").strip() for n in nodes if n.get("label", "").strip()]] *)
Fixpoint label_titles (ns : list dict) : result (list string) :=
  match ns with
  | [] => Ok []
  | n :: rest =>
      match node_label n with
      | Raise e => Raise e
      | Ok lbl =>
          if PyStr.is_empty lbl then label_titles rest
          else match node_label n with
               | Raise e => Raise e
               | Ok lbl' =>
                   match label_titles rest with
                   | Raise e => Raise e
                   | Ok ts => Ok (lbl' :: ts)
                   end
               end
      end
  end.

(** The loop that fills [mapping] from a parsed list. *)
Fixpoint mapping_of_list (items : list value) (mapping : dict) : result dict :=
  match items with
  | [] => Ok mapping
  | i :: rest =>
      match Py.get i "title" VNone with
      | Raise e => Raise e
      | Ok t =>
          match Py.strip (Py.or_empty t) with
          | Raise e => Raise e
          | Ok k =>
              match Py.get i "explanation" VNone with
              | Raise e => Raise e
              | Ok x => mapping_of_list rest (Py.dict_set k (Py.or_empty x) mapping)
              end
          end
      end
  end.

(** The loop that fills [mapping] from a parsed dict. *)
Fixpoint mapping_of_dict (entries : list (string * value)) (mapping : dict) : dict :=
  match entries with
  | [] => mapping
  | (k, v) :: rest => mapping_of_dict rest (Py.dict_set (PyStr.strip k) v mapping)
  end.

Definition mapping_of (parsed : value) : result dict :=
  match parsed with
  | VList items => mapping_of_list items []
  | VDict entries => Ok (mapping_of_dict entries [])
  | _ => Ok []
  end.

(** [for n in nodes: n["ai_explanation"] = f(n)]: the nodes as they stand
    when the loop ends or raises, and the exception if it raised. *)
Fixpoint assign_explanations (f : dict -> result value) (ns : list dict)
  : list dict * option exn :=
  match ns with
  | [] => ([], None)
  | n :: rest =>
      match f n with
      | Raise e => (ns, Some e)
      | Ok x =>
          match assign_explanations f rest with
          | (rest', r) => (Py.dict_set "ai_explanation" x n :: rest', r)
          end
      end
  end.

Definition for_each_node (f : dict -> result value) : M frame unit :=
  fun fr =>
    match assign_explanations f (nodes fr) with
    | (ns, None) => (Ok tt, Frame (world fr) ns (edges fr) (meta fr))
    | (ns, Some e) => (Raise e, Frame (world fr) ns (edges fr) (meta fr))
    end.

(** [mapping.get(lbl, "No explanation available.")] for the label of [n]. *)
Definition explanation_for (mapping : dict) (n : dict) : result value :=
  match node_label n with
  | Raise e => Raise e
  | Ok lbl =>
      Ok (match Py.dict_get lbl mapping with
          | Some x => x
          | None => VStr "No explanation available."
          end)
  end.

(** The body of the [try] of the batched explanations. *)
Definition explanation_try : M frame unit :=
  ns <- get_nodes ;;
  titles <- lift (label_titles ns) ;;
  match titles with
  | _ :: _ =>
      raw_expl <- in_world (_call_gemini (Prompts.batch_prompt titles)) ;;
      let parsed := _safe_json_loads raw_expl in
      mapping <- lift (mapping_of parsed) ;;
      for_each_node (explanation_for mapping)
  | [] => for_each_node (fun _ => Ok (VStr "No explanation available."))
  end.

Definition explanation_stage : M frame unit :=
  try_except explanation_try
    (fun e =>
       for_each_node (fun _ => Ok (VStr "Explanation unavailable.")) ;;;
       set_meta "tooltip_error" (VStr (exn_str e))).

(** [n.get("label", "") + " " + n.get("summary", "")] for a node [n]. *)
Definition node_text (n : dict) : result string :=
  match Py.add_str (match Py.dict_get "label" n with Some v => v | None => VStr "" end) " " with
  | Raise e => Raise e
  | Ok s => Py.str_add s (match Py.dict_get "summary" n with Some v => v | None => VStr "" end)
  end.

Fixpoint node_texts (ns : list dict) : result (list string) :=
  match ns with
  | [] => Ok []
  | n :: rest =>
      match node_text n with
      | Raise e => Raise e
      | Ok t =>
          match node_texts rest with
          | Raise e => Raise e
          | Ok ts => Ok (t :: ts)
          end
      end
  end.

(** [[w.lower().strip(".,:;()[]") for w in text_pool.split() if len(w) > 3]] *)
Definition keyword_tokens (text_pool : string) : list string :=
  map (fun w => PyStr.strip_chars ".,:;()[]" (PyStr.lower w))
      (filter (fun w => Nat.ltb 3 (String.length w)) (PyStr.split text_pool)).

(** [[w for w, _ in Counter(words).most_common(12)]] *)
Definition top_keywords (words : list string) : list string :=
  map fst (most_common 12 (Counter words)).

(** The body of the [try] of the keyword extraction. *)
Definition keywords_try : M frame unit :=
  ns <- get_nodes ;;
  texts <- lift (node_texts ns) ;;
  let text_pool := PyStr.join " " texts in
  let words := keyword_tokens text_pool in
  set_meta "keywords" (VList (map VStr (top_keywords words))).

Definition keywords_stage : M frame unit :=
  try_except keywords_try (fun _ => set_meta "keywords" (VList [])).

(** The three enrichment stages and the return of the normal path. *)
Definition enrich (enable_map_summary : bool) (structure : value) : M frame value :=
  summary_stage enable_map_summary structure ;;;
  explanation_stage ;;;
  keywords_stage ;;;
  (fun fr => (Ok (graph_result fr), fr)).

(** Runs a computation on the local objects and gives back the world. *)
Definition with_frame {A} (ns es : list dict) (mt : dict) (m : M frame A)
  : M state A :=
  fun st =>
    match m (Frame st ns es mt) with
    | (r, fr) => (r, world fr)
    end.

(** The hierarchy acquisition: the structuring call, and one retry with the
    stricter prompt when the answer is not a non-empty list. *)
Definition acquire_structure (prompt_text : string) : M state value :=
  let structure_prompt := Prompts.STRUCTURE_PROMPT prompt_text in
  raw_structure <- _call_gemini structure_prompt ;;
  let structure := _safe_json_loads raw_structure in
  if negb (Py.truthy structure) || negb (Py.is_list structure) then
    raw_retry <- _call_gemini (Prompts.retry_prompt structure_prompt) ;;
    ret (_safe_json_loads raw_retry)
  else ret structure.

(** [process_text_to_mindmap(text, chunk_threshold_chars, enable_map_summary)] *)
Definition process_text_to_mindmap (text : string) (chunk_threshold_chars : Z)
    (enable_map_summary : bool) : M state value :=
  let text := PyStr.strip text in
  if PyStr.is_empty text then ret no_text_result
  else
    prompt_text <- working_text text chunk_threshold_chars ;;
    raw_title <- _call_gemini (Prompts.ROOT_NAME_PROMPT prompt_text) ;;
    title_line <- lift (first_line raw_title) ;;
    let root_title := PyStr.strip title_line in
    structure <- acquire_structure prompt_text ;;
    if negb (Py.truthy structure) then
      root_id <- _short_id "root" ;;
      ret (parse_failed_result root_id root_title text)
    else
      built <- build_graph_from_hierarchy structure ;;
      let meta0 := [ ("n_nodes", VInt (Z.of_nat (List.length (fst built)))) ] in
      with_frame (fst built) (snd built) meta0
                 (enrich enable_map_summary structure).

(** ** The companion generator of [modules/copilot.py] *)

(** [response.text] of the answer to one request, or the exception. *)
Definition response_text (o : outcome) : result value :=
  match o with
  | Returns resp =>
      Ok (match resp_text resp with Some t => VStr t | None => VNone end)
  | Raises e => Raise e
  end.

(** [re.search(pattern, v, re.S)] on any value, as the matched group. *)
Definition re_search (v : value) : result (option string) :=
  match v with
  | VStr s => Ok (PyStr.re_search_span s)
  | _ => Raise (Py.TypeError "expected string or bytes-like object")
  end.

(** What follows the request in the [try] of [generate_quiz_and_flashcards]. *)
Definition quiz_of_response (o : outcome) : result (value * value) :=
  match response_text o with
  | Raise e => Raise e
  | Ok text =>
      match re_search text with
      | Raise e => Raise e
      | Ok None => Ok (VList [], VList [])
      | Ok (Some group) =>
          match json_loads group with
          | None => Raise (Exn "JSONDecodeError" "")
          | Some data =>
              match Py.get data "flashcards" (VList []) with
              | Raise e => Raise e
              | Ok flashcards =>
                  match Py.get data "quiz" (VList []) with
                  | Raise e => Raise e
                  | Ok quiz => Ok (flashcards, quiz)
                  end
              end
          end
      end
  end.

(** [generate_quiz_and_flashcards(summary_text)], the definition in force. *)
Definition generate_quiz_and_flashcards (summary_text : string)
  : state -> (value * value) * state :=
  fun st =>
    if PyStr.is_empty (PyStr.strip summary_text) then ((VList [], VList []), st)
    else
      match MODEL_generate_content (Prompts.quiz_prompt summary_text) st with
      | (o, st') =>
          match quiz_of_response o with
          | Ok r => (r, st')
          | Raise _ => ((VList [], VList []), st')
          end
      end.

(** The first definition of the same name, which the module replaces by the
    one above when it is loaded. *)
Definition quiz_of_response_shadowed (o : outcome) : result (value * value) :=
  match response_text o with
  | Raise e => Raise e
  | Ok (VStr text) =>
      match json_loads text with
      | None => Raise (Exn "JSONDecodeError" "")
      | Some data =>
          match Py.get data "flashcards" (VList []) with
          | Raise e => Raise e
          | Ok flashcards =>
              match Py.get data "quiz" (VList []) with
              | Raise e => Raise e
              | Ok quiz => Ok (flashcards, quiz)
              end
          end
      end
  | Ok v =>
      Raise (Py.TypeError ("the JSON object must be str, bytes or bytearray, not "
                           ++ Py.type_name v))
  end.

Definition generate_quiz_and_flashcards_shadowed (summary_text : string)
  : state -> (value * value) * state :=
  fun st =>
    if PyStr.is_empty (PyStr.strip summary_text) then ((VList [], VList []), st)
    else
      match MODEL_generate_content (Prompts.quiz_prompt_shadowed summary_text) st with
      | (o, st') =>
          match quiz_of_response_shadowed o with
          | Ok r => (r, st')
          | Raise _ => ((VList [], VList []), st')
          end
      end.

End Pipeline.

(** ** The copilot of [modules/copilot.py] and the tooltip of
    [modules/hover_tooltip.py] *)

Module CopilotText.
Import PyStr.

(** The warning sign of the error replies (U+26A0 U+FE0F), the right single
    quotation mark and the en dash, as their UTF-8 bytes. *)
Definition warning_sign : string :=
  Prompts.utf8 226 154 160 ++ Prompts.utf8 239 184 143.
Definition right_quote : string := Prompts.utf8 226 128 153.

Definition persona : string :=
  "You are MapMyNotes Copilot " ++ Prompts.em_dash ++ " a helpful academic assistant. "
  ++ "You receive study notes and mind map structures and respond "
  ++ "clearly, concisely, and with examples.".

Definition copilot_prompt (context question : string) : string :=
  "Context:" ++ nl ++ context ++ nl ++ nl ++ "User Question: " ++ question.

Definition summarize_prompt (context : string) : string :=
  "Create a clear and concise summary of this mind map suitable for quick revision. "
  ++ "Use bullet points and key ideas." ++ nl ++ nl ++ context.

Definition explain_prompt (node_text : string) : string :=
  "Explain this topic in simple terms and give a short example:" ++ nl ++ nl
  ++ node_text.

Definition layman_prompt (text : string) : string :=
  Prompts.lines
    [ "";
      "    You are an educational AI assistant. Explain the following topic clearly:";
      "    " ++ quoted text;
      "    ";
      "    Requirements:";
      "    - Start with a simple layman" ++ right_quote ++ "s explanation (2"
        ++ Prompts.en_dash ++ "3 lines)";
      "    - Follow with a short technical explanation (2" ++ Prompts.en_dash
        ++ "3 lines)";
      "    - End with a quick learning tip or analogy.";
      "    Make it easy to understand but still informative.";
      "    " ].

End CopilotText.

Section Copilot.

(** [format(v, "")] for a value that is not a [str], as an f-string renders
    it; [model.generate_content] on a prompt and on a conversation; and the
    exception [response.text.strip()] raises on a response without text. *)
Variable py_format : value -> string.
Variable generate_content : nat -> string -> outcome.
Variable generate_chat : nat -> list value -> outcome.
Variable no_text_error : response -> exn.

(** [f"{v}"] *)
Definition format_value (v : value) : string :=
  match v with VStr s => s | _ => py_format v end.

(** One turn of a conversation. *)
Definition turn (role text : string) : value :=
  VDict [ ("role", VStr role); ("parts", VList [VStr text]) ].

(** [init_copilot()] *)
Definition init_copilot : list value := [ turn "user" CopilotText.persona ].

(** The loop [for n in nodes[:50]: text_parts.append(f"- {n.get('label', '')}")],
    as the lines it appends. *)
Fixpoint topic_lines (ns : list value) : result (list string) :=
  match ns with
  | [] => Ok []
  | n :: rest =>
      match Py.get n "label" (VStr "") with
      | Raise e => Raise e
      | Ok label =>
          match topic_lines rest with
          | Raise e => Raise e
          | Ok ls => Ok (("- " ++ format_value label) :: ls)
          end
      end
  end.

(** The lines of the block [if nodes:]. *)
Definition topics_block (nodes : value) : result (list string) :=
  if Py.truthy nodes then
    match Py.slice_to 50 nodes with
    | Raise e => Raise e
    | Ok first =>
        match Py.iter first with
        | Raise e => Raise e
        | Ok items =>
            match topic_lines items with
            | Raise e => Raise e
            | Ok ls => Ok ("Mind Map Topics:" :: ls)
            end
        end
    end
  else Ok [].

(** The lines of the block [if "sentences" in map_meta:]. *)
Definition sentences_block (d : dict) : result (list string) :=
  match Py.dict_get "sentences" d with
  | None => Ok []
  | Some sentences =>
      match Py.slice_to 40 sentences with
      | Raise e => Raise e
      | Ok first =>
          match Py.iter first with
          | Raise e => Raise e
          | Ok items =>
              Ok ((PyStr.nl ++ "Source Text Highlights:")
                  :: map (fun s => Prompts.bullet ++ " " ++ format_value s) items)
          end
      end
  end.

(** The lines of the block [if summary:]. *)
Definition summary_block (d : dict) : result (list string) :=
  let summary :=
    Py.or_empty (match Py.dict_get "summary" d with Some v => v | None => VNone end) in
  if Py.truthy summary then
    match Py.str_add (PyStr.nl ++ "Overall Summary:" ++ PyStr.nl) summary with
    | Raise e => Raise e
    | Ok t => Ok [t]
    end
  else Ok [].

(** [_compose_context(map_meta)] *)
Definition _compose_context (map_meta : value) : result string :=
  if negb (Py.truthy map_meta) then Ok "No map context provided."
  else
    match Py.get map_meta "nodes" (VList []) with
    | Raise e => Raise e
    | Ok nodes =>
        match topics_block nodes with
        | Raise e => Raise e
        | Ok topics =>
            match map_meta with
            | VDict d =>
                match sentences_block d with
                | Raise e => Raise e
                | Ok highlights =>
                    match summary_block d with
                    | Raise e => Raise e
                    | Ok overall =>
                        Ok (PyStr.join PyStr.nl (topics ++ highlights ++ overall)%list)
                    end
                end
            | _ => Raise (Py.AttributeError map_meta "get")
            end
        end
    end.

(** [f"<warning sign> Error: {e}"] *)
Definition error_reply (e : exn) : string :=
  CopilotText.warning_sign ++ " Error: " ++ exn_str e.

(** [response.text.strip()], or the exception of the [try] block. *)
Definition stripped_text (o : outcome) : result string :=
  match o with
  | Returns resp =>
      match resp_text resp with
      | Some t => Ok (PyStr.strip t)
      | None => Raise (no_text_error resp)
      end
  | Raises e => Raise e
  end.

(** The [try] block of the functions that send one prompt. *)
Definition reply_or (on_error : exn -> string) (prompt : string)
  : state -> string * state :=
  fun st =>
    match MODEL_generate_content generate_content prompt st with
    | (o, st') =>
        (match stripped_text o with Ok t => t | Raise e => on_error e end, st')
    end.

(** [ask_copilot(question, history, map_meta)]: the reply and the history
    as the call leaves it, the world being the number of conversations the
    model has been sent. *)
Definition ask_copilot (question : string) (history : list value) (map_meta : value)
  : nat -> result (string * list value) * nat :=
  fun n =>
    match _compose_context map_meta with
    | Raise e => (Raise e, n)
    | Ok context =>
        let prompt := CopilotText.copilot_prompt context question in
        let history1 := (history ++ [turn "user" prompt])%list in
        let reply :=
          match stripped_text (generate_chat n history1) with
          | Ok t => t
          | Raise e => error_reply e
          end in
        (Ok (reply, (history1 ++ [turn "model" reply])%list), S n)
    end.

(** [summarize_map(map_meta)] *)
Definition summarize_map (map_meta : value) : M state string :=
  fun st =>
    match _compose_context map_meta with
    | Raise e => (Raise e, st)
    | Ok context =>
        match reply_or error_reply (CopilotText.summarize_prompt context) st with
        | (t, st') => (Ok t, st')
        end
    end.

(** [explain_node(node_text)] *)
Definition explain_node (node_text : string) : state -> string * state :=
  reply_or error_reply (CopilotText.explain_prompt node_text).

(** [explain_node_in_layman(text)] of [hover_tooltip.py] *)
Definition explain_node_in_layman (text : string) : state -> string * state :=
  reply_or (fun _ => "Detailed explanation unavailable for now.")
           (CopilotText.layman_prompt text).

End Copilot.

(** ** Outlines, and the vocabulary of the properties *)

Module Outline.

(** What [item.get("subtopics", [])] gives for an item. *)
Definition subtopics_value (item : value) : value :=
  match item with
  | VDict d => match Py.dict_get "subtopics" d with Some v => v | None => VList [] end
  | _ => VList []
  end.

(** The number of items of an outline, at all depths: an item and the items
    of its subtopics, when these are a list. *)
Fixpoint count_items (h : value) : nat :=
  match h with
  | VList items =>
      (fix go (l : list value) : nat :=
         match l with
         | [] => 0
         | item :: r =>
             S (match item with
                | VDict d =>
                    (fix find (d : list (string * value)) : nat :=
                       match d with
                       | [] => 0
                       | (k, v) :: d' =>
                           if String.eqb "subtopics" k then count_items v else find d'
                       end) d
                | _ => 0
                end + go r)
         end) items
  | _ => 0
  end.

(** The number of top-level items. *)
Definition top_items (h : value) : nat :=
  match h with VList items => List.length items | _ => 0 end.

(** [v[:n]] is defined: [v] is a string or a list. *)
Definition sliceable (v : value) : bool :=
  match v with VStr _ | VList _ => true | _ => false end.

(** The field [k] of an item is absent, or a string or a list. *)
Definition field_ok (k : string) (d : dict) : bool :=
  match Py.dict_get k d with Some v => sliceable v | None => true end.

(** A well-formed outline: a list of dicts, whose [title], [summary] and
    [key_points] are absent or can be truncated, and whose [subtopics], when
    a list, are a well-formed outline. *)
Fixpoint outline_ok (h : value) : bool :=
  match h with
  | VList items =>
      (fix go (l : list value) : bool :=
         match l with
         | [] => true
         | item :: r =>
             match item with
             | VDict d =>
                 field_ok "title" d && field_ok "summary" d
                 && field_ok "key_points" d
                 && (fix find (d : list (string * value)) : bool :=
                       match d with
                       | [] => true
                       | (k, v) :: d' =>
                           if String.eqb "subtopics" k
                           then (if Py.is_list v then outline_ok v else true)
                           else find d'
                       end) d
             | _ => false
             end && go r
         end) items
  | _ => false
  end.

(** The string under key [k] of a node or an edge. *)
Definition str_field (k : string) (d : dict) : string :=
  match Py.dict_get k d with Some (VStr s) => s | _ => "" end.

(** The number of edges that point to node [n]. *)
Definition inbound (es : list dict) (n : dict) : nat :=
  count_occ string_dec (map (str_field "target") es) (str_field "id" n).

(** [len(v) <= n] *)
Definition len_le (n : nat) (v : option value) : Prop :=
  match v with
  | Some x => match Py.len x with Some k => k <= n | None => False end
  | None => False
  end.

(** The bounds on the fields of a node. *)
Definition node_bounded (n : dict) : Prop :=
  len_le 140 (Py.dict_get "label" n)
  /\ len_le 400 (Py.dict_get "summary" n)
  /\ len_le 6 (Py.dict_get "key_points" n).

End Outline.

(** ** What the builder is proved to do *)

Module BuilderSpec.
Import Outline.

(** The eight hexadecimal digits that [_short_id] keeps of the [j]-th draw. *)
Definition short8 (uuid4 : nat -> N) (j : nat) : string :=
  PyStr.take 8 (uuid4_hex uuid4 j).

(** The identifier of a node of level [lvl] that uses the [j]-th draw. *)
Definition short_id_of (uuid4 : nat -> N) (lvl j : nat) : string :=
  ("n" ++ PyStr.of_nat lvl) ++ "_" ++ PyStr.take 8 (uuid4_hex uuid4 j).

(** [n] is a node of the level and of the draw of [slot], with bounded
    fields. *)
Definition node_at (uuid4 : nat -> N) (slot : nat * nat) (n : dict) : Prop :=
  exists label summary key_points,
    n = make_node (short_id_of uuid4 (fst slot) (snd slot)) label (fst slot)
                  summary key_points
    /\ len_le 140 (Some label) /\ len_le 400 (Some summary)
    /\ len_le 6 (Some key_points).

Definition node_level (n : dict) : nat :=
  match Py.dict_get "level" n with Some (VInt z) => Z.to_nat z | _ => 0 end.

(** The nodes that get an edge in a call at [level] under [parent]: all of
    them when a parent is given, those of a deeper level otherwise. *)
Definition keep (parent : option string) (level : nat) (n : dict) : bool :=
  match parent_given parent with
  | Some _ => true
  | None => Nat.ltb level (node_level n)
  end.

(** The outcome of a call of the builder on an outline of [count] items, of
    which [top] at the top, entered with the lists [nodes] and [edges]. *)
Definition build_post (uuid4 : nat -> N) (count top : nat)
    (parent : option string) (level : nat) (nodes edges : list dict) (st : state)
    (out : result (list dict * list dict) * state) : Prop :=
  exists slots new_nodes new_edges,
    out = (Ok ((nodes ++ new_nodes)%list, (edges ++ new_edges)%list),
           State (prompts st) (draws st + count))
    /\ Forall2 (node_at uuid4) slots new_nodes
    /\ map snd slots = seq (draws st) count
    /\ Forall (fun s => level <= fst s) slots
    /\ map (str_field "target") new_edges
       = map (str_field "id") (filter (keep parent level) new_nodes)
    /\ List.length new_edges
       = match parent_given parent with Some _ => count | None => count - top end.

(** A recursive call that returns leaves every node bounded. *)
Definition keeps_bounded
    (recur : value -> option string -> nat -> list dict * list dict
             -> M state (list dict * list dict)) : Prop :=
  forall h parent level acc st acc' st',
    recur h parent level acc st = (Ok acc', st') ->
    Forall node_bounded (fst acc) -> Forall node_bounded (fst acc').

End BuilderSpec.

(** ** The vocabulary of the repair pattern *)

Module JsonSpec.

(** The three parts of a match of the repair pattern in [s]: [g] is the
    group, from the opening character [o] to the last closing character
    [c] of [s]; no earlier opening character has a closing one after it. *)
Definition bracket_pair (o c : ascii) : Prop :=
  (o = "{"%char /\ c = "}"%char) \/ (o = "["%char /\ c = "]"%char).


End JsonSpec.

(** ** What the orchestrator is proved to do *)

Module PipelineSpec.

(** [n["ai_explanation"] = x] *)
Definition set_explanation (x : value) (n : dict) : dict :=
  Py.dict_set "ai_explanation" x n.

(** [ns'] is [ns] with the explanation of some of its nodes set. *)
Definition partly_explained (ns ns' : list dict) : Prop :=
  Forall2 (fun n n' => n' = n \/ exists x, n' = set_explanation x n) ns ns'.

(** [ns'] is [ns] with the explanation of each node set. *)
Definition explained (ns ns' : list dict) : Prop :=
  Forall2 (fun n n' => exists x, n' = set_explanation x n) ns ns'.

(** The key [k] is present in [d]. *)
Definition has_key (k : string) (d : dict) : Prop := Py.dict_get k d <> None.

(** [d.get(k, [])] *)
Definition or_empty_list (k : string) (d : dict) : value :=
  match Py.dict_get k d with Some v => v | None => VList [] end.

(** The label and the summary of [n] are strings, where it has them. *)
Definition text_fields (n : dict) : bool :=
  match Py.dict_get "label" n with
  | Some (VStr _) | None => true
  | Some _ => false
  end
  && match Py.dict_get "summary" n with
     | Some (VStr _) | None => true
     | Some _ => false
     end.

(** What the keyword stage stores for the nodes [ns]. *)
Definition keywords_of (ns : list dict) : value :=
  match node_texts ns with
  | Ok texts =>
      VList (map VStr (top_keywords (keyword_tokens (PyStr.join " " texts))))
  | Raise _ => VList []
  end.

(** The run on [text] gets as far as the hierarchy acquisition, with the
    working text [prompt_text] and the root title [root_title], in the
    world [st2]. *)
Definition reaches_acquisition (generate_content : nat -> string -> outcome)
    (text : string) (chunk_threshold_chars : Z) (st : state)
    (prompt_text root_title : string) (st2 : state) : Prop :=
  PyStr.is_empty (PyStr.strip text) = false
  /\ exists st1 raw_title title_line,
       working_text generate_content (PyStr.strip text) chunk_threshold_chars st
       = (Ok prompt_text, st1)
       /\ _call_gemini generate_content (Prompts.ROOT_NAME_PROMPT prompt_text) st1
          = (Ok raw_title, st2)
       /\ first_line raw_title = Ok title_line
       /\ root_title = PyStr.strip title_line.

(** The run on [text] gets as far as the enrichment stages, entered with
    the outline [structure] and the frame [fr0]. *)
Definition reaches_enrichment (json_loads : string -> option value)
    (generate_content : nat -> string -> outcome) (uuid4 : nat -> N)
    (recursion_limit : nat)
    (text : string) (chunk_threshold_chars : Z) (st : state)
    (structure : value) (fr0 : frame) : Prop :=
  exists prompt_text root_title st2 st3 built,
    reaches_acquisition generate_content text chunk_threshold_chars st
                        prompt_text root_title st2
    /\ acquire_structure json_loads generate_content prompt_text st2
       = (Ok structure, st3)
    /\ Py.truthy structure = true
    /\ build_graph_from_hierarchy uuid4 recursion_limit structure st3
       = (Ok built, world fr0)
    /\ nodes fr0 = fst built /\ edges fr0 = snd built
    /\ meta fr0 = [ ("n_nodes", VInt (Z.of_nat (List.length (fst built)))) ].

End PipelineSpec.

(** ** The vocabulary of the keyword ranking *)

Module Ranking.

(** The position at which [w] is first met in [ws] ([length ws] when it is
    not met). *)
Fixpoint index_of (w : string) (ws : list string) : nat :=
  match ws with
  | [] => 0
  | x :: r => if String.eqb w x then 0 else S (index_of w r)
  end.

(** [a] goes before [b] in the ranking of the words [ws]: it is more
    frequent, or as frequent and first met earlier. *)
Definition ranks_before (ws : list string) (a b : string) : Prop :=
  count_occ string_dec ws b < count_occ string_dec ws a
  \/ (count_occ string_dec ws a = count_occ string_dec ws b
      /\ index_of a ws < index_of b ws).

(** The same on the entries of a counter: first by their position in
    [ws], then by their counts and positions. *)
Definition by_first_index (ws : list string) (x y : string * nat) : Prop :=
  index_of (fst x) ws < index_of (fst y) ws.

Definition by_rank (ws : list string) (x y : string * nat) : Prop :=
  snd y < snd x \/ (snd x = snd y /\ index_of (fst x) ws < index_of (fst y) ws).

(** The counter [c] holds the words of [ws], each once and with the number
    of times it occurs, in the order in which they are first met. *)
Definition counts_of (ws : list string) (c : counter) : Prop :=
  NoDup (map fst c)
  /\ (forall w n, In (w, n) c -> n = count_occ string_dec ws w /\ In w ws)
  /\ (forall w, In w ws -> In w (map fst c))
  /\ StronglySorted (fun a b => index_of a ws < index_of b ws) (map fst c).

(** The keyword list as the specification words it: every token is
    lowercased and stripped first, and the tokens longer than 3 characters
    are kept afterwards. *)
Definition keywords_as_worded (text_pool : string) : list string :=
  top_keywords
    (filter (fun w => Nat.ltb 3 (String.length w))
            (map (fun w => PyStr.strip_chars ".,:;()[]" (PyStr.lower w))
                 (PyStr.split text_pool))).

End Ranking.

(** ** The vocabulary of the requests, the draws and the exceptions *)

Module WorldSpec.

(** A text that is empty or starts with a character of which [p] does not
    hold. *)
Definition keeps_head (p : ascii -> bool) (s : string) : Prop :=
  match s with EmptyString => True | String c _ => p c = false end.

(** Every character of [s] is one of [chars]. *)
Definition made_of (chars s : string) : Prop :=
  forall c, PyStr.mem_char c s = true -> PyStr.mem_char c chars = true.

(** The number of chunks of [k] characters that a text of [n] characters is
    cut into. *)
Definition chunk_count (n k : nat) : nat := (n + (k - 1)) / k.

(** The number of chunks the orchestrator summarizes one by one. *)
Definition chunk_calls (text : string) (chunk_threshold_chars : Z) : nat :=
  if (chunk_threshold_chars <? Z.of_nat (String.length text))%Z
     && (0 <? chunk_threshold_chars)%Z
  then chunk_count (String.length text) (Z.to_nat chunk_threshold_chars)
  else 0.

(** [st'] is [st] after at most [n] more requests, and no draw. *)
Definition sends (n : nat) (st st' : state) : Prop :=
  (exists extra, prompts st' = (prompts st ++ extra)%list /\ List.length extra <= n)
  /\ draws st' = draws st.

(** A recursive call of the builder sends nothing, and when it returns it
    has only added to the two lists, one node for each draw. *)
Definition only_appends
    (recur : value -> option string -> nat -> list dict * list dict
             -> M state (list dict * list dict)) : Prop :=
  forall h parent level acc st r st',
    recur h parent level acc st = (r, st') ->
    prompts st' = prompts st /\ draws st <= draws st'
    /\ forall acc', r = Ok acc' ->
         exists ns es, acc' = ((fst acc ++ ns)%list, (snd acc ++ es)%list)
                       /\ draws st' = draws st + List.length ns.

(** The classes of the exceptions the builder can raise: calling [get] on
    what is not a dict, slicing what cannot be sliced, iterating over what
    cannot be iterated.  The slice of a dict is a [TypeError] up to Python
    3.11 and a [KeyError] from Python 3.12 on. *)
Definition builder_error (e : exn) : Prop :=
  exn_class e = "AttributeError" \/ exn_class e = "TypeError"
  \/ exn_class e = "KeyError".

(** The entry of [mt] under [k], when there is one, is a string. *)
Definition text_valued (k : string) (mt : dict) : Prop :=
  forall v, Py.dict_get k mt = Some v -> exists s, v = VStr s.

End WorldSpec.

(** ** The vocabulary of the document order *)

Module WalkSpec.
Import Outline BuilderSpec.

(** The items of an outline with their levels, in document order: an item,
    the items of its subtopics when these are a list, the items after it. *)
Fixpoint preorder (level : nat) (h : value) : list (nat * value) :=
  match h with
  | VList items =>
      (fix go (l : list value) : list (nat * value) :=
         match l with
         | [] => []
         | item :: r =>
             ((level, item)
              :: match item with
                 | VDict d =>
                     (fix find (d : list (string * value)) : list (nat * value) :=
                        match d with
                        | [] => []
                        | (k, v) :: d' =>
                            if String.eqb "subtopics" k then preorder (S level) v
                            else find d'
                        end) d
                 | _ => []
                 end ++ go r)%list
         end) items
  | _ => []
  end.

(** The node the builder makes of [item] at [level] under the identifier
    [node_id]. *)
Definition node_of (node_id : string) (level : nat) (item : value) : result dict :=
  match Py.get item "title" (VStr "") with
  | Raise e => Raise e
  | Ok title =>
      match Py.slice_to 140 title with
      | Raise e => Raise e
      | Ok label =>
          match Py.get item "summary" (VStr "") with
          | Raise e => Raise e
          | Ok summary0 =>
              match Py.slice_to 400 summary0 with
              | Raise e => Raise e
              | Ok summary =>
                  match Py.get item "key_points" (VList []) with
                  | Raise e => Raise e
                  | Ok key_points0 =>
                      match Py.slice_to 6 key_points0 with
                      | Raise e => Raise e
                      | Ok key_points =>
                          Ok (make_node node_id label level summary key_points)
                      end
                  end
              end
          end
      end
  end.

(** [n] is the node of the item and level of [slot], under the identifier
    of that level and of the draw of [slot]. *)
Definition built_from (uuid4 : nat -> N) (slot : nat * (nat * value)) (n : dict)
  : Prop :=
  node_of (short_id_of uuid4 (fst (snd slot)) (fst slot)) (fst (snd slot))
          (snd (snd slot))
  = Ok n.

(** The slots of an outline entered at [level] with [d] draws made. *)
Definition slots_of (d level : nat) (h : value) : list (nat * (nat * value)) :=
  combine (seq d (List.length (preorder level h))) (preorder level h).

(** [e] goes from a node of [ns] to a later node of [ns], one level down. *)
Definition descends (ns : list dict) (e : dict) : Prop :=
  exists l1 n_s l2 n_t l3,
    ns = (l1 ++ n_s :: l2 ++ n_t :: l3)%list
    /\ e = make_edge (str_field "id" n_s) (str_field "id" n_t)
    /\ node_level n_t = S (node_level n_s).

(** [e] is an edge of a call at [level] under [parent] that has made the
    nodes [ns]: it goes from the parent to one of them at that level, or
    descends among them. *)
Definition edge_of_call (parent : option string) (level : nat) (ns : list dict)
    (e : dict) : Prop :=
  (exists p n_t, parent_given parent = Some p /\ In n_t ns
                 /\ e = make_edge p (str_field "id" n_t)
                 /\ node_level n_t = level)
  \/ descends ns e.

(** What a call of the builder that returns has done. *)
Definition walks (uuid4 : nat -> N)
    (recur : value -> option string -> nat -> list dict * list dict
             -> M state (list dict * list dict)) : Prop :=
  forall h parent level acc st acc' st',
    recur h parent level acc st = (Ok acc', st') ->
    exists ns es,
      acc' = ((fst acc ++ ns)%list, (snd acc ++ es)%list)
      /\ draws st' = draws st + List.length (preorder level h)
      /\ Forall2 (built_from uuid4) (slots_of (draws st) level h) ns
      /\ Forall (edge_of_call parent level ns) es.

End WalkSpec.

(** ** The vocabulary of the copilot *)

Module CopilotSpec.

(** The label of a topic: what [n.get('label', '')] gives, rendered. *)
Definition topic_label (py_format : value -> string) (n : value) : string :=
  match n with
  | VDict d =>
      format_value py_format
        (match Py.dict_get "label" d with Some v => v | None => VStr "" end)
  | _ => ""
  end.

(** The lines of the context. *)
Definition topic_line (py_format : value -> string) (n : dict) : string :=
  "- " ++ topic_label py_format (VDict n).

Definition highlight_line (py_format : value -> string) (x : value) : string :=
  Prompts.bullet ++ " " ++ format_value py_format x.

Definition overall_lines (s : string) : string :=
  PyStr.nl ++ "Overall Summary:" ++ PyStr.nl ++ s.

(** A conversation: the persona, then questions and answers in turn. *)
Definition conversation (h : list value) : Prop :=
  exists exchanges : list (string * string),
    h = (init_copilot
         ++ flat_map (fun qa => [turn "user" (fst qa); turn "model" (snd qa)])
                     exchanges)%list.

End CopilotSpec.

(** ** The vocabulary of the enrichment stages *)

Module EnrichSpec.

(** [d.get(k)] *)
Definition field (k : string) (d : dict) : value :=
  match Py.dict_get k d with Some v => v | None => VNone end.

(** The stage reads [item] without raising: it is a dict whose title is a
    string, or is absent or falsy. *)
Definition readable (item : value) : bool :=
  match item with
  | VDict d => match Py.or_empty (field "title" d) with VStr _ => true | _ => false end
  | _ => false
  end.

(** [item] is a dict whose title, stripped, is [lbl]; a title that is
    absent or falsy counts as the empty string. *)
Definition titled (lbl : string) (item : value) : bool :=
  match item with
  | VDict d =>
      match Py.or_empty (field "title" d) with
      | VStr s => String.eqb lbl (PyStr.strip s)
      | _ => false
      end
  | _ => false
  end.

(** The last item of [items] that is titled [lbl]. *)
Fixpoint last_titled (lbl : string) (items : list value) : option value :=
  match items with
  | [] => None
  | item :: rest =>
      match last_titled lbl rest with
      | Some found => Some found
      | None => if titled lbl item then Some item else None
      end
  end.

(** The explanation the reply [items] has for the label [lbl]: that of the
    last item titled [lbl], the empty string when it is absent or falsy;
    the default text when no item is titled [lbl]. *)
Definition answer_for (items : list value) (lbl : string) : value :=
  match last_titled lbl items with
  | Some (VDict d) => Py.or_empty (field "explanation" d)
  | _ => VStr "No explanation available."
  end.

(** [d.get(k, default)] *)
Definition field_or (k : string) (default : value) (d : dict) : value :=
  match Py.dict_get k d with Some v => v | None => default end.

End EnrichSpec.

(** ** Concrete worlds *)

Module Examples.
Import PyStr.

Definition st0 : state := State [] 0.

(** [n] is a value of [uuid.uuid4().int]: 128 bits, of which the version
    (bits 76 to 79) is 4 and the variant (bits 62 and 63) is 2. *)
Definition is_uuid4 (n : N) : bool :=
  ((n <? 2 ^ 128) && ((n / 2 ^ 76) mod 16 =? 4) && ((n / 2 ^ 62) mod 4 =? 2))%N.

(** The version and the variant of the draws of the examples: the
    hexadecimal digits [4000] and [8000] after the first twelve. *)
Definition uuid4_marks : N := (4 * 2 ^ 76 + 2 * 2 ^ 62)%N.

(** Draws that differ and share their first eight hexadecimal digits:
    [deadbeef-0000-4000-8000-] and the number of the draw. *)
Definition uuid_colliding (j : nat) : N :=
  (3735928559 * 2 ^ 96 + uuid4_marks + N.of_nat j)%N.

(** Draws whose first eight hexadecimal digits count up from zero. *)
Definition uuid_counting (j : nat) : N := (N.of_nat j * 2 ^ 96 + uuid4_marks)%N.

(** The room the interpreter has in the examples, for the nested calls of
    the builder and for the nesting of a JSON document. *)
Definition room : nat := 900.

(** One item with a title of 150 characters, a summary of 450 characters
    and seven key points. *)
Definition verbose_outline : value :=
  VList [ VDict [ ("title", VStr (String.concat "" (repeat "title" 30)));
                  ("summary", VStr (String.concat "" (repeat "summary. " 50)));
                  ("key_points",
                   VList (map VStr ["a"; "b"; "c"; "d"; "e"; "f"; "g"])) ] ].

(** Two items without fields at the top level. *)
Definition two_items : value := VList [VDict []; VDict []].

(** One item with two subtopics. *)
Definition one_tree : value :=
  VList [ VDict [ ("title", VStr "Root");
                  ("subtopics", VList [ VDict [("title", VStr "A")];
                                        VDict [("title", VStr "B")] ]) ] ].

(** The run of the orchestrator on [text] with the model [gen], the reader
    and writer of [Json], counting draws and the default settings. *)
Definition run (gen : nat -> string -> outcome) (text : string)
  : result value * state :=
  process_text_to_mindmap (Json.loads room) Json.dumps gen uuid_counting room
                          text 18000 true st0.

(** A model that gives the listed outcomes to its first requests, in
    order, and is unreachable afterwards. *)
Definition scripted (replies : list outcome) : nat -> string -> outcome :=
  fun n _ => nth n replies (Raises (Exn "RuntimeError" "service unavailable")).

(** The model answers with the text [t]. *)
Definition says (t : string) : outcome := Returns (Response (Some t) "").


(** The object with key [a] and value 1, as JSON text. *)
Definition object_a1 : string := "{" ++ quoted "a" ++ ": 1}".

(** A model that gives a title and then no outline, twice. *)
Definition no_outline : nat -> string -> outcome :=
  scripted [ says "Cell Biology"; says "I cannot help."; says "Sorry." ].

(** A model that gives a title and then, twice, a JSON object where the
    outline is expected. *)
Definition object_outline : nat -> string -> outcome :=
  scripted [ says "Cell Biology"; says object_a1; says object_a1 ].

(** A model that gives a blank answer where the title is expected. *)
Definition blank_title : nat -> string -> outcome :=
  scripted [ says " " ].

(** An outline of one item, as JSON text. *)
Definition outline_text : string :=
  "[{" ++ quoted "title" ++ ": " ++ quoted "Cells" ++ ", "
  ++ quoted "summary" ++ ": " ++ quoted "Cells divide; cells grow." ++ "}]".

(** The same outline, read, and the frame with which the enrichment stages
    are entered on the input "notes". *)
Definition cells_outline : value :=
  VList [ VDict [ ("title", VStr "Cells");
                  ("summary", VStr "Cells divide; cells grow.") ] ].

Definition cells_frame : frame :=
  Frame (State [ Prompts.ROOT_NAME_PROMPT "notes";
                 Prompts.STRUCTURE_PROMPT "notes" ] 1)
        [ make_node "n0_00000000" (VStr "Cells") 0
                    (VStr "Cells divide; cells grow.") (VList []) ]
        []
        [ ("n_nodes", VInt 1) ].

(** A model that gives a title and an outline of one item whose title is
    "The end.", and is unreachable afterwards. *)
Definition short_words : nat -> string -> outcome :=
  scripted [ says "Cell Biology";
             says ("[{" ++ quoted "title" ++ ": " ++ quoted "The end." ++ "}]") ].

(** A summary object, as JSON text. *)
Definition summary_text : string :=
  "{" ++ quoted "thesis" ++ ": " ++ quoted "Cells are units of life" ++ ", "
  ++ quoted "bullets" ++ ": [" ++ quoted "mitosis" ++ "], "
  ++ quoted "quiz" ++ ": []}".

(** A model whose answer to the batched explanations is a list of a number:
    the stage raises on it. *)
Definition bad_explanations : nat -> string -> outcome :=
  scripted [ says "Cell Biology"; says outline_text; says summary_text;
             says "[1]" ].

(** A model whose answer holds a JSON object with one flashcard and no
    quiz, between other words. *)
Definition quiz_reply : string :=
  "Here you go: {" ++ quoted "flashcards" ++ ": [" ++ quoted "What is a cell?"
  ++ "]} Good luck!".

Definition quiz_model : nat -> string -> outcome := scripted [ says quiz_reply ].

(** The frame of the same graph when three requests have been sent. *)
Definition cells_frame_late : frame :=
  Frame (State [ "p0"; "p1"; "p2" ] 1)
        [ make_node "n0_00000000" (VStr "Cells") 0
                    (VStr "Cells divide; cells grow.") (VList []) ]
        []
        [ ("n_nodes", VInt 1) ].

(** A list of one item, and a map with a topic, a highlight and a summary. *)
Definition wrapped_value : value := VList [ VDict [ ("title", VStr "Cells") ] ].

Definition cells_map : dict :=
  [ ("nodes", VList (map VDict [ [ ("label", VStr "Cells") ] ]));
    ("sentences", VList [ VStr "Cells divide." ]);
    ("summary", VStr "About cells") ].

(** A model that gives an outline of one item whose title is a list, the
    outline, read, and the frame with which the enrichment stages are
    entered on the input "notes". *)
Definition list_title : nat -> string -> outcome :=
  scripted [ says "Cell Biology";
             says ("[{" ++ quoted "title" ++ ": [" ++ quoted "Cells" ++ "]}]");
             says summary_text ].

Definition list_title_outline : value :=
  VList [ VDict [ ("title", VList [ VStr "Cells" ]) ] ].

Definition list_title_frame : frame :=
  Frame (State [ Prompts.ROOT_NAME_PROMPT "notes";
                 Prompts.STRUCTURE_PROMPT "notes" ] 1)
        [ make_node "n0_00000000" (VList [ VStr "Cells" ]) 0 (VStr "") (VList []) ]
        []
        [ ("n_nodes", VInt 1) ].

(** A model that cannot be reached. *)
Definition unreachable : nat -> string -> outcome := scripted [].

(** A model that is unreachable when the explanations are asked for. *)
Definition no_explanations : nat -> string -> outcome :=
  scripted [ says "Cell Biology"; says outline_text; says summary_text ].

(** Explanations with two items of the same title, as JSON text. *)
Definition explanations_text : string :=
  "[{" ++ quoted "title" ++ ": " ++ quoted " Cells " ++ ", "
  ++ quoted "explanation" ++ ": " ++ quoted "first" ++ "}, {"
  ++ quoted "title" ++ ": " ++ quoted "Cells" ++ ", "
  ++ quoted "explanation" ++ ": " ++ quoted "Units of life." ++ "}]".

(** The same explanations, read. *)
Definition explanations_read : list value :=
  [ VDict [ ("title", VStr " Cells "); ("explanation", VStr "first") ];
    VDict [ ("title", VStr "Cells"); ("explanation", VStr "Units of life.") ] ].

(** A model that explains the topic twice. *)
Definition twice_explained : nat -> string -> outcome :=
  scripted [ says "Cell Biology"; says outline_text; says summary_text;
             says explanations_text ].

End Examples.

(** * Properties *)

#[local] Arguments String.eqb : simpl never.

(** ** Strings *)

Lemma string_length_app (a b : string) :
  String.length (a ++ b) = String.length a + String.length b.
Proof. induction a as [|c a IH]; simpl; [reflexivity|now rewrite IH]. Qed.

Lemma app_inj_same_tail_length (a b x y : string) :
  a ++ x = b ++ y -> String.length x = String.length y -> a = b /\ x = y.
Proof.
  revert b. induction a as [|c a IH]; intros [|d b] H L; simpl in *.
  - auto.
  - exfalso. rewrite H in L. simpl in L. rewrite string_length_app in L. lia.
  - exfalso. rewrite <- H in L. simpl in L. rewrite string_length_app in L. lia.
  - inversion H; subst. destruct (IH b H2 L) as [-> ->]. auto.
Qed.

Lemma take_length n s : String.length (PyStr.take n s) <= n.
Proof.
  revert s; induction n as [|n IH]; intros [|c r]; simpl; try lia.
  specialize (IH r). lia.
Qed.

Lemma take_length_eq n s :
  n <= String.length s -> String.length (PyStr.take n s) = n.
Proof.
  revert s. induction n as [|n IH]; intros [|c r]; simpl; intros H; try lia.
  rewrite IH; lia.
Qed.

Lemma of_nat_inj n m : PyStr.of_nat n = PyStr.of_nat m -> n = m.
Proof.
  unfold PyStr.of_nat. intros H.
  assert (E : Some (Nat.to_uint n) = Some (Nat.to_uint m)).
  { rewrite <- !NilEmpty.usu. now rewrite H. }
  inversion E as [E'].
  rewrite <- (DecimalNat.Unsigned.of_to n), <- (DecimalNat.Unsigned.of_to m). now rewrite E'.
Qed.

Lemma hex_fixed_length k n : String.length (hex_fixed k n) = k.
Proof.
  revert n. induction k as [|k IH]; intros n; simpl; [reflexivity|].
  rewrite string_length_app, IH. simpl. lia.
Qed.

(** ** Lists *)

Lemma NoDup_map_weaker {A B C} (f : A -> B) (g : A -> C) (l : list A) :
  (forall x y, f x = f y -> g x = g y) -> NoDup (map g l) -> NoDup (map f l).
Proof.
  intros Hfg. induction l as [|a l IH]; simpl; intros H; [constructor|].
  inversion H as [|? ? Hn Hd]; subst. constructor; [|auto].
  intros Hin. apply Hn. apply in_map_iff in Hin as (y & Hy & Hyl).
  apply in_map_iff. exists y. split; [|assumption]. now apply Hfg.
Qed.

Lemma NoDup_map_filter {A B} (f : A -> B) (kept : A -> bool) (ns : list A)
    (Hids : NoDup (map f ns)) :
  NoDup (map f (filter kept ns)).
Proof.
  induction ns as [|a l IH]; simpl in *; [constructor|].
  inversion Hids as [|? ? Hn Hd]; subst.
  destruct (kept a); simpl; [|auto]. constructor; [|auto].
  intros Hin. apply Hn. apply in_map_iff in Hin as (y & Hy & Hyl).
  apply filter_In in Hyl as [Hyl _]. apply in_map_iff. eauto.
Qed.

Lemma Forall2_In_r {A B} (R : A -> B -> Prop) la lb b :
  Forall2 R la lb -> In b lb -> exists a, In a la /\ R a b.
Proof.
  induction 1 as [|x y la lb Hxy _ IH]; simpl; [tauto|].
  intros [<-|Hin]; [eauto|]. destruct (IH Hin) as (a & Ha & HR). eauto.
Qed.

Lemma filter_length_split {A} (p : A -> bool) (l : list A) :
  List.length (filter p l) + List.length (filter (fun x => negb (p x)) l)
  = List.length l.
Proof.
  induction l as [|a l IH]; simpl; [reflexivity|].
  destruct (p a); simpl; lia.
Qed.

Lemma count_occ_ge_1 (l : list string) x :
  In x l -> 1 <= count_occ string_dec l x.
Proof. intros H. apply (count_occ_In string_dec) in H. lia. Qed.

(** ** The graph builder *)

Section Builder.
Import Outline BuilderSpec.

Variable uuid4 : nat -> N.
Variable recursion_limit : nat.

(** *** Outlines, one item at a time *)

Lemma count_items_cons item r :
  count_items (VList (item :: r))
  = S (count_items (subtopics_value item) + count_items (VList r)).
Proof.
  simpl. f_equal. f_equal.
  destruct item; try reflexivity.
  unfold subtopics_value.
  induction entries as [|[k v] d IH]; simpl; [reflexivity|].
  destruct (String.eqb "subtopics" k); [reflexivity|exact IH].
Qed.

Lemma outline_ok_cons item r :
  outline_ok (VList (item :: r))
  = match item with
    | VDict d =>
        field_ok "title" d && field_ok "summary" d && field_ok "key_points" d
        && (if Py.is_list (subtopics_value item)
            then outline_ok (subtopics_value item) else true)
    | _ => false
    end && outline_ok (VList r).
Proof.
  simpl. f_equal.
  destruct item; try reflexivity.
  f_equal. unfold subtopics_value.
  induction entries as [|[k v] d IH]; simpl; [reflexivity|].
  destruct (String.eqb "subtopics" k); [reflexivity|exact IH].
Qed.

Lemma depth_subtopics item :
  Py.is_list (subtopics_value item) && Py.truthy (subtopics_value item) = true ->
  depth (subtopics_value item) < depth item.
Proof.
  destruct item; simpl; try discriminate.
  induction entries as [|[k v] d IH]; simpl; [discriminate|].
  destruct (String.eqb "subtopics" k); intros H.
  - lia.
  - specialize (IH H). lia.
Qed.

Lemma depth_cons_item item r : depth item < depth (VList (item :: r)).
Proof. simpl. lia. Qed.

Lemma depth_cons_rest item r : depth (VList r) <= depth (VList (item :: r)).
Proof. simpl. lia. Qed.

Lemma count_items_ge_length items :
  List.length items <= count_items (VList items).
Proof.
  induction items as [|i r IH]; [simpl; lia|].
  rewrite count_items_cons. simpl List.length. lia.
Qed.

Lemma not_nested_count v :
  Py.is_list v && Py.truthy v = false -> count_items v = 0.
Proof.
  destruct v; try reflexivity. destruct items; [reflexivity|discriminate].
Qed.

(** *** Truncation *)

Lemma slice_to_len n v x : Py.slice_to n v = Ok x -> len_le n (Some x).
Proof.
  destruct v; simpl; try discriminate; intros H; inversion H; subst; simpl.
  - apply take_length.
  - apply firstn_le_length.
Qed.

Lemma slice_to_sliceable n v :
  sliceable v = true -> exists x, Py.slice_to n v = Ok x.
Proof. destruct v; simpl; try discriminate; eauto. Qed.

Lemma field_slice k d n dflt :
  field_ok k d = true -> sliceable dflt = true ->
  exists x,
    Py.slice_to n (match Py.dict_get k d with Some x => x | None => dflt end)
    = Ok x.
Proof.
  unfold field_ok. destruct (Py.dict_get k d); intros; now apply slice_to_sliceable.
Qed.

Lemma make_node_bounded id label level summary kp :
  len_le 140 (Some label) -> len_le 400 (Some summary) -> len_le 6 (Some kp) ->
  node_bounded (make_node id label level summary kp).
Proof. intros; repeat split; assumption. Qed.

(** *** Identifiers *)

Lemma short8_length j : String.length (short8 uuid4 j) = 8.
Proof.
  unfold short8, uuid4_hex. apply take_length_eq. rewrite hex_fixed_length. lia.
Qed.

(** Two identifiers are equal only at the same level and with the same
    eight digits. *)
Lemma short_id_of_inj l1 j1 l2 j2 :
  short_id_of uuid4 l1 j1 = short_id_of uuid4 l2 j2 ->
  l1 = l2 /\ short8 uuid4 j1 = short8 uuid4 j2.
Proof.
  unfold short_id_of. fold (short8 uuid4 j1). fold (short8 uuid4 j2).
  intros H.
  change (String "n" (PyStr.of_nat l1 ++ ("_" ++ short8 uuid4 j1))
          = String "n" (PyStr.of_nat l2 ++ ("_" ++ short8 uuid4 j2))) in H.
  apply (f_equal (PyStr.drop 1)) in H. cbn [PyStr.drop] in H.
  apply app_inj_same_tail_length in H as [Hl Hh].
  - split; [exact (of_nat_inj _ _ Hl)|].
    apply (f_equal (PyStr.drop 1)) in Hh. exact Hh.
  - cbn [String.length append]. now rewrite !short8_length.
Qed.

Lemma node_at_level s n : node_at uuid4 s n -> node_level n = fst s.
Proof.
  intros (l & sm & kp & -> & _). unfold node_level. simpl.
  apply Nat2Z.id.
Qed.

Lemma node_at_id s n :
  node_at uuid4 s n -> str_field "id" n = short_id_of uuid4 (fst s) (snd s).
Proof. intros (l & sm & kp & -> & _). reflexivity. Qed.

Lemma Forall2_ids slots ns :
  Forall2 (node_at uuid4) slots ns ->
  map (str_field "id") ns
  = map (fun s => short_id_of uuid4 (fst s) (snd s)) slots.
Proof.
  induction 1 as [|s n slots ns Hn _ IH]; simpl; [reflexivity|].
  now rewrite IH, (node_at_id _ _ Hn).
Qed.

Lemma ids_unique slots ns k count :
  Forall2 (node_at uuid4) slots ns ->
  map snd slots = seq k count ->
  NoDup (map (short8 uuid4) (seq k count)) ->
  NoDup (map (str_field "id") ns).
Proof.
  intros HF Hseq Hnd. rewrite (Forall2_ids _ _ HF).
  apply NoDup_map_weaker with (g := fun s => short8 uuid4 (snd s)).
  - intros x y H. now apply short_id_of_inj in H.
  - rewrite <- Hseq, map_map in Hnd. exact Hnd.
Qed.

(** *** Which nodes get an edge *)

Lemma filter_keep_all parent level slots ns :
  Forall2 (node_at uuid4) slots ns ->
  Forall (fun s => S level <= fst s) slots ->
  filter (keep parent level) ns = ns.
Proof.
  induction 1 as [|s n slots ns Hn _ IH]; intros Hl; [reflexivity|].
  inversion Hl; subst. simpl.
  unfold keep at 1. rewrite (node_at_level _ _ Hn).
  destruct (parent_given parent).
  - f_equal; auto.
  - destruct (Nat.ltb_spec level (fst s)); [f_equal; auto|lia].
Qed.

Lemma filter_keep_given parent level p (ns : list dict) :
  parent_given parent = Some p -> filter (keep parent level) ns = ns.
Proof.
  intros H. induction ns as [|n ns IH]; [reflexivity|].
  simpl. unfold keep at 1. rewrite H. f_equal. exact IH.
Qed.

(** *** One turn of the loop on a well-formed item *)

Lemma build_item_dict recur parent level d nodes edges st :
  field_ok "title" d = true -> field_ok "summary" d = true ->
  field_ok "key_points" d = true ->
  exists n, node_at uuid4 (level, draws st) n /\
    build_item uuid4 recur parent level (VDict d) (nodes, edges) st
    = let node_id := short_id_of uuid4 level (draws st) in
      let st1 := State (prompts st) (S (draws st)) in
      let nodes1 := (nodes ++ [n])%list in
      let edges1 := match parent_given parent with
                    | Some p => (edges ++ [make_edge p node_id])%list
                    | None => edges
                    end in
      let sub := subtopics_value (VDict d) in
      if Py.is_list sub && Py.truthy sub
      then recur sub (Some node_id) (S level) (nodes1, edges1) st1
      else (Ok (nodes1, edges1), st1).
Proof.
  intros Ht Hs Hk.
  destruct (field_slice "title" d 140 (VStr "") Ht eq_refl) as [label Hl].
  destruct (field_slice "summary" d 400 (VStr "") Hs eq_refl) as [summary Hsm].
  destruct (field_slice "key_points" d 6 (VList []) Hk eq_refl) as [kp Hkp].
  exists (make_node (short_id_of uuid4 level (draws st)) label level summary kp).
  split.
  - exists label, summary, kp. simpl fst; simpl snd.
    repeat split; eauto using slice_to_len.
  - unfold build_item, bind, lift, _short_id, Py.get.
    cbv beta iota. rewrite Hl, Hsm, Hkp. cbv beta iota zeta.
    unfold short_id_of, subtopics_value. simpl fst. simpl snd.
    destruct (Py.is_list _ && Py.truthy _); reflexivity.
Qed.

(** *** The loop, given the specification of the recursive call *)

Section Loop.
Variable recur : value -> option string -> nat -> list dict * list dict
                 -> M state (list dict * list dict).
Variable bound : nat.
Hypothesis recur_spec :
  forall h parent level nodes edges st,
    outline_ok h = true -> depth h < bound ->
    build_post uuid4 (count_items h) (top_items h) parent level nodes edges st
               (recur h parent level (nodes, edges) st).

Lemma build_items_spec items :
  forall parent level nodes edges st,
    outline_ok (VList items) = true -> depth (VList items) <= bound ->
    build_post uuid4 (count_items (VList items)) (List.length items)
               parent level nodes edges st
               (build_items uuid4 recur parent level items (nodes, edges) st).
Proof.
  induction items as [|item rest IH]; intros parent level nodes edges st Hok Hd.
  - exists [], [], []. simpl. rewrite !app_nil_r, Nat.add_0_r.
    destruct st; simpl. repeat split; auto.
    destruct (parent_given parent); reflexivity.
  - rewrite outline_ok_cons in Hok.
    apply andb_prop in Hok as [Hitem Hrest].
    destruct item as [| | | | |?|d]; try discriminate.
    apply andb_prop in Hitem as [Hitem Hsub].
    apply andb_prop in Hitem as [Hitem Hk].
    apply andb_prop in Hitem as [Ht Hs].
    pose proof (depth_cons_item (VDict d) rest) as Hdi.
    pose proof (depth_cons_rest (VDict d) rest) as Hdr.
    assert (Hrd : depth (VList rest) <= bound) by lia.
    rewrite count_items_cons.
    set (sub := subtopics_value (VDict d)) in *.
    simpl build_items. unfold bind at 1.
    destruct (build_item_dict recur parent level d nodes edges st Ht Hs Hk)
      as (n & Hn & ->).
    cbv zeta. fold sub.
    set (nid := short_id_of uuid4 level (draws st)).
    set (st1 := State (prompts st) (S (draws st))).
    set (edges1 := match parent_given parent with
                   | Some p => (edges ++ [make_edge p nid])%list
                   | None => edges end).
    assert (Hsubpost :
      build_post uuid4 (count_items sub) (top_items sub) (Some nid) (S level)
                 (nodes ++ [n])%list edges1 st1
                 (if Py.is_list sub && Py.truthy sub
                  then recur sub (Some nid) (S level) ((nodes ++ [n])%list, edges1) st1
                  else (Ok ((nodes ++ [n])%list, edges1), st1))).
    { destruct (Py.is_list sub && Py.truthy sub) eqn:E.
      - apply recur_spec.
        + apply andb_prop in E as [E1 _]. rewrite E1 in Hsub. exact Hsub.
        + pose proof (depth_subtopics (VDict d) E) as Hds. fold sub in Hds. lia.
      - rewrite (not_nested_count _ E).
        exists [], [], []. rewrite !app_nil_r, Nat.add_0_r. simpl.
        repeat split; auto. }
    destruct Hsubpost
      as (sslots & snodes & sedges & -> & HsF & Hsseq & Hslvl & Hstg & Hslen).
    specialize (IH parent level ((nodes ++ [n]) ++ snodes)%list
                   (edges1 ++ sedges)%list
                   (State (prompts st1) (draws st1 + count_items sub)) Hrest Hrd).
    destruct IH as (rslots & rnodes & redges & -> & HrF & Hrseq & Hrlvl & Hrtg & Hrlen).
    simpl prompts in *. simpl draws in *.
    exists ((level, draws st) :: sslots ++ rslots)%list,
           (n :: snodes ++ rnodes)%list,
           (match parent_given parent with
            | Some p => [make_edge p nid] | None => [] end ++ sedges ++ redges)%list.
    split; [|split; [|split; [|split; [|split]]]].
    + f_equal; [|f_equal; lia].
      f_equal. f_equal.
      * rewrite <- !app_assoc. reflexivity.
      * unfold edges1. destruct (parent_given parent); rewrite <- ?app_assoc; reflexivity.
    + constructor; [exact Hn|]. apply Forall2_app; assumption.
    + simpl. f_equal. rewrite map_app, Hsseq, Hrseq.
      rewrite seq_app. f_equal; f_equal; lia.
    + constructor; [simpl; lia|]. apply Forall_app; split; [|assumption].
      eapply Forall_impl; [|exact Hslvl]. simpl. intros; lia.
    + rewrite !map_app, Hstg, Hrtg.
      rewrite (filter_keep_given (Some nid) (S level) nid snodes eq_refl).
      simpl filter. rewrite filter_app.
      rewrite (filter_keep_all parent level sslots snodes HsF Hslvl).
      assert (Hkn : keep parent level n
                    = match parent_given parent with Some _ => true | None => false end).
      { unfold keep. rewrite (node_at_level _ _ Hn). simpl fst.
        rewrite Nat.ltb_irrefl. reflexivity. }
      rewrite Hkn.
      destruct (parent_given parent); simpl; rewrite ?map_app; try reflexivity.
      f_equal. rewrite (node_at_id _ _ Hn). reflexivity.
    + rewrite !length_app, Hslen, Hrlen.
      change (parent_given (Some nid)) with (Some nid). cbv iota.
      pose proof (count_items_ge_length rest).
      destruct (parent_given parent); simpl List.length; lia.
Qed.

End Loop.

(** On a well-formed outline the builder returns, whatever the fuel above
    the depth of the outline. *)
Lemma build_graph_fuel_spec fuel :
  forall h parent level nodes edges st,
    outline_ok h = true -> depth h < fuel ->
    build_post uuid4 (count_items h) (top_items h) parent level nodes edges st
               (build_graph_fuel uuid4 fuel h parent level (nodes, edges) st).
Proof.
  induction fuel as [|fuel IH]; intros h parent level nodes edges st Hok Hd; [lia|].
  destruct h; try discriminate.
  simpl build_graph_fuel. unfold bind, lift. simpl Py.iter. cbv iota beta.
  apply (build_items_spec (build_graph_fuel uuid4 fuel) fuel IH); [assumption|lia].
Qed.

Lemma build_graph_from_hierarchy_spec h st :
  outline_ok h = true -> depth h < recursion_limit ->
  build_post uuid4 (count_items h) (top_items h) None 0 [] [] st
             (build_graph_from_hierarchy uuid4 recursion_limit h st).
Proof.
  intros Hok Hd. unfold build_graph_from_hierarchy.
  apply build_graph_fuel_spec; assumption.
Qed.

(** *** A run that returns does not depend on the frames left *)

Lemma build_item_mono recur recur' :
  (forall h p l acc st r st',
     recur h p l acc st = (Ok r, st') -> recur' h p l acc st = (Ok r, st')) ->
  forall parent level item acc st r st',
    build_item uuid4 recur parent level item acc st = (Ok r, st') ->
    build_item uuid4 recur' parent level item acc st = (Ok r, st').
Proof.
  intros Hrec parent level item acc st r st'.
  unfold build_item, bind, lift, _short_id. cbv beta iota zeta.
  destruct (Py.get item "title" (VStr "")) as [title|]; [|discriminate].
  cbv beta iota.
  destruct (Py.slice_to 140 title) as [label|]; [|discriminate].
  cbv beta iota.
  destruct (Py.get item "summary" (VStr "")) as [s0|]; [|discriminate].
  cbv beta iota.
  destruct (Py.slice_to 400 s0) as [summary|]; [|discriminate].
  cbv beta iota.
  destruct (Py.get item "key_points" (VList [])) as [k0|]; [|discriminate].
  cbv beta iota.
  destruct (Py.slice_to 6 k0) as [kp|]; [|discriminate].
  cbv beta iota.
  destruct (Py.get item "subtopics" (VList [])) as [sub|]; [|discriminate].
  cbv beta iota.
  destruct (Py.is_list sub && Py.truthy sub); [apply Hrec|auto].
Qed.

Lemma build_items_mono recur recur' :
  (forall h p l acc st r st',
     recur h p l acc st = (Ok r, st') -> recur' h p l acc st = (Ok r, st')) ->
  forall items parent level acc st r st',
    build_items uuid4 recur parent level items acc st = (Ok r, st') ->
    build_items uuid4 recur' parent level items acc st = (Ok r, st').
Proof.
  intros Hrec. induction items as [|item rest IH];
    intros parent level acc st r st' H; [exact H|].
  simpl in H |- *. unfold bind at 1 in H. unfold bind at 1.
  destruct (build_item uuid4 recur parent level item acc st)
    as [[acc1|e] st1] eqn:E; [|discriminate H].
  rewrite (build_item_mono recur recur' Hrec _ _ _ _ _ _ _ E).
  now apply IH.
Qed.

Lemma build_graph_fuel_mono fuel :
  forall fuel' h p l acc st r st',
    fuel <= fuel' ->
    build_graph_fuel uuid4 fuel h p l acc st = (Ok r, st') ->
    build_graph_fuel uuid4 fuel' h p l acc st = (Ok r, st').
Proof.
  induction fuel as [|fuel IH]; intros fuel' h p l acc st r st' Hle H;
    [discriminate H|].
  destruct fuel' as [|fuel']; [lia|].
  simpl in H |- *. unfold bind at 1, lift in H. unfold bind at 1, lift.
  destruct (Py.iter h) as [items|]; [|discriminate H].
  refine (build_items_mono _ _ _ _ _ _ _ _ _ _ H).
  intros h0 p0 l0 acc0 st0 r0 st0'. apply IH. lia.
Qed.

(** A run on a well-formed outline that returns is the run the outline
    calls for, whatever the limit. *)
Lemma build_graph_returned_spec h st ns es st' :
  outline_ok h = true ->
  build_graph_from_hierarchy uuid4 recursion_limit h st = (Ok (ns, es), st') ->
  build_post uuid4 (count_items h) (top_items h) None 0 [] [] st
             (Ok (ns, es), st').
Proof.
  intros Hok H. unfold build_graph_from_hierarchy in H.
  pose proof (build_graph_fuel_spec (Nat.max recursion_limit (S (depth h)))
                h None 0 [] [] st Hok) as Hs.
  rewrite (build_graph_fuel_mono _ _ _ _ _ _ _ _ _ (Nat.le_max_l _ _) H) in Hs.
  apply Hs. lia.
Qed.

(** *** Every run that returns leaves bounded nodes *)

Lemma build_item_bounded recur :
  keeps_bounded recur ->
  forall parent level item acc st acc' st',
    build_item uuid4 recur parent level item acc st = (Ok acc', st') ->
    Forall node_bounded (fst acc) -> Forall node_bounded (fst acc').
Proof.
  intros Hrec parent level item acc st acc' st' H Hb.
  unfold build_item, bind, lift, _short_id in H. cbv beta iota zeta in H.
  destruct (Py.get item "title" (VStr "")) as [title|] eqn:E1; [|discriminate H].
  cbv beta iota in H.
  destruct (Py.slice_to 140 title) as [label|] eqn:E2; [|discriminate H].
  cbv beta iota in H.
  destruct (Py.get item "summary" (VStr "")) as [s0|] eqn:E3; [|discriminate H].
  cbv beta iota in H.
  destruct (Py.slice_to 400 s0) as [summary|] eqn:E4; [|discriminate H].
  cbv beta iota in H.
  destruct (Py.get item "key_points" (VList [])) as [k0|] eqn:E5; [|discriminate H].
  cbv beta iota in H.
  destruct (Py.slice_to 6 k0) as [kp|] eqn:E6; [|discriminate H].
  cbv beta iota in H.
  destruct (Py.get item "subtopics" (VList [])) as [sub|] eqn:E7; [|discriminate H].
  cbv beta iota in H.
  assert (Hb1 : Forall node_bounded
                  (fst acc ++ [make_node (("n" ++ PyStr.of_nat level) ++ "_"
                     ++ PyStr.take 8 (uuid4_hex uuid4 (draws st)))
                     label level summary kp])%list).
  { apply Forall_app; split; [assumption|]. constructor; [|constructor].
    apply make_node_bounded; eauto using slice_to_len. }
  destruct (Py.is_list sub && Py.truthy sub).
  - exact (Hrec _ _ _ _ _ _ _ H Hb1).
  - inversion H; subst. exact Hb1.
Qed.

Lemma build_items_bounded recur :
  keeps_bounded recur ->
  forall items parent level acc st acc' st',
    build_items uuid4 recur parent level items acc st = (Ok acc', st') ->
    Forall node_bounded (fst acc) -> Forall node_bounded (fst acc').
Proof.
  intros Hrec. induction items as [|item rest IH];
    intros parent level acc st acc' st' H Hb.
  - inversion H; subst; assumption.
  - simpl in H. unfold bind at 1 in H.
    destruct (build_item uuid4 recur parent level item acc st)
      as [[acc1|e] st1] eqn:E; [|discriminate H].
    eapply IH; [exact H|].
    eapply build_item_bounded; eassumption.
Qed.

Lemma build_graph_fuel_bounded fuel :
  keeps_bounded (build_graph_fuel uuid4 fuel).
Proof.
  induction fuel as [|fuel IH]; intros h parent level acc st acc' st' H Hb.
  - discriminate H.
  - simpl in H. unfold bind at 1, lift in H.
    destruct (Py.iter h) as [items|]; [|discriminate H].
    eapply build_items_bounded; eassumption.
Qed.

Lemma build_graph_nodes_bounded_aux h st ns es st' :
  build_graph_from_hierarchy uuid4 recursion_limit h st = (Ok (ns, es), st') ->
  Forall node_bounded ns.
Proof.
  intros H. unfold build_graph_from_hierarchy in H.
  apply (build_graph_fuel_bounded _ _ _ _ _ _ _ _ H). constructor.
Qed.

(** *** Counts, bounds and shape *)

(** On a well-formed outline of N items in total, nested below the limit
    of the interpreter, the builder returns N nodes and N minus the number
    of top-level items edges, and uses N draws; the node ids are pairwise
    distinct whenever the eight-digit prefixes of these N draws are. *)
Theorem build_graph_counts_and_ids h st :
  outline_ok h = true -> depth h < recursion_limit ->
  exists ns es,
    build_graph_from_hierarchy uuid4 recursion_limit h st
    = (Ok (ns, es), State (prompts st) (draws st + count_items h))
    /\ List.length ns = count_items h
    /\ List.length es = count_items h - top_items h
    /\ (NoDup (map (short8 uuid4) (seq (draws st) (count_items h))) ->
        NoDup (map (str_field "id") ns)).
Proof.
  intros Hok Hd.
  destruct (build_graph_from_hierarchy_spec h st Hok Hd)
    as (slots & ns & es & Heq & HF & Hseq & _ & _ & Hlen).
  exists ns, es. simpl in Heq. repeat split.
  - exact Heq.
  - rewrite <- (Forall2_length HF), <- (length_map snd), Hseq. apply length_seq.
  - exact Hlen.
  - eapply ids_unique; eassumption.
Qed.

(** Claim C4.  Whatever the outline, every node of a run of the builder
    that returns has a label of at most 140 characters, a summary of at most
    400 characters and at most 6 key points. *)
Theorem build_graph_nodes_bounded h st ns es st' :
  build_graph_from_hierarchy uuid4 recursion_limit h st = (Ok (ns, es), st') ->
  Forall node_bounded ns.
Proof.
  exact (build_graph_nodes_bounded_aux h st ns es st').
Qed.

(** In the graph the builder returns for a well-formed outline, when the
    eight-digit prefixes of the draws are pairwise distinct, the target of
    every edge is the id of a node and every node of that id has exactly one
    inbound edge; and when the outline has one top-level item, exactly one
    node has no inbound edge, whatever the draws. *)
Theorem build_graph_tree_shape h st ns es st' :
  outline_ok h = true ->
  build_graph_from_hierarchy uuid4 recursion_limit h st = (Ok (ns, es), st') ->
  (NoDup (map (short8 uuid4) (seq (draws st) (count_items h))) ->
   forall e, In e es ->
     exists n, In n ns /\ str_field "id" n = str_field "target" e
               /\ forall n', In n' ns ->
                    str_field "id" n' = str_field "target" e -> inbound es n' = 1)
  /\ (top_items h = 1 ->
      List.length (filter (fun n => Nat.eqb (inbound es n) 0) ns) = 1).
Proof.
  intros Hok Hrun.
  destruct (build_graph_returned_spec h st ns es st' Hok Hrun)
    as (slots & ns0 & es0 & Heq & HF & Hseq & Hlvl & Htg & Hlen).
  simpl in Heq. inversion Heq; subst ns0 es0; clear Heq.
  split.
  - intros Hnd e He.
    pose proof (ids_unique _ _ _ _ HF Hseq Hnd) as Hids.
    pose proof (NoDup_map_filter (str_field "id") (keep None 0) ns Hids) as Htn.
    rewrite <- Htg in Htn.
    assert (Hin : In (str_field "target" e) (map (str_field "target") es))
      by (apply in_map; assumption).
    pose proof Hin as Hin'. rewrite Htg in Hin'.
    apply in_map_iff in Hin' as (n & Hn & Hnf).
    apply filter_In in Hnf as [Hnin _].
    exists n. split; [assumption|]. split; [assumption|].
    intros n' _ Hn'. unfold inbound. rewrite Hn'.
    apply NoDup_count_occ'; assumption.
  - intros Htop.
    assert (Hnl : List.length ns = count_items h).
    { rewrite <- (Forall2_length HF), <- (length_map snd), Hseq. apply length_seq. }
    assert (Hext : forall n, In n ns ->
               Nat.eqb (inbound es n) 0 = negb (keep None 0 n)).
    { intros n Hn. unfold inbound. rewrite Htg.
      destruct (Forall2_In_r _ _ _ _ HF Hn) as (s & _ & Hs).
      destruct (keep None 0 n) eqn:Ek; simpl.
      - assert (Hin : In (str_field "id" n)
                        (map (str_field "id") (filter (keep None 0) ns))).
        { apply in_map. apply filter_In. auto. }
        apply count_occ_ge_1 in Hin.
        apply Nat.eqb_neq. lia.
      - apply Nat.eqb_eq. apply count_occ_not_In.
        intros Hin. apply in_map_iff in Hin as (m & Hm & Hmf).
        apply filter_In in Hmf as [Hmin Hmk].
        destruct (Forall2_In_r _ _ _ _ HF Hmin) as (sm & _ & Hsm).
        rewrite (node_at_id _ _ Hs), (node_at_id _ _ Hsm) in Hm.
        apply short_id_of_inj in Hm as [Hl _].
        unfold keep in Ek, Hmk. simpl in Ek, Hmk.
        rewrite (node_at_level _ _ Hs) in Ek.
        rewrite (node_at_level _ _ Hsm) in Hmk.
        rewrite Hl in Hmk. congruence. }
    rewrite (filter_ext_in _ _ _ Hext).
    pose proof (filter_length_split (keep None 0) ns) as Hsplit.
    assert (Hk : List.length (filter (keep None 0) ns) = count_items h - 1).
    { rewrite <- Htop. simpl in Hlen. rewrite <- Hlen.
      rewrite <- (length_map (str_field "id")), <- Htg. apply length_map. }
    assert (1 <= count_items h).
    { destruct h; try discriminate. simpl in Htop.
      pose proof (count_items_ge_length items). lia. }
    lia.
Qed.

End Builder.

(** ** The orchestrator *)

(** *** Dicts *)

Lemma dict_get_set_same k v d : Py.dict_get k (Py.dict_set k v d) = Some v.
Proof.
  induction d as [|[k' v'] d IH]; simpl.
  - now rewrite String.eqb_refl.
  - destruct (String.eqb k k') eqn:E; simpl; rewrite ?String.eqb_refl, ?E; auto.
Qed.

Lemma dict_get_set_other k k' v d :
  k <> k' -> Py.dict_get k (Py.dict_set k' v d) = Py.dict_get k d.
Proof.
  intros Hne. induction d as [|[k2 v2] d IH]; simpl.
  - destruct (String.eqb_spec k k'); [contradiction|reflexivity].
  - destruct (String.eqb_spec k' k2) as [->|Hk]; simpl.
    + destruct (String.eqb_spec k k2); [contradiction|reflexivity].
    + destruct (String.eqb k k2); auto.
Qed.

Lemma dict_set_set k v w d :
  Py.dict_set k v (Py.dict_set k w d) = Py.dict_set k v d.
Proof.
  induction d as [|[k' v'] d IH]; simpl.
  - now rewrite String.eqb_refl.
  - destruct (String.eqb k k') eqn:E; simpl; rewrite ?String.eqb_refl, ?E;
      [reflexivity|].
    now rewrite IH.
Qed.

Section Orchestrator.
Import Outline BuilderSpec PipelineSpec.

Variable json_loads : string -> option value.
Variable json_dumps : value -> string.
Variable generate_content : nat -> string -> outcome.
Variable uuid4 : nat -> N.
Variable recursion_limit : nat.

(** *** The gateway *)

(** [_call_gemini] never raises. *)
Lemma _call_gemini_returns prompt st :
  exists text st', _call_gemini generate_content prompt st = (Ok text, st').
Proof.
  unfold _call_gemini, _call_gemini_retry.
  destruct (_call_gemini_attempts generate_content 1 prompt st) as [text st'].
  eauto.
Qed.

(** *** The loop over the nodes *)

Lemma partly_explained_refl ns : partly_explained ns ns.
Proof. induction ns; constructor; auto. Qed.

Lemma assign_explanations_partly f ns ns' r :
  assign_explanations f ns = (ns', r) -> partly_explained ns ns'.
Proof.
  revert ns' r. induction ns as [|n ns IH]; simpl; intros ns' r H.
  - inversion H; constructor.
  - destruct (f n) as [x|e].
    + destruct (assign_explanations f ns) as [rest' r'] eqn:E.
      inversion H; subst. constructor; [right; eexists; reflexivity|].
      eapply IH; reflexivity.
    + inversion H; subst. apply partly_explained_refl.
Qed.

Lemma assign_explanations_done f ns ns' :
  assign_explanations f ns = (ns', None) -> explained ns ns'.
Proof.
  revert ns'. induction ns as [|n ns IH]; simpl; intros ns' H.
  - inversion H; constructor.
  - destruct (f n) as [x|e]; [|discriminate].
    destruct (assign_explanations f ns) as [rest' r'] eqn:E.
    inversion H; subst. constructor; [eexists; reflexivity|].
    apply IH; reflexivity.
Qed.

Lemma assign_constant c ns :
  assign_explanations (fun _ => Ok c) ns = (map (set_explanation c) ns, None).
Proof. induction ns as [|n ns IH]; simpl; [reflexivity|]. now rewrite IH. Qed.

Lemma set_explanation_over c ns ns' :
  partly_explained ns ns' ->
  map (set_explanation c) ns' = map (set_explanation c) ns.
Proof.
  induction 1 as [|n n' ns ns' H _ IH]; simpl; [reflexivity|].
  f_equal; [|exact IH].
  destruct H as [->|[x ->]]; [reflexivity|]. apply dict_set_set.
Qed.

Lemma explained_map c ns : explained ns (map (set_explanation c) ns).
Proof. induction ns; simpl; constructor; eauto. Qed.

Lemma for_each_node_run f fr :
  for_each_node f fr
  = (match snd (assign_explanations f (nodes fr)) with
     | None => Ok tt | Some e => Raise e end,
     Frame (world fr) (fst (assign_explanations f (nodes fr))) (edges fr) (meta fr)).
Proof.
  unfold for_each_node.
  destruct (assign_explanations f (nodes fr)) as [ns [e|]]; reflexivity.
Qed.

(** *** The explanation stage *)

(** The body of the stage changes nothing but the explanations of the
    nodes, and the world. *)
Lemma explanation_try_frame fr r fr' :
  explanation_try json_loads generate_content fr = (r, fr') ->
  meta fr' = meta fr /\ edges fr' = edges fr
  /\ partly_explained (nodes fr) (nodes fr')
  /\ (r = Ok tt -> explained (nodes fr) (nodes fr')).
Proof.
  unfold explanation_try, bind, get_nodes, lift.
  destruct (label_titles (nodes fr)) as [titles|e].
  - destruct titles as [|t ts].
    + rewrite for_each_node_run, assign_constant. simpl.
      intros H; inversion H; subst; simpl.
      repeat split; auto.
      * eapply assign_explanations_partly. apply assign_constant.
      * intros _. apply explained_map.
    + unfold in_world.
      destruct (_call_gemini generate_content (Prompts.batch_prompt (t :: ts))
                             (world fr)) as [[raw|e] w]; simpl.
      * destruct (mapping_of _) as [mapping|e].
        -- rewrite for_each_node_run. simpl.
           destruct (assign_explanations _ (nodes fr)) as [ns' o] eqn:E. simpl.
           intros H; inversion H; subst; simpl. repeat split; auto.
           ++ eapply assign_explanations_partly; eassumption.
           ++ destruct o; [discriminate|]. intros _.
              eapply assign_explanations_done; eassumption.
        -- intros H; inversion H; subst; simpl. repeat split; auto.
           ++ apply partly_explained_refl.
           ++ discriminate.
      * intros H; inversion H; subst; simpl. repeat split; auto.
        -- apply partly_explained_refl.
        -- discriminate.
  - intros H; inversion H; subst. repeat split; auto.
    + apply partly_explained_refl.
    + discriminate.
Qed.

(** When the body raises, every node gets the fixed text and the message of
    the exception is recorded. *)
Lemma explanation_stage_raise fr e fr2 :
  explanation_try json_loads generate_content fr = (Raise e, fr2) ->
  explanation_stage json_loads generate_content fr
  = (Ok tt,
     Frame (world fr2)
           (map (set_explanation (VStr "Explanation unavailable.")) (nodes fr))
           (edges fr)
           (Py.dict_set "tooltip_error" (VStr (exn_str e)) (meta fr))).
Proof.
  intros H. unfold explanation_stage, try_except. rewrite H.
  destruct (explanation_try_frame _ _ _ H) as (Hm & He & Hp & _).
  unfold bind. rewrite for_each_node_run, assign_constant. simpl.
  unfold set_meta. simpl. rewrite Hm, He.
  rewrite (set_explanation_over _ _ _ Hp). reflexivity.
Qed.

(** The stage always returns, with an explanation on every node. *)
Lemma explanation_stage_returns fr :
  exists fr',
    explanation_stage json_loads generate_content fr = (Ok tt, fr')
    /\ explained (nodes fr) (nodes fr') /\ edges fr' = edges fr
    /\ forall k, k <> "tooltip_error" ->
                 Py.dict_get k (meta fr') = Py.dict_get k (meta fr).
Proof.
  destruct (explanation_try json_loads generate_content fr) as [[[]|e] fr2] eqn:E.
  - exists fr2. unfold explanation_stage, try_except. rewrite E.
    destruct (explanation_try_frame _ _ _ E) as (Hm & He & _ & Hx).
    repeat split; auto. intros k _. now rewrite Hm.
  - eexists. split; [apply (explanation_stage_raise _ _ _ E)|].
    simpl. repeat split.
    + apply explained_map.
    + intros k Hk. now apply dict_get_set_other.
Qed.

(** *** The summary stage *)

(** The body of the stage changes nothing but [meta], and the world; when
    it raises it has stored nothing. *)
Lemma summary_try_frame structure fr r fr' :
  summary_try json_loads json_dumps generate_content structure fr = (r, fr') ->
  nodes fr' = nodes fr /\ edges fr' = edges fr
  /\ match r with
     | Raise _ => meta fr' = meta fr
     | Ok _ =>
         meta fr' = meta fr
         \/ exists s q, meta fr'
                        = Py.dict_set "quiz" q
                            (Py.dict_set "summary" (VStr s) (meta fr))
     end.
Proof.
  unfold summary_try, bind, lift.
  destruct (Py.slice_to 3 structure) as [top3|e].
  2:{ intros H; inversion H; subst; auto. }
  unfold in_world.
  destruct (_call_gemini generate_content _ (world fr)) as [[raw|e] w]; simpl.
  2:{ intros H; inversion H; subst; auto. }
  destruct (Py.truthy (_safe_json_loads json_loads raw)).
  2:{ unfold ret. intros H; inversion H; subst; simpl; auto. }
  destruct (_safe_json_loads json_loads raw) as [| | | | | |d];
    try (simpl; intros H; inversion H; subst; simpl; auto; fail).
  simpl Py.get. cbv beta iota.
  destruct (Py.add_str _ _) as [head|e].
  2:{ intros H; inversion H; subst; auto. }
  destruct (Py.join _ _) as [tail|e].
  2:{ intros H; inversion H; subst; auto. }
  unfold set_meta. simpl.
  intros H; inversion H; subst; simpl. repeat split; auto.
  right. eauto.
Qed.

(** The stage always returns. *)
Lemma summary_stage_returns enable structure fr :
  exists fr',
    summary_stage json_loads json_dumps generate_content enable structure fr
    = (Ok tt, fr')
    /\ nodes fr' = nodes fr /\ edges fr' = edges fr.
Proof.
  unfold summary_stage. destruct enable.
  - unfold try_except.
    destruct (summary_try json_loads json_dumps generate_content structure fr)
      as [[[]|e] fr1] eqn:E;
      destruct (summary_try_frame _ _ _ _ E) as (Hn & He & _).
    + exists fr1. auto.
    + eexists. split; [reflexivity|]. simpl. auto.
  - exists fr. auto.
Qed.

(** *** The keyword stage *)

Lemma keywords_stage_run fr :
  keywords_stage fr
  = (Ok tt, Frame (world fr) (nodes fr) (edges fr)
                  (Py.dict_set "keywords" (keywords_of (nodes fr)) (meta fr))).
Proof.
  unfold keywords_stage, try_except, keywords_try, bind, get_nodes, lift,
    keywords_of, set_meta.
  destruct (node_texts (nodes fr)); reflexivity.
Qed.

(** *** The three stages in a row *)

Lemma enrich_run enable structure fr0 fr1 fr2 :
  summary_stage json_loads json_dumps generate_content enable structure fr0
  = (Ok tt, fr1) ->
  explanation_stage json_loads generate_content fr1 = (Ok tt, fr2) ->
  let fr3 := Frame (world fr2) (nodes fr2) (edges fr2)
                   (Py.dict_set "keywords" (keywords_of (nodes fr2)) (meta fr2)) in
  enrich json_loads json_dumps generate_content enable structure fr0
  = (Ok (graph_result fr3), fr3).
Proof.
  intros H1 H2. unfold enrich, bind.
  rewrite H1, H2, keywords_stage_run. reflexivity.
Qed.

(** The enrichment never raises: it returns the graph with an explanation
    on every node and the keywords in [meta]. *)
Lemma enrich_returns enable structure fr0 :
  exists fr3,
    enrich json_loads json_dumps generate_content enable structure fr0
    = (Ok (graph_result fr3), fr3)
    /\ explained (nodes fr0) (nodes fr3) /\ edges fr3 = edges fr0
    /\ Py.dict_get "keywords" (meta fr3) = Some (keywords_of (nodes fr3)).
Proof.
  destruct (summary_stage_returns enable structure fr0) as (fr1 & H1 & Hn1 & He1).
  destruct (explanation_stage_returns fr1) as (fr2 & H2 & Hx & He2 & _).
  eexists. split; [apply (enrich_run _ _ _ _ _ H1 H2)|].
  simpl. rewrite <- Hn1. repeat split; auto.
  - congruence.
  - apply dict_get_set_same.
Qed.

(** *** The paths of the orchestrator *)

Lemma process_from_acquisition text thr enable st prompt_text root_title st2 :
  reaches_acquisition generate_content text thr st prompt_text root_title st2 ->
  process_text_to_mindmap json_loads json_dumps generate_content uuid4 recursion_limit
                          text thr enable st
  = match acquire_structure json_loads generate_content prompt_text st2 with
    | (Raise e, st3) => (Raise e, st3)
    | (Ok structure, st3) =>
        if negb (Py.truthy structure) then
          (Ok (parse_failed_result ("root" ++ "_" ++ short8 uuid4 (draws st3))
                                   root_title (PyStr.strip text)),
           State (prompts st3) (S (draws st3)))
        else
          match build_graph_from_hierarchy uuid4 recursion_limit structure st3 with
          | (Raise e, st4) => (Raise e, st4)
          | (Ok built, st4) =>
              with_frame (fst built) (snd built)
                [ ("n_nodes", VInt (Z.of_nat (List.length (fst built)))) ]
                (enrich json_loads json_dumps generate_content enable structure)
                st4
          end
    end.
Proof.
  intros (Hne & st1 & raw_title & line & Hw & Ht & Hl & ->).
  unfold process_text_to_mindmap. rewrite Hne.
  unfold bind at 1. rewrite Hw.
  unfold bind at 1. rewrite Ht.
  unfold bind at 1, lift at 1. rewrite Hl.
  unfold bind at 1.
  destruct (acquire_structure json_loads generate_content prompt_text st2)
    as [[structure|e] st3]; [|reflexivity].
  destruct (Py.truthy structure); cbn [negb]; cbv beta iota.
  - unfold bind at 1.
    destruct (build_graph_from_hierarchy uuid4 recursion_limit structure st3) as [[built|e] st4];
      reflexivity.
  - reflexivity.
Qed.

Lemma process_from_enrichment text thr enable st structure fr0 :
  reaches_enrichment json_loads generate_content uuid4 recursion_limit text thr st structure fr0 ->
  process_text_to_mindmap json_loads json_dumps generate_content uuid4 recursion_limit
                          text thr enable st
  = match enrich json_loads json_dumps generate_content enable structure fr0 with
    | (r, fr) => (r, world fr)
    end.
Proof.
  intros (prompt_text & root_title & st2 & st3 & built & Hacq & Hs & Htr & Hb
          & Hn & He & Hm).
  rewrite (process_from_acquisition _ _ _ _ _ _ _ Hacq), Hs, Htr. simpl negb.
  cbv iota. rewrite Hb. unfold with_frame.
  destruct fr0 as [w ns es mt]. simpl in *. subst. reflexivity.
Qed.

End Orchestrator.

(** ** The claims on the orchestrator *)

Section OrchestratorClaims.
Import Outline BuilderSpec PipelineSpec.

Variable json_loads : string -> option value.
Variable json_dumps : value -> string.
Variable generate_content : nat -> string -> outcome.
Variable uuid4 : nat -> N.
Variable recursion_limit : nat.

(** Claim C10, as amended.  On the fallback path the summary of the single
    node is the first 320 characters of the input stripped of surrounding
    white space, and the node has neither [key_points] nor [ai_explanation];
    on the normal path every node has both. *)
Theorem fallback_node_shape text thr enable st :
  (forall prompt_text root_title st2 st3,
     reaches_acquisition generate_content text thr st prompt_text root_title st2 ->
     forall structure,
       acquire_structure json_loads generate_content prompt_text st2
       = (Ok structure, st3) ->
       Py.truthy structure = false ->
       exists node mt st',
         process_text_to_mindmap json_loads json_dumps generate_content uuid4 recursion_limit
                                 text thr enable st
         = (Ok (VDict [ ("nodes", VList [VDict node]); ("edges", VList []);
                        ("meta", VDict mt) ]), st')
         /\ Py.dict_get "summary" node
            = Some (VStr (PyStr.take 320 (PyStr.strip text)))
         /\ Py.dict_get "summary" mt
            = Some (VStr (PyStr.take 800 (PyStr.strip text)))
         /\ Py.dict_get "key_points" node = None
         /\ Py.dict_get "ai_explanation" node = None)
  /\ (forall structure fr0,
        reaches_enrichment json_loads generate_content uuid4 recursion_limit text thr st
                           structure fr0 ->
        exists fr3,
          process_text_to_mindmap json_loads json_dumps generate_content uuid4 recursion_limit
                                  text thr enable st
          = (Ok (graph_result fr3), world fr3)
          /\ Forall (fun n => has_key "key_points" n /\ has_key "ai_explanation" n)
                    (nodes fr3)).
Proof.
  split.
  - intros prompt_text root_title st2 st3 Hacq structure Ha Hf.
    rewrite (process_from_acquisition json_loads json_dumps generate_content uuid4 recursion_limit
               _ _ enable _ _ _ _ Hacq), Ha, Hf.
    cbn [negb]. cbv iota.
    eexists _, _, _. split; [reflexivity|]. repeat split; reflexivity.
  - intros structure fr0 Hre.
    rewrite (process_from_enrichment json_loads json_dumps generate_content uuid4 recursion_limit
               _ _ enable _ _ _ Hre).
    destruct (enrich_returns json_loads json_dumps generate_content
                enable structure fr0) as (fr3 & -> & Hx & _).
    exists fr3. split; [reflexivity|].
    destruct Hre as (pt & rt & st2 & st3 & built & _ & _ & _ & Hb & Hn & _).
    destruct built as [ns es].
    pose proof (build_graph_nodes_bounded_aux uuid4 _ _ _ _ _ _ Hb) as Hbd.
    simpl in Hn. rewrite <- Hn in Hbd.
    clear - Hx Hbd. revert Hbd.
    induction Hx as [|n n' ns0 ns1 [x ->] _ IH]; intros Hbd; constructor.
    + inversion Hbd as [|? ? (_ & _ & Hk) _]; subst.
      unfold has_key, set_explanation. split.
      * rewrite dict_get_set_other by discriminate.
        unfold len_le in Hk. destruct (Py.dict_get "key_points" n);
          [discriminate|contradiction].
      * rewrite dict_get_set_same. discriminate.
    + apply IH. now inversion Hbd.
Qed.

(** Claim C7, as amended.  On a run that reaches the enrichment stages:
    when the summary stage has stored a summary and an exception is raised
    inside the batched-explanation stage, the run still returns; its [meta]
    keeps that summary, every node's [ai_explanation] is
    "Explanation unavailable.", the text of the exception is recorded under
    [meta.tooltip_error] and the keywords are computed.  And whatever the
    stages do, the run returns the graph with an explanation on every node
    and the keywords; an exception in the summary stage is recorded under
    [meta.summary_error]. *)
Theorem enrichment_exception_contained text thr st structure fr0 :
  reaches_enrichment json_loads generate_content uuid4 recursion_limit text thr st structure fr0 ->
  (forall fr1 s e fr2,
     summary_try json_loads json_dumps generate_content structure fr0
     = (Ok tt, fr1) ->
     Py.dict_get "summary" (meta fr1) = Some (VStr s) ->
     explanation_try json_loads generate_content fr1 = (Raise e, fr2) ->
     exists ns mt st',
       process_text_to_mindmap json_loads json_dumps generate_content uuid4 recursion_limit
                               text thr true st
       = (Ok (VDict [ ("nodes", VList (map VDict ns));
                      ("edges", VList (map VDict (edges fr0)));
                      ("meta", VDict mt) ]), st')
       /\ Py.dict_get "summary" mt = Some (VStr s)
       /\ Forall (fun n => Py.dict_get "ai_explanation" n
                           = Some (VStr "Explanation unavailable.")) ns
       /\ Py.dict_get "tooltip_error" mt = Some (VStr (exn_str e))
       /\ Py.dict_get "keywords" mt = Some (keywords_of ns))
  /\ (forall enable,
        exists fr3,
          process_text_to_mindmap json_loads json_dumps generate_content uuid4 recursion_limit
                                  text thr enable st
          = (Ok (graph_result fr3), world fr3)
          /\ explained (nodes fr0) (nodes fr3)
          /\ Py.dict_get "keywords" (meta fr3) = Some (keywords_of (nodes fr3))
          /\ forall e fr1,
               enable = true ->
               summary_try json_loads json_dumps generate_content structure fr0
               = (Raise e, fr1) ->
               Py.dict_get "summary_error" (meta fr3) = Some (VStr (exn_str e))).
Proof.
  intros Hre. split.
  - intros fr1 s e fr2 Hs Hsum He.
    rewrite (process_from_enrichment json_loads json_dumps generate_content uuid4 recursion_limit
               _ _ true _ _ _ Hre).
    assert (Hst : summary_stage json_loads json_dumps generate_content true
                    structure fr0 = (Ok tt, fr1)).
    { unfold summary_stage, try_except. now rewrite Hs. }
    rewrite (enrich_run json_loads json_dumps generate_content true structure
               fr0 fr1 _ Hst (explanation_stage_raise json_loads generate_content
                                _ _ _ He)).
    destruct (summary_try_frame json_loads json_dumps generate_content
                _ _ _ _ Hs) as (Hn1 & He1 & _).
    cbv zeta. simpl nodes. simpl meta. simpl edges. rewrite He1.
    eexists _, _, _. split; [reflexivity|]. cbn [meta nodes edges world].
    repeat split.
    + rewrite !dict_get_set_other by discriminate. exact Hsum.
    + apply Forall_forall. intros n Hn. apply in_map_iff in Hn as (m & <- & _).
      apply dict_get_set_same.
    + rewrite dict_get_set_other by discriminate. apply dict_get_set_same.
    + apply dict_get_set_same.
  - intros enable.
    rewrite (process_from_enrichment json_loads json_dumps generate_content uuid4 recursion_limit
               _ _ enable _ _ _ Hre).
    destruct (summary_stage_returns json_loads json_dumps generate_content
                enable structure fr0) as (fr1 & H1 & Hn1 & He1).
    destruct (explanation_stage_returns json_loads generate_content fr1)
      as (fr2 & H2 & Hx & He2 & Hk).
    rewrite (enrich_run json_loads json_dumps generate_content enable structure
               fr0 fr1 fr2 H1 H2).
    eexists. split; [reflexivity|]. cbv zeta. simpl nodes. simpl meta.
    rewrite <- Hn1. repeat split; auto.
    + apply dict_get_set_same.
    + intros e fr1' -> Hraise.
      unfold summary_stage, try_except in H1. rewrite Hraise in H1.
      unfold set_meta in H1. inversion H1; subst fr1; clear H1.
      rewrite dict_get_set_other by discriminate.
      rewrite Hk by discriminate. simpl. apply dict_get_set_same.
Qed.

End OrchestratorClaims.

(** ** The keyword ranking *)

Section Keywords.
Import Ranking.

(** *** First positions and counts *)

Lemma index_of_app_in a ws l : In a ws -> index_of a (ws ++ l) = index_of a ws.
Proof.
  induction ws as [|x ws IH]; simpl; [tauto|].
  intros H. destruct (String.eqb_spec a x) as [|Hne]; [reflexivity|].
  f_equal. apply IH. destruct H; [congruence|assumption].
Qed.

Lemma index_of_lt_length a ws : In a ws -> index_of a ws < List.length ws.
Proof.
  induction ws as [|x ws IH]; simpl; [tauto|].
  intros H. destruct (String.eqb_spec a x) as [|Hne]; [lia|].
  destruct H; [congruence|]. specialize (IH H). lia.
Qed.

Lemma index_of_app_new a ws : ~ In a ws -> index_of a (ws ++ [a]) = List.length ws.
Proof.
  induction ws as [|x ws IH]; simpl; intros H.
  - now rewrite String.eqb_refl.
  - destruct (String.eqb_spec a x) as [->|Hne]; [tauto|].
    f_equal. apply IH. tauto.
Qed.

Lemma count_occ_snoc ws w a :
  count_occ string_dec (ws ++ [w]) a
  = count_occ string_dec ws a + (if string_dec w a then 1 else 0).
Proof. rewrite count_occ_app. simpl. destruct (string_dec w a); reflexivity. Qed.

Lemma In_firstn {A} n (l : list A) x : In x (firstn n l) -> In x l.
Proof.
  intros H. rewrite <- (firstn_skipn n l). apply in_or_app. now left.
Qed.

(** *** Sorted lists *)

Lemma StronglySorted_map {A B} (R : B -> B -> Prop) (f : A -> B) l :
  StronglySorted R (map f l) <-> StronglySorted (fun x y => R (f x) (f y)) l.
Proof.
  induction l as [|a l IH]; simpl; split; intros H; try constructor;
    inversion H; subst.
  - now apply IH.
  - rewrite Forall_map in H3. exact H3.
  - now apply IH.
  - rewrite Forall_map. exact H3.
Qed.

Lemma StronglySorted_snoc {A} (R : A -> A -> Prop) l x :
  StronglySorted R l -> Forall (fun y => R y x) l -> StronglySorted R (l ++ [x]).
Proof.
  induction 1 as [|a l Hs IH Ha]; intros Hx; simpl.
  - repeat constructor.
  - inversion Hx; subst. constructor; [auto|].
    apply Forall_app; split; [assumption|]. repeat constructor. assumption.
Qed.

Lemma StronglySorted_app_inv {A} (R : A -> A -> Prop) l1 l2 :
  StronglySorted R (l1 ++ l2) ->
  StronglySorted R l1 /\ forall x y, In x l1 -> In y l2 -> R x y.
Proof.
  induction l1 as [|a l1 IH]; simpl; intros H.
  - split; [constructor|tauto].
  - inversion H as [|? ? Hs Ha]; subst. destruct (IH Hs) as [Hs1 Hc].
    apply Forall_app in Ha as [Ha1 Ha2]. split; [constructor; assumption|].
    intros x y [<-|Hx] Hy; [|auto].
    rewrite Forall_forall in Ha2. auto.
Qed.

Lemma StronglySorted_weaken {A} (R S : A -> A -> Prop) l :
  (forall x y, In x l -> In y l -> R x y -> S x y) ->
  StronglySorted R l -> StronglySorted S l.
Proof.
  intros HRS H. induction H as [|a l Hs IH Ha]; constructor.
  - apply IH. intros x y Hx Hy. apply HRS; now right.
  - rewrite Forall_forall in *. intros y Hy.
    apply HRS; [now left|now right|auto].
Qed.

(** *** The counter *)

Lemma counter_add_keys w c :
  map fst (counter_add w c)
  = (map fst c ++ (if in_dec string_dec w (map fst c) then [] else [w]))%list.
Proof.
  induction c as [|[w' n] c IH]; simpl; [reflexivity|].
  destruct (String.eqb_spec w w') as [Heq|Hne]; simpl.
  - destruct (string_dec w' w); [|congruence].
    now rewrite app_nil_r.
  - rewrite IH. destruct (string_dec w' w); [congruence|].
    destruct (in_dec string_dec w (map fst c)); reflexivity.
Qed.

Lemma counter_add_absent w c :
  ~ In w (map fst c) -> counter_add w c = (c ++ [(w, 1)])%list.
Proof.
  induction c as [|[x n] c IH]; simpl; intros H; [reflexivity|].
  destruct (String.eqb_spec w x) as [->|Hne]; [tauto|].
  f_equal. apply IH. tauto.
Qed.

Lemma counter_add_present w c :
  In w (map fst c) ->
  exists c1 n c2,
    c = (c1 ++ (w, n) :: c2)%list
    /\ counter_add w c = (c1 ++ (w, S n) :: c2)%list.
Proof.
  induction c as [|[x n] c IH]; simpl; [tauto|].
  intros H. destruct (String.eqb_spec w x) as [->|Hne].
  - exists [], n, c. auto.
  - destruct H as [H|H]; [congruence|].
    destruct (IH H) as (c1 & m & c2 & -> & ->).
    exists ((x, n) :: c1), m, c2. auto.
Qed.

(** [Counter] reads the words from left to right. *)
Lemma Counter_snoc ws w : Counter (ws ++ [w]) = counter_add w (Counter ws).
Proof. unfold Counter. now rewrite fold_left_app. Qed.

Lemma counts_of_nil : counts_of [] [].
Proof.
  split; [constructor|]. split; [intros w n []|]. split; [intros w []|constructor].
Qed.

Lemma counts_of_snoc ws c w :
  counts_of ws c -> counts_of (ws ++ [w]) (counter_add w c).
Proof.
  intros (Hnd & Hent & Hall & Hsort).
  assert (Hkeys : forall a, In a (map fst c) -> In a ws).
  { intros a Ha. apply in_map_iff in Ha as ([a' n] & <- & Hin).
    now apply Hent in Hin. }
  unfold counts_of. rewrite counter_add_keys.
  destruct (in_dec string_dec w (map fst c)) as [Hin|Hnot].
  - rewrite app_nil_r.
    destruct (counter_add_present w c Hin) as (c1 & n & c2 & Hc & Hadd).
    rewrite Hadd.
    assert (Hw : n = count_occ string_dec ws w /\ In w ws).
    { apply Hent. rewrite Hc. apply in_or_app. right. now left. }
    split; [exact Hnd|]. split; [|split].
    + intros a m H.
      assert (Hcases : (In (a, m) c /\ a <> w) \/ (a = w /\ m = S n)).
      { apply in_app_or in H as [H|[H|H]].
        - left. split; [rewrite Hc; apply in_or_app; now left|].
          intros ->. rewrite Hc, map_app in Hnd. simpl in Hnd.
          apply NoDup_remove_2 in Hnd. apply Hnd. apply in_or_app. left.
          apply in_map_iff. exists (w, m). auto.
        - inversion H; subst. right. auto.
        - left. split; [rewrite Hc; apply in_or_app; right; now right|].
          intros ->. rewrite Hc, map_app in Hnd. simpl in Hnd.
          apply NoDup_remove_2 in Hnd. apply Hnd. apply in_or_app. right.
          apply in_map_iff. exists (w, m). auto. }
      rewrite count_occ_snoc.
      destruct Hcases as [[Hi Hne]|[-> ->]].
      * destruct (Hent _ _ Hi) as [-> Hin'].
        split; [|apply in_or_app; now left].
        destruct (string_dec w a); [congruence|lia].
      * destruct Hw as [-> Hw]. split; [|apply in_or_app; now left].
        destruct (string_dec w w); [lia|congruence].
    + intros a Ha. apply in_app_or in Ha as [Ha|[<-|[]]]; auto.
    + eapply StronglySorted_weaken; [|exact Hsort].
      intros x y Hx Hy Hlt.
      rewrite !index_of_app_in by auto. exact Hlt.
  - rewrite (counter_add_absent w c Hnot).
    assert (Hwn : ~ In w ws) by (intros H; apply Hnot; auto).
    split; [|split; [|split]].
    + apply NoDup_rev in Hnd.
      rewrite <- (rev_involutive (map fst c ++ [w])).
      apply NoDup_rev. rewrite rev_app_distr. simpl. constructor; [|assumption].
      rewrite <- in_rev. exact Hnot.
    + intros a m H. rewrite count_occ_snoc.
      apply in_app_or in H as [H|[H|[]]].
      * destruct (Hent _ _ H) as [-> Hin].
        split; [|apply in_or_app; now left].
        destruct (string_dec w a) as [<-|]; [tauto|lia].
      * inversion H; subst. split; [|apply in_or_app; right; now left].
        rewrite (proj1 (count_occ_not_In string_dec ws a) Hwn).
        destruct (string_dec a a); [reflexivity|congruence].
    + intros a Ha. apply in_or_app.
      apply in_app_or in Ha as [Ha|[<-|[]]]; [left; auto|right; now left].
    + apply StronglySorted_snoc.
      * eapply StronglySorted_weaken; [|exact Hsort].
        intros x y Hx Hy Hlt. rewrite !index_of_app_in by auto. exact Hlt.
      * apply Forall_forall. intros a Ha.
        rewrite (index_of_app_in a ws [w]) by auto.
        rewrite (index_of_app_new w ws Hwn).
        apply index_of_lt_length. auto.
Qed.

Lemma Counter_counts ws : counts_of ws (Counter ws).
Proof.
  induction ws as [|w ws IH] using rev_ind.
  - apply counts_of_nil.
  - rewrite Counter_snoc. now apply counts_of_snoc.
Qed.

(** *** The stable sort *)

Lemma insert_desc_perm x l : Permutation (insert_desc x l) (x :: l).
Proof.
  induction l as [|y r IH]; simpl; [reflexivity|].
  destruct (Nat.ltb (snd x) (snd y)); [|reflexivity].
  rewrite IH. apply perm_swap.
Qed.

Lemma sort_desc_perm c : Permutation (sort_desc c) c.
Proof.
  induction c as [|x r IH]; simpl; [reflexivity|].
  rewrite insert_desc_perm. now constructor.
Qed.

Lemma by_rank_count ws x y : by_rank ws x y -> snd y <= snd x.
Proof. intros [H|[H _]]; lia. Qed.

Lemma insert_desc_sorted ws x l :
  StronglySorted (by_rank ws) l ->
  Forall (fun y => index_of (fst x) ws < index_of (fst y) ws) l ->
  StronglySorted (by_rank ws) (insert_desc x l).
Proof.
  induction 1 as [|y r Hs IH Hy]; intros Hx; simpl.
  - repeat constructor.
  - inversion Hx as [|? ? Hxy Hxr]; subst.
    destruct (Nat.ltb_spec (snd x) (snd y)) as [Hlt|Hge].
    + constructor; [auto|].
      rewrite (insert_desc_perm x r). constructor; [|assumption].
      left. exact Hlt.
    + constructor; [constructor; assumption|].
      apply Forall_forall. intros z Hz.
      assert (Hzc : snd z <= snd y).
      { destruct Hz as [<-|Hz]; [lia|].
        rewrite Forall_forall in Hy. apply (by_rank_count ws), Hy, Hz. }
      assert (Hzi : index_of (fst x) ws < index_of (fst z) ws).
      { rewrite Forall_forall in Hx. apply Hx. exact Hz. }
      unfold by_rank.
      destruct (Nat.eq_dec (snd x) (snd z)); [right; auto|left; lia].
Qed.

Lemma sort_desc_sorted ws c :
  StronglySorted (by_first_index ws) c ->
  StronglySorted (by_rank ws) (sort_desc c).
Proof.
  induction 1 as [|x r Hs IH Hx]; simpl; [constructor|].
  apply insert_desc_sorted; [assumption|].
  rewrite (sort_desc_perm r). exact Hx.
Qed.

(** *** The ranking of the keywords *)

(** The list [top_keywords ws] holds the 12 first words of [ws] in the
    ranking by descending count, ties going to the word met first. *)
Lemma top_keywords_ranked ws :
  let kws := top_keywords ws in
  List.length kws = Nat.min 12 (List.length (nodup string_dec ws))
  /\ NoDup kws
  /\ (forall k, In k kws -> In k ws)
  /\ StronglySorted (ranks_before ws) kws
  /\ (forall w k, In w ws -> ~ In w kws -> In k kws -> ranks_before ws k w).
Proof.
  intros kws. subst kws. unfold top_keywords, most_common.
  destruct (Counter_counts ws) as (Hnd & Hent & Hall & Hsort).
  set (c := Counter ws) in *.
  pose proof (sort_desc_perm c) as Hperm.
  assert (Hsorted : StronglySorted (by_rank ws) (sort_desc c)).
  { apply sort_desc_sorted.
    exact (proj1 (StronglySorted_map
                    (fun a b => index_of a ws < index_of b ws) fst c) Hsort). }
  assert (Hent' : forall w n, In (w, n) (sort_desc c) ->
                    n = count_occ string_dec ws w /\ In w ws).
  { intros w n H. apply Hent. now rewrite <- Hperm. }
  assert (Hnd' : NoDup (map fst (sort_desc c))).
  { eapply Permutation_NoDup; [|exact Hnd].
    apply Permutation_map. now symmetry. }
  rewrite <- (firstn_skipn 12 (sort_desc c)) in Hsorted, Hnd', Hent'.
  apply StronglySorted_app_inv in Hsorted as [Hs1 Hcross].
  rewrite map_app in Hnd'.
  assert (Hrank : forall x y,
            In x (sort_desc c) -> In y (sort_desc c) ->
            by_rank ws x y -> ranks_before ws (fst x) (fst y)).
  { intros [a na] [b nb] Ha Hb Hr.
    rewrite <- (firstn_skipn 12 (sort_desc c)) in Ha, Hb.
    destruct (Hent' _ _ Ha) as [-> _]. destruct (Hent' _ _ Hb) as [-> _].
    exact Hr. }
  split; [|split; [|split; [|split]]].
  - rewrite length_map, length_firstn. f_equal.
    rewrite (Permutation_length Hperm), <- (length_map fst).
    apply Permutation_length. apply NoDup_Permutation.
    + exact Hnd.
    + apply NoDup_nodup.
    + intros a. rewrite nodup_In. split; [|apply Hall].
      intros Ha. apply in_map_iff in Ha as ([a' n] & <- & Hin).
      now apply Hent in Hin.
  - now apply NoDup_app_remove_r in Hnd'.
  - intros k Hk. apply in_map_iff in Hk as ([k' n] & <- & Hin).
    apply (Hent' k' n). apply in_or_app. now left.
  - apply StronglySorted_map.
    eapply StronglySorted_weaken; [|exact Hs1].
    intros x y Hx Hy. apply Hrank; eapply In_firstn; eassumption.
  - intros w k Hw Hnot Hk.
    apply in_map_iff in Hk as ([k' n] & <- & Hin).
    apply Hall in Hw. apply in_map_iff in Hw as ([w' m] & <- & Hwin).
    rewrite <- Hperm, <- (firstn_skipn 12 (sort_desc c)) in Hwin.
    apply in_app_or in Hwin as [Hwin|Hwin].
    + exfalso. apply Hnot. apply in_map_iff. exists (w', m). auto.
    + apply (Hrank (k', n) (w', m)).
      * eapply In_firstn; eassumption.
      * rewrite <- (firstn_skipn 12 (sort_desc c)). apply in_or_app. now right.
      * now apply Hcross.
Qed.

End Keywords.

(** *** The keywords of a run *)

Section KeywordsClaim.
Import Outline PipelineSpec Ranking.

Variable json_loads : string -> option value.
Variable json_dumps : value -> string.
Variable generate_content : nat -> string -> outcome.
Variable uuid4 : nat -> N.
Variable recursion_limit : nat.

Lemma node_text_set_explanation x n :
  node_text (set_explanation x n) = node_text n.
Proof.
  unfold node_text, set_explanation.
  now rewrite !dict_get_set_other by discriminate.
Qed.

Lemma node_texts_explained ns ns' :
  explained ns ns' -> node_texts ns' = node_texts ns.
Proof.
  induction 1 as [|n n' ns ns' [x ->] _ IH]; simpl; [reflexivity|].
  now rewrite node_text_set_explanation, IH.
Qed.

Lemma keywords_of_explained ns ns' :
  explained ns ns' -> keywords_of ns' = keywords_of ns.
Proof. intros H. unfold keywords_of. now rewrite (node_texts_explained _ _ H). Qed.

(** The texts of the nodes are there exactly when every label and every
    summary is a string. *)
Lemma node_text_strings n :
  text_fields n = true ->
  node_text n = Ok ((str_field "label" n ++ " ") ++ str_field "summary" n).
Proof.
  unfold text_fields, node_text, str_field.
  destruct (Py.dict_get "label" n) as [[]|]; simpl; try discriminate;
    destruct (Py.dict_get "summary" n) as [[]|]; simpl; try discriminate;
    reflexivity.
Qed.

Lemma node_text_raises n :
  text_fields n = false -> exists e, node_text n = Raise e.
Proof.
  unfold text_fields, node_text.
  destruct (Py.dict_get "label" n) as [[]|]; simpl;
    try (eexists; reflexivity);
    destruct (Py.dict_get "summary" n) as [[]|]; simpl; try discriminate;
    eexists; reflexivity.
Qed.

Lemma node_texts_strings ns :
  forallb text_fields ns = true ->
  node_texts ns
  = Ok (map (fun n => (str_field "label" n ++ " ") ++ str_field "summary" n) ns).
Proof.
  induction ns as [|n ns IH]; simpl; [reflexivity|].
  intros H. apply andb_prop in H as [Hn Hr].
  now rewrite (node_text_strings n Hn), (IH Hr).
Qed.

Lemma node_texts_raises ns :
  forallb text_fields ns = false -> exists e, node_texts ns = Raise e.
Proof.
  induction ns as [|n ns IH]; simpl; [discriminate|].
  destruct (text_fields n) eqn:Hn; simpl.
  - intros Hr. destruct (IH Hr) as (e & ->).
    rewrite (node_text_strings n Hn). eauto.
  - intros _. destruct (node_text_raises n Hn) as (e & ->). eauto.
Qed.

(** Claim C8, as amended.  On a run that reaches the enrichment stages,
    [meta.keywords] is a function of the nodes alone.  When the label or the
    summary of a node is not a string, it is the empty list.  Otherwise the
    labels and summaries are joined with spaces and split at white space;
    the tokens longer than 3 characters are kept, the length being that of
    the token as split; each is lowercased and stripped of the characters
    [.,:;()[]]; and the keywords are the 12 first of the resulting words, or
    all of them, in the ranking by descending count where a tie goes to the
    word met first. *)
Theorem keywords_of_a_run text thr enable st structure fr0 :
  reaches_enrichment json_loads generate_content uuid4 recursion_limit
                     text thr st structure fr0 ->
  exists fr3,
    process_text_to_mindmap json_loads json_dumps generate_content uuid4
                            recursion_limit text thr enable st
    = (Ok (graph_result fr3), world fr3)
    /\ (forallb text_fields (nodes fr0) = false ->
        Py.dict_get "keywords" (meta fr3) = Some (VList []))
    /\ (forallb text_fields (nodes fr0) = true ->
        exists ws kws,
          ws = map (fun w => PyStr.strip_chars ".,:;()[]" (PyStr.lower w))
                   (filter (fun w => Nat.ltb 3 (String.length w))
                      (PyStr.split
                         (PyStr.join " "
                            (map (fun n => (str_field "label" n ++ " ")
                                           ++ str_field "summary" n)
                                 (nodes fr0)))))
          /\ Py.dict_get "keywords" (meta fr3) = Some (VList (map VStr kws))
          /\ List.length kws = Nat.min 12 (List.length (nodup string_dec ws))
          /\ NoDup kws
          /\ (forall k, In k kws -> In k ws)
          /\ StronglySorted (ranks_before ws) kws
          /\ (forall w k, In w ws -> ~ In w kws -> In k kws ->
                          ranks_before ws k w)).
Proof.
  intros Hre.
  rewrite (process_from_enrichment json_loads json_dumps generate_content uuid4
             recursion_limit _ _ enable _ _ _ Hre).
  destruct (enrich_returns json_loads json_dumps generate_content
              enable structure fr0) as (fr3 & -> & Hx & _ & Hk).
  exists fr3. split; [reflexivity|].
  rewrite Hk, (keywords_of_explained _ _ Hx). unfold keywords_of. split.
  - intros Hf. destruct (node_texts_raises _ Hf) as (e & ->). reflexivity.
  - intros Ht. rewrite (node_texts_strings _ Ht).
    eexists _, (top_keywords (keyword_tokens (PyStr.join " " _))).
    split; [reflexivity|]. split; [reflexivity|].
    apply top_keywords_ranked.
Qed.

End KeywordsClaim.

(** ** The companion generator *)

Section Companion.
Import PipelineSpec.

Variable json_loads : string -> option value.
Variable generate_content : nat -> string -> outcome.

(** Claim C9.  On a summary that is empty or white space only,
    [generate_quiz_and_flashcards] returns two empty lists and sends nothing
    to the model.  Otherwise it sends exactly one request, and what it
    returns is decided by the outcome of that request.  It returns two
    empty lists when the request raises, when the reply has no text, when
    nothing in the text matches the pattern, when the match does not parse
    and when it parses to what is not a dict; when it parses to a dict, it
    returns what the dict has under [flashcards] and under [quiz], the
    empty list standing for an absent key.  The same holds of the first
    definition of that name in the file, which reads the whole reply as
    JSON. *)
Theorem companion_generator summary_text st :
  (PyStr.is_empty (PyStr.strip summary_text) = true ->
   generate_quiz_and_flashcards json_loads generate_content summary_text st
   = ((VList [], VList []), st)
   /\ generate_quiz_and_flashcards_shadowed json_loads generate_content
        summary_text st
      = ((VList [], VList []), st))
  /\ (PyStr.is_empty (PyStr.strip summary_text) = false ->
      (exists r,
         generate_quiz_and_flashcards json_loads generate_content summary_text st
         = (r, State (prompts st ++ [Prompts.quiz_prompt summary_text])%list
                     (draws st))
         /\ let o := generate_content (List.length (prompts st))
                                      (Prompts.quiz_prompt summary_text) in
            (forall e, o = Raises e -> r = (VList [], VList []))
            /\ (forall resp,
                  o = Returns resp -> resp_text resp = None ->
                  r = (VList [], VList []))
            /\ (forall resp t,
                  o = Returns resp -> resp_text resp = Some t ->
                  (PyStr.re_search_span t = None -> r = (VList [], VList []))
                  /\ (forall group,
                        PyStr.re_search_span t = Some group ->
                        (json_loads group = None -> r = (VList [], VList []))
                        /\ (forall data,
                              json_loads group = Some data ->
                              (Py.is_dict data = false ->
                               r = (VList [], VList []))
                              /\ (forall d,
                                    data = VDict d ->
                                    r = (or_empty_list "flashcards" d,
                                         or_empty_list "quiz" d))))))
      /\ (exists r,
            generate_quiz_and_flashcards_shadowed json_loads generate_content
              summary_text st
            = (r, State (prompts st ++ [Prompts.quiz_prompt_shadowed summary_text])%list
                        (draws st))
            /\ let o := generate_content (List.length (prompts st))
                          (Prompts.quiz_prompt_shadowed summary_text) in
               (forall e, o = Raises e -> r = (VList [], VList []))
               /\ (forall resp,
                     o = Returns resp -> resp_text resp = None ->
                     r = (VList [], VList []))
               /\ (forall resp t,
                     o = Returns resp -> resp_text resp = Some t ->
                     (json_loads t = None -> r = (VList [], VList []))
                     /\ (forall data,
                           json_loads t = Some data ->
                           (Py.is_dict data = false -> r = (VList [], VList []))
                           /\ (forall d,
                                 data = VDict d ->
                                 r = (or_empty_list "flashcards" d,
                                      or_empty_list "quiz" d)))))).
Proof.
  split.
  - intros Hblank.
    unfold generate_quiz_and_flashcards, generate_quiz_and_flashcards_shadowed.
    rewrite Hblank. split; reflexivity.
  - intros Hfull. split.
    + unfold generate_quiz_and_flashcards. rewrite Hfull.
      unfold MODEL_generate_content.
      set (o := generate_content _ _).
      exists (match quiz_of_response json_loads o with
              | Ok r => r
              | Raise _ => (VList [], VList [])
              end).
      split; [destruct (quiz_of_response json_loads o); reflexivity|].
      unfold quiz_of_response, response_text.
      split; [|split].
      * intros e ->. reflexivity.
      * intros resp -> ->. reflexivity.
      * intros resp t -> ->. cbn [re_search]. split.
        -- intros ->. reflexivity.
        -- intros group ->. split.
           ++ intros ->. reflexivity.
           ++ intros data ->. split.
              ** intros Hd. destruct data; try discriminate Hd; reflexivity.
              ** intros d ->. reflexivity.
    + unfold generate_quiz_and_flashcards_shadowed. rewrite Hfull.
      unfold MODEL_generate_content.
      set (o := generate_content _ _).
      exists (match quiz_of_response_shadowed json_loads o with
              | Ok r => r
              | Raise _ => (VList [], VList [])
              end).
      split; [destruct (quiz_of_response_shadowed json_loads o); reflexivity|].
      unfold quiz_of_response_shadowed, response_text.
      split; [|split].
      * intros e ->. reflexivity.
      * intros resp -> ->. reflexivity.
      * intros resp t -> ->. split.
        -- intros ->. reflexivity.
        -- intros data ->. split.
           ++ intros Hd. destruct data; try discriminate Hd; reflexivity.
           ++ intros d ->. reflexivity.
Qed.

End Companion.
(** ** The repair parser *)

Lemma append_assoc_s (a b c : string) : (a ++ b) ++ c = a ++ b ++ c.
Proof. induction a as [|x a IH]; simpl; [reflexivity|now rewrite IH]. Qed.

Section RepairParser.
Import PyStr JsonSpec.

(** *** The repair pattern *)



Lemma bracket_pair_open o c :
  bracket_pair o c -> (o = "{"%char /\ c = "}"%char) \/ (o = "["%char /\ c = "]"%char).
Proof. auto. Qed.



(** *** The claim on the repair parser *)


End RepairParser.

(** ** The gateway and the identifiers *)

Section Trimming.
Import PyStr WorldSpec.
Variable p : ascii -> bool.

Lemma lstrip_with_keeps_head s : keeps_head p (lstrip_with p s).
Proof.
  induction s as [|c r IH]; simpl; [exact I|].
  destruct (p c) eqn:E; [exact IH|exact E].
Qed.

Lemma lstrip_with_fixed s : keeps_head p s -> lstrip_with p s = s.
Proof. destruct s as [|c r]; simpl; [reflexivity|]. now intros ->. Qed.

Lemma rstrip_with_keeps_head s :
  keeps_head p s -> keeps_head p (rstrip_with p s).
Proof.
  destruct s as [|c r]; simpl; [auto|]. intros Hc.
  destruct (rstrip_with p r); [rewrite Hc|]; exact Hc.
Qed.

Lemma rstrip_with_fixed s : rstrip_with p (rstrip_with p s) = rstrip_with p s.
Proof.
  induction s as [|c r IH]; simpl; [reflexivity|].
  destruct (rstrip_with p r) as [|a t] eqn:E.
  - destruct (p c) eqn:Hc; simpl; [reflexivity|now rewrite Hc].
  - simpl in IH |- *. now rewrite IH.
Qed.

Lemma strip_with_fixed s :
  rstrip_with p (lstrip_with p (rstrip_with p (lstrip_with p s)))
  = rstrip_with p (lstrip_with p s).
Proof.
  rewrite (lstrip_with_fixed (rstrip_with p (lstrip_with p s))).
  - apply rstrip_with_fixed.
  - apply rstrip_with_keeps_head, lstrip_with_keeps_head.
Qed.

End Trimming.

Lemma strip_strip s : PyStr.strip (PyStr.strip s) = PyStr.strip s.
Proof. apply strip_with_fixed. Qed.

Section Gateway.
Import WorldSpec.
Variable generate_content : nat -> string -> outcome.
Variable uuid4 : nat -> N.
Variable recursion_limit : nat.

(** What one call of the gateway does to the world: the prompt is sent
    once, or twice when the first attempt raised. *)
Lemma _call_gemini_log prompt st :
  exists text k,
    _call_gemini generate_content prompt st
    = (Ok text, State (prompts st ++ repeat prompt k)%list (draws st))
    /\ 1 <= k <= 2.
Proof.
  unfold _call_gemini, _call_gemini_retry. simpl. unfold MODEL_generate_content.
  destruct (generate_content (List.length (prompts st)) prompt) as [r|e].
  - exists (PyStr.strip (text_or_str r)), 1. split; [reflexivity|lia].
  - simpl.
    destruct (generate_content _ prompt) as [r|e'];
      eexists _, 2; (split; [|lia]); simpl; rewrite <- app_assoc; reflexivity.
Qed.

(** [_call_gemini] never raises and leaves the draws alone.  It sends the
    prompt once, or twice when the first attempt raised, and never more.
    When the last attempt answers, the text returned is the answer without
    surrounding white space; when it raises, the text is the failure marker
    followed by the message of the exception. *)
Theorem gateway_contract prompt st :
  exists text k,
    _call_gemini generate_content prompt st
    = (Ok text, State (prompts st ++ repeat prompt k)%list (draws st))
    /\ (k = 1 \/ k = 2)
    /\ (k = 2 <-> exists e,
           generate_content (List.length (prompts st)) prompt = Raises e)
    /\ (forall r,
          generate_content (List.length (prompts st) + k - 1) prompt = Returns r ->
          text = PyStr.strip (text_or_str r) /\ PyStr.strip text = text)
    /\ (forall e,
          generate_content (List.length (prompts st) + k - 1) prompt = Raises e ->
          text = "__GEMINI_ERROR__: " ++ exn_str e).
Proof.
  unfold _call_gemini, _call_gemini_retry. simpl. unfold MODEL_generate_content.
  destruct (generate_content (List.length (prompts st)) prompt) as [r|e] eqn:E1.
  - exists (PyStr.strip (text_or_str r)), 1. split; [reflexivity|].
    split; [auto|]. split; [split; [discriminate|intros [e He]; discriminate]|].
    replace (List.length (prompts st) + 1 - 1) with (List.length (prompts st)) by lia.
    rewrite E1. split.
    + intros r' H; inversion H; subst. split; [reflexivity|apply strip_strip].
    + discriminate.
  - simpl. rewrite length_app. simpl.
    destruct (generate_content (List.length (prompts st) + 1) prompt) as [r|e'] eqn:E2;
      eexists _, 2; (split; [simpl; rewrite <- app_assoc; reflexivity|]);
      (split; [auto|]); (split; [split; eauto|]);
      replace (List.length (prompts st) + 2 - 1)
        with (List.length (prompts st) + 1) by lia;
      rewrite E2; split; try discriminate.
    + intros r' H; inversion H; subst. split; [reflexivity|apply strip_strip].
    + intros e0 H; inversion H; subst. reflexivity.
Qed.

Lemma hex_digit_lower n :
  (n < 16)%N -> PyStr.mem_char (hex_digit n) "0123456789abcdef" = true.
Proof.
  intros H. destruct n as [|p]; [reflexivity|].
  do 4 (destruct p as [p|p|]; try reflexivity); lia.
Qed.

Lemma mem_char_app c a b :
  PyStr.mem_char c (a ++ b) = PyStr.mem_char c a || PyStr.mem_char c b.
Proof.
  induction a as [|x a IH]; simpl; [reflexivity|]. rewrite IH. apply orb_assoc.
Qed.

Lemma hex_fixed_made_of k n : made_of "0123456789abcdef" (hex_fixed k n).
Proof.
  revert n. induction k as [|k IH]; intros n c; simpl; [discriminate|].
  rewrite mem_char_app. intros H. apply orb_true_iff in H as [H|H].
  - exact (IH _ _ H).
  - simpl in H. rewrite orb_false_r in H. apply Ascii.eqb_eq in H. subst c.
    apply hex_digit_lower. apply N.mod_lt. discriminate.
Qed.

Lemma mem_char_take c n s :
  PyStr.mem_char c (PyStr.take n s) = true -> PyStr.mem_char c s = true.
Proof.
  revert s. induction n as [|n IH]; intros [|a s]; simpl; try discriminate.
  intros H. apply orb_true_iff in H as [H|H]; [now rewrite H|].
  rewrite (IH _ H). apply orb_true_r.
Qed.

(** [_short_id] gives the prefix, an underscore and eight hexadecimal
    digits in lower case, nine characters more than the prefix, and costs one
    draw. *)
Theorem short_id_shape prefix st :
  exists h,
    _short_id uuid4 prefix st
    = (Ok (prefix ++ "_" ++ h), State (prompts st) (S (draws st)))
    /\ String.length h = 8
    /\ made_of "0123456789abcdef" h
    /\ String.length (prefix ++ "_" ++ h) = String.length prefix + 9.
Proof.
  exists (PyStr.take 8 (uuid4_hex uuid4 (draws st))).
  split; [reflexivity|].
  assert (Hl : String.length (PyStr.take 8 (uuid4_hex uuid4 (draws st))) = 8).
  { apply take_length_eq. unfold uuid4_hex. rewrite hex_fixed_length. lia. }
  split; [exact Hl|]. split.
  - intros c Hc. apply mem_char_take in Hc. exact (hex_fixed_made_of _ _ _ Hc).
  - rewrite !string_length_app, Hl. simpl. lia.
Qed.

End Gateway.

(** ** The chunks of an oversized text *)

Section Chunks.
Import WorldSpec.

Lemma take_drop n s : PyStr.take n s ++ PyStr.drop n s = s.
Proof.
  revert s. induction n as [|n IH]; intros [|c r]; simpl; try reflexivity.
  now rewrite IH.
Qed.

Lemma drop_length n s : String.length (PyStr.drop n s) = String.length s - n.
Proof.
  revert s. induction n as [|n IH]; intros [|c r]; simpl; try lia. apply IH.
Qed.

Lemma take_length_min n s :
  String.length (PyStr.take n s) = Nat.min n (String.length s).
Proof.
  revert s. induction n as [|n IH]; intros [|c r]; simpl; try reflexivity.
  now rewrite IH.
Qed.

Lemma chunk_count_step n k' :
  S k' < n -> chunk_count n (S k') = S (chunk_count (n - S k') (S k')).
Proof.
  intros H. unfold chunk_count.
  replace (n + (S k' - 1)) with ((n - S k' + (S k' - 1)) + 1 * S k') by lia.
  rewrite Nat.div_add by discriminate. lia.
Qed.

Lemma chunk_count_one n k' : 1 <= n <= S k' -> chunk_count n (S k') = 1.
Proof.
  intros H. unfold chunk_count.
  replace (n + (S k' - 1)) with ((n - 1 + k' - k') + 1 * S k') by lia.
  rewrite Nat.div_add by discriminate.
  rewrite Nat.div_small; lia.
Qed.

Lemma chunk_count_zero k' : chunk_count 0 (S k') = 0.
Proof. unfold chunk_count. apply Nat.div_small. lia. Qed.

Lemma append_empty_r' s : s ++ "" = s.
Proof. induction s; simpl; congruence. Qed.

Lemma chunks_fuel_spec k' fuel s :
  String.length s <= fuel ->
  String.concat "" (PyStr.chunks_fuel fuel k' s) = s
  /\ Forall (fun c => 1 <= String.length c <= S k') (PyStr.chunks_fuel fuel k' s)
  /\ List.length (PyStr.chunks_fuel fuel k' s) = chunk_count (String.length s) (S k').
Proof.
  revert s. induction fuel as [|fuel IH]; intros s Hf.
  - destruct s; [|simpl in Hf; lia].
    cbn [PyStr.chunks_fuel String.length List.length String.concat].
    rewrite chunk_count_zero. repeat split. constructor.
  - destruct s as [|c r].
    + cbn [PyStr.chunks_fuel String.length List.length String.concat].
      rewrite chunk_count_zero. repeat split. constructor.
    + remember (String c r) as s eqn:Es.
      assert (Hlen : 1 <= String.length s) by (subst s; simpl; lia).
      assert (Hstep : PyStr.chunks_fuel (S fuel) k' s
                      = PyStr.take (S k') s
                        :: PyStr.chunks_fuel fuel k' (PyStr.drop (S k') s))
        by (subst s; reflexivity).
      rewrite Hstep. clear Hstep.
      destruct (IH (PyStr.drop (S k') s)) as (Hc & Hb & Hn).
      { rewrite drop_length. lia. }
      split; [|split].
      * destruct (PyStr.chunks_fuel fuel k' (PyStr.drop (S k') s)) as [|x l] eqn:El.
        -- cbn [String.concat] in Hc |- *.
           transitivity (PyStr.take (S k') s ++ PyStr.drop (S k') s);
             [rewrite <- Hc; symmetry; apply append_empty_r'|apply take_drop].
        -- change (String.concat "" (PyStr.take (S k') s :: x :: l))
             with (PyStr.take (S k') s ++ "" ++ String.concat "" (x :: l)).
           rewrite Hc. apply take_drop.
      * constructor; [|exact Hb]. cbv beta. rewrite take_length_min. lia.
      * cbn [List.length]. rewrite Hn, drop_length.
        destruct (Nat.le_gt_cases (String.length s) (S k')) as [Hle|Hgt].
        -- rewrite (chunk_count_one (String.length s)) by lia.
           replace (String.length s - S k') with 0 by lia.
           now rewrite chunk_count_zero.
        -- now rewrite (chunk_count_step (String.length s)).
Qed.

End Chunks.

(** ** Requests and draws, stage by stage *)

Section World.
Import WorldSpec.

Lemma sends_refl st : sends 0 st st.
Proof. split; [exists []; rewrite app_nil_r; auto|reflexivity]. Qed.

Lemma sends_trans n m a b c : sends n a b -> sends m b c -> sends (n + m) a c.
Proof.
  intros [(x & Hx & Lx) Dx] [(y & Hy & Ly) Dy]. split; [|congruence].
  exists (x ++ y)%list. rewrite Hy, Hx, app_assoc, length_app. split; [reflexivity|lia].
Qed.

Lemma sends_le n m a b : n <= m -> sends n a b -> sends m a b.
Proof. intros H [(x & Hx & Lx) Dx]. split; [exists x; split; [auto|lia]|auto]. Qed.

End World.

Section Costs.
Import Outline BuilderSpec PipelineSpec WorldSpec.
Variable json_loads : string -> option value.
Variable json_dumps : value -> string.
Variable generate_content : nat -> string -> outcome.
Variable uuid4 : nat -> N.
Variable recursion_limit : nat.

Lemma _call_gemini_sends prompt st r st' :
  _call_gemini generate_content prompt st = (r, st') ->
  sends 2 st st' /\ exists text, r = Ok text.
Proof.
  destruct (_call_gemini_log generate_content prompt st) as (text & k & -> & Hk).
  intros H; inversion H; subst; simpl.
  split; [split; [|reflexivity]|eauto].
  exists (repeat prompt k). rewrite repeat_length. simpl. split; [reflexivity|lia].
Qed.

(** *** The builder sends nothing *)

Lemma build_item_appends recur :
  only_appends recur ->
  forall parent level item acc st r st',
    build_item uuid4 recur parent level item acc st = (r, st') ->
    prompts st' = prompts st /\ draws st <= draws st'
    /\ forall acc', r = Ok acc' ->
         exists n ns es,
           acc' = ((fst acc ++ n :: ns)%list, (snd acc ++ es)%list)
           /\ draws st' = draws st + S (List.length ns).
Proof.
  intros Hrec parent level item acc st r st' H.
  unfold build_item, bind, lift, _short_id in H. cbv beta iota zeta in H.
  destruct (Py.get item "title" (VStr "")) as [title|];
    [|inversion H; subst; simpl; repeat split; [lia|discriminate]].
  cbv beta iota in H.
  destruct (Py.slice_to 140 title) as [label|];
    [|inversion H; subst; simpl; repeat split; [lia|discriminate]].
  cbv beta iota in H.
  destruct (Py.get item "summary" (VStr "")) as [s0|];
    [|inversion H; subst; simpl; repeat split; [lia|discriminate]].
  cbv beta iota in H.
  destruct (Py.slice_to 400 s0) as [summary|];
    [|inversion H; subst; simpl; repeat split; [lia|discriminate]].
  cbv beta iota in H.
  destruct (Py.get item "key_points" (VList [])) as [k0|];
    [|inversion H; subst; simpl; repeat split; [lia|discriminate]].
  cbv beta iota in H.
  destruct (Py.slice_to 6 k0) as [kp|];
    [|inversion H; subst; simpl; repeat split; [lia|discriminate]].
  cbv beta iota in H.
  destruct (Py.get item "subtopics" (VList [])) as [sub|];
    [|inversion H; subst; simpl; repeat split; [lia|discriminate]].
  cbv beta iota in H.
  assert (He1 : exists es1,
             match parent_given parent with
             | Some p =>
                 (snd acc ++ [make_edge p (("n" ++ PyStr.of_nat level) ++ "_"
                     ++ PyStr.take 8 (uuid4_hex uuid4 (draws st)))])%list
             | None => snd acc
             end = (snd acc ++ es1)%list).
  { destruct (parent_given parent); [eauto|]. exists []. now rewrite app_nil_r. }
  destruct He1 as (es1 & He1). rewrite He1 in H. clear He1.
  destruct (Py.is_list sub && Py.truthy sub).
  - destruct (Hrec _ _ _ _ _ _ _ H) as (Hp & Hd & Hok). simpl in Hp, Hd.
    split; [exact Hp|]. split; [lia|].
    intros acc' ->. destruct (Hok _ eq_refl) as (ns & es & -> & Hn). simpl in *.
    eexists _, ns, (es1 ++ es)%list. rewrite <- !app_assoc.
    split; [reflexivity|lia].
  - inversion H; subst. simpl. split; [reflexivity|]. split; [lia|].
    intros acc' Ha; inversion Ha; subst.
    eexists _, [], es1. split; [reflexivity|simpl; lia].
Qed.

Lemma build_items_appends recur :
  only_appends recur ->
  forall items parent level acc st r st',
    build_items uuid4 recur parent level items acc st = (r, st') ->
    prompts st' = prompts st /\ draws st <= draws st'
    /\ forall acc', r = Ok acc' ->
         exists ns es, acc' = ((fst acc ++ ns)%list, (snd acc ++ es)%list)
                       /\ draws st' = draws st + List.length ns
                       /\ (items <> [] -> ns <> []).
Proof.
  intros Hrec. induction items as [|item rest IH];
    intros parent level acc st r st' H.
  - inversion H; subst. split; [reflexivity|]. split; [lia|].
    intros acc' Ha; inversion Ha; subst. exists [], [].
    rewrite !app_nil_r. simpl. destruct acc'.
    split; [reflexivity|]. split; [lia|congruence].
  - simpl in H. unfold bind at 1 in H.
    destruct (build_item uuid4 recur parent level item acc st)
      as [[acc1|e] st1] eqn:E;
      destruct (build_item_appends recur Hrec _ _ _ _ _ _ _ E) as (Hp1 & Hd1 & Hok1).
    + destruct (IH _ _ _ _ _ _ H) as (Hp & Hd & Hok).
      split; [congruence|]. split; [lia|].
      intros acc' ->. destruct (Hok _ eq_refl) as (ns & es & -> & Hn & _).
      destruct (Hok1 _ eq_refl) as (n & ns1 & es1 & -> & Hn1). simpl in *.
      exists ((n :: ns1) ++ ns)%list, (es1 ++ es)%list.
      rewrite !app_assoc. split; [reflexivity|].
      split; [rewrite length_app; simpl; lia|]. intros _. discriminate.
    + inversion H; subst. split; [exact Hp1|]. split; [exact Hd1|discriminate].
Qed.

Lemma build_graph_fuel_appends fuel :
  forall h parent level acc st r st',
    build_graph_fuel uuid4 fuel h parent level acc st = (r, st') ->
    prompts st' = prompts st /\ draws st <= draws st'
    /\ forall acc', r = Ok acc' ->
         exists ns es, acc' = ((fst acc ++ ns)%list, (snd acc ++ es)%list)
                       /\ draws st' = draws st + List.length ns
                       /\ (Py.truthy h = true -> ns <> []).
Proof.
  induction fuel as [|fuel IH]; intros h parent level acc st r st' H.
  - inversion H; subst. split; [reflexivity|]. split; [lia|discriminate].
  - simpl in H. unfold bind at 1, lift in H.
    destruct (Py.iter h) as [items|e] eqn:Ei.
    + assert (Hrec : only_appends (build_graph_fuel uuid4 fuel)).
      { intros h0 p0 l0 a0 s0 r0 s0' H0.
        destruct (IH _ _ _ _ _ _ _ H0) as (Hp & Hd & Hok).
        split; [exact Hp|]. split; [exact Hd|].
        intros acc' Ha. destruct (Hok _ Ha) as (ns & es & -> & Hn & _). eauto. }
      destruct (build_items_appends _ Hrec _ _ _ _ _ _ _ H) as (Hp & Hd & Hok).
      split; [exact Hp|]. split; [exact Hd|]. intros acc' Ha.
      destruct (Hok _ Ha) as (ns & es & -> & Hn & Hne). exists ns, es.
      split; [reflexivity|]. split; [exact Hn|]. intros Ht. apply Hne.
      destruct h as [| | | |s|l|d]; simpl in Ei; try discriminate;
        inversion Ei; subst.
      * destruct s; [discriminate|simpl; discriminate].
      * destruct items; discriminate.
      * destruct d; [discriminate|simpl; discriminate].
    + inversion H; subst. split; [reflexivity|]. split; [lia|discriminate].
Qed.

Lemma build_graph_appends h st r st' :
  build_graph_from_hierarchy uuid4 recursion_limit h st = (r, st') ->
  prompts st' = prompts st /\ draws st <= draws st'
  /\ forall ns es, r = Ok (ns, es) ->
       draws st' = draws st + List.length ns
       /\ (Py.truthy h = true -> ns <> []).
Proof.
  intros H. unfold build_graph_from_hierarchy in H.
  destruct (build_graph_fuel_appends _ _ _ _ _ _ _ _ H) as (Hp & Hd & Hok).
  split; [exact Hp|]. split; [exact Hd|]. intros ns es ->.
  destruct (Hok _ eq_refl) as (ns' & es' & Ha & Hn & Hne). simpl in Ha.
  inversion Ha; subst. auto.
Qed.

End Costs.

Section Stages.
Import Outline BuilderSpec PipelineSpec WorldSpec.
Variable json_loads : string -> option value.
Variable json_dumps : value -> string.
Variable generate_content : nat -> string -> outcome.
Variable uuid4 : nat -> N.
Variable recursion_limit : nat.

Lemma for_each_node_world f fr r fr' :
  for_each_node f fr = (r, fr') -> world fr' = world fr.
Proof. rewrite for_each_node_run. intros H; inversion H; reflexivity. Qed.

Lemma summary_try_sends structure fr r fr' :
  summary_try json_loads json_dumps generate_content structure fr = (r, fr') ->
  sends 2 (world fr) (world fr').
Proof.
  unfold summary_try, bind, lift.
  destruct (Py.slice_to 3 structure) as [top3|e].
  2:{ intros H; inversion H; subst. apply (sends_le 0); [lia|apply sends_refl]. }
  unfold in_world.
  destruct (_call_gemini generate_content _ (world fr)) as [[raw|e] w] eqn:Ec;
    destruct (_call_gemini_sends _ _ _ _ _ Ec) as (Hg & _); simpl.
  2:{ intros H; inversion H; subst; exact Hg. }
  destruct (Py.truthy (_safe_json_loads json_loads raw)).
  2:{ unfold ret. intros H; inversion H; subst; exact Hg. }
  destruct (Py.get _ "thesis" _) as [thesis|e].
  2:{ intros H; inversion H; subst; exact Hg. }
  destruct (Py.add_str _ _) as [head|e].
  2:{ intros H; inversion H; subst; exact Hg. }
  destruct (Py.get _ "bullets" _) as [bullets|e].
  2:{ intros H; inversion H; subst; exact Hg. }
  destruct (Py.join _ _) as [tail|e].
  2:{ intros H; inversion H; subst; exact Hg. }
  unfold set_meta. simpl.
  destruct (Py.get _ "quiz" _) as [quiz|e];
    intros H; inversion H; subst; exact Hg.
Qed.

Lemma summary_stage_sends enable structure fr r fr' :
  summary_stage json_loads json_dumps generate_content enable structure fr = (r, fr') ->
  sends 2 (world fr) (world fr').
Proof.
  unfold summary_stage. destruct enable.
  - unfold try_except.
    destruct (summary_try json_loads json_dumps generate_content structure fr)
      as [[[]|e] fr1] eqn:E; pose proof (summary_try_sends _ _ _ _ E) as Hg;
      intros H; inversion H; subst; exact Hg.
  - intros H; inversion H; subst. apply (sends_le 0); [lia|apply sends_refl].
Qed.

Lemma explanation_try_sends fr r fr' :
  explanation_try json_loads generate_content fr = (r, fr') ->
  sends 2 (world fr) (world fr').
Proof.
  unfold explanation_try, bind, get_nodes, lift.
  destruct (label_titles (nodes fr)) as [titles|e].
  2:{ intros H; inversion H; subst. apply (sends_le 0); [lia|apply sends_refl]. }
  destruct titles as [|t ts].
  - intros H. rewrite (for_each_node_world _ _ _ _ H).
    apply (sends_le 0); [lia|apply sends_refl].
  - unfold in_world.
    destruct (_call_gemini generate_content _ (world fr)) as [[raw|e] w] eqn:Ec;
      destruct (_call_gemini_sends _ _ _ _ _ Ec) as (Hg & _); simpl.
    2:{ intros H; inversion H; subst; exact Hg. }
    destruct (mapping_of _) as [mapping|e].
    + intros H. rewrite (for_each_node_world _ _ _ _ H). exact Hg.
    + intros H; inversion H; subst; exact Hg.
Qed.

Lemma explanation_stage_sends fr r fr' :
  explanation_stage json_loads generate_content fr = (r, fr') ->
  sends 2 (world fr) (world fr').
Proof.
  destruct (explanation_try json_loads generate_content fr) as [[[]|e] fr2] eqn:E;
    pose proof (explanation_try_sends _ _ _ E) as Hg.
  - unfold explanation_stage, try_except. rewrite E.
    intros H; inversion H; subst; exact Hg.
  - rewrite (explanation_stage_raise _ _ _ _ _ E).
    intros H; inversion H; subst; exact Hg.
Qed.

Lemma enrich_sends enable structure fr0 r fr3 :
  enrich json_loads json_dumps generate_content enable structure fr0 = (r, fr3) ->
  sends 4 (world fr0) (world fr3).
Proof.
  destruct (summary_stage_returns json_loads json_dumps generate_content
              enable structure fr0) as (fr1 & H1 & _).
  destruct (explanation_stage_returns json_loads generate_content fr1)
    as (fr2 & H2 & _).
  rewrite (enrich_run _ _ _ _ _ _ _ _ H1 H2). cbv zeta.
  intros H; inversion H; subst; simpl.
  exact (sends_trans 2 2 _ _ _ (summary_stage_sends _ _ _ _ _ H1)
                     (explanation_stage_sends _ _ _ H2)).
Qed.

Lemma acquire_structure_sends prompt_text st r st' :
  acquire_structure json_loads generate_content prompt_text st = (r, st') ->
  sends 4 st st' /\ exists structure, r = Ok structure.
Proof.
  unfold acquire_structure. cbv zeta. unfold bind at 1.
  destruct (_call_gemini generate_content _ st) as [[raw|e] st1] eqn:E1;
    destruct (_call_gemini_sends _ _ _ _ _ E1) as (Hg1 & (t1 & Ht1));
    [|discriminate].
  destruct (negb _ || negb _).
  - unfold bind.
    destruct (_call_gemini generate_content _ st1) as [[raw2|e] st2] eqn:E2;
      destruct (_call_gemini_sends _ _ _ _ _ E2) as (Hg2 & (t2 & Ht2));
      [|discriminate].
    intros H; inversion H; subst. split; [|eauto].
    exact (sends_trans 2 2 _ _ _ Hg1 Hg2).
  - intros H; inversion H; subst. split; [|eauto].
    apply (sends_le 2); [lia|exact Hg1].
Qed.

Lemma summarize_chunks_sends chunks :
  forall summaries st r st',
    summarize_chunks generate_content chunks summaries st = (r, st') ->
    sends (2 * List.length chunks) st st'.
Proof.
  induction chunks as [|c rest IH]; intros summaries st r st' H.
  - inversion H; subst. apply sends_refl.
  - simpl summarize_chunks in H. unfold bind at 1 in H.
    destruct (_call_gemini generate_content _ st) as [[out|e] st1] eqn:E1;
      destruct (_call_gemini_sends _ _ _ _ _ E1) as (Hg1 & (t1 & Ht1));
      [|discriminate].
    unfold bind at 1, lift in H.
    destruct (first_line out) as [line|e].
    + pose proof (IH _ _ _ _ H) as Hg.
      apply (sends_le (2 + 2 * List.length rest)); [simpl; lia|].
      exact (sends_trans _ _ _ _ _ Hg1 Hg).
    + inversion H; subst. apply (sends_le 2); [simpl; lia|exact Hg1].
Qed.

Lemma chunks_of_length text k cs :
  chunks_of text k = Ok cs ->
  List.length cs = if (0 <? k)%Z then chunk_count (String.length text) (Z.to_nat k)
                   else 0.
Proof.
  unfold chunks_of.
  destruct (Z.eqb_spec k 0) as [Hz|Hz]; [discriminate|].
  destruct (Z.ltb_spec k 0) as [Hneg|Hpos]; intros H; inversion H; subst.
  - destruct (Z.ltb_spec 0 k) as [Hp|Hp]; [lia|reflexivity].
  - destruct (Z.ltb_spec 0 k) as [Hp|Hp]; [|lia].
    unfold PyStr.chunks.
    destruct (chunks_fuel_spec (Nat.pred (Z.to_nat k)) (String.length text) text
                (le_n _)) as (_ & _ & Hn).
    rewrite Hn. f_equal. lia.
Qed.

Lemma working_text_sends text thr st r st' :
  working_text generate_content text thr st = (r, st') ->
  sends (2 * chunk_calls text thr) st st'.
Proof.
  unfold working_text, chunk_calls.
  destruct (thr <? Z.of_nat (String.length text))%Z; simpl andb.
  - unfold bind at 1, lift.
    destruct (chunks_of text thr) as [cs|e] eqn:Ec.
    + rewrite <- (chunks_of_length _ _ _ Ec).
      unfold bind.
      destruct (summarize_chunks generate_content cs [] st) as [[ss|e] st1] eqn:Es;
        pose proof (summarize_chunks_sends _ _ _ _ _ Es) as Hg;
        intros H; inversion H; subst; exact Hg.
    + intros H; inversion H; subst.
      apply (sends_le 0); [lia|apply sends_refl].
  - intros H; inversion H; subst. apply sends_refl.
Qed.

(** *** Every returning run, by its path *)

Lemma process_returns_inv text thr enable st r st' :
  process_text_to_mindmap json_loads json_dumps generate_content uuid4 recursion_limit
                          text thr enable st = (Ok r, st') ->
  (PyStr.is_empty (PyStr.strip text) = true /\ r = no_text_result /\ st' = st)
  \/ exists prompt_text root_title st2 structure st3,
       reaches_acquisition generate_content text thr st prompt_text root_title st2
       /\ acquire_structure json_loads generate_content prompt_text st2
          = (Ok structure, st3)
       /\ ((Py.truthy structure = false
            /\ r = parse_failed_result ("root" ++ "_" ++ short8 uuid4 (draws st3))
                                       root_title (PyStr.strip text)
            /\ st' = State (prompts st3) (S (draws st3)))
           \/ exists fr0 fr3,
                reaches_enrichment json_loads generate_content uuid4 recursion_limit text thr st
                                   structure fr0
                /\ enrich json_loads json_dumps generate_content enable structure fr0
                   = (Ok (graph_result fr3), fr3)
                /\ r = graph_result fr3 /\ st' = world fr3).
Proof.
  intros H.
  destruct (PyStr.is_empty (PyStr.strip text)) eqn:Hb.
  - left. unfold process_text_to_mindmap in H. rewrite Hb in H.
    inversion H; subst. auto.
  - right. pose proof H as H0.
    unfold process_text_to_mindmap in H. rewrite Hb in H.
    unfold bind at 1 in H.
    destruct (working_text generate_content (PyStr.strip text) thr st)
      as [[pt|e] st1] eqn:Hw; [|discriminate].
    unfold bind at 1 in H.
    destruct (_call_gemini generate_content (Prompts.ROOT_NAME_PROMPT pt) st1)
      as [[raw|e] st2] eqn:Ht; [|discriminate].
    unfold bind at 1, lift at 1 in H.
    destruct (first_line raw) as [line|e] eqn:Hl; [|discriminate].
    clear H.
    assert (Hacq : reaches_acquisition generate_content text thr st pt
                     (PyStr.strip line) st2).
    { split; [exact Hb|]. exists st1, raw, line. auto. }
    rewrite (process_from_acquisition json_loads json_dumps generate_content uuid4 recursion_limit
               _ _ enable _ _ _ _ Hacq) in H0.
    destruct (acquire_structure json_loads generate_content pt st2)
      as [[structure|e] st3] eqn:Ha; [|discriminate].
    exists pt, (PyStr.strip line), st2, structure, st3.
    split; [exact Hacq|]. split; [exact Ha|].
    destruct (Py.truthy structure) eqn:Htr; cbn [negb] in H0; cbv iota in H0.
    + right.
      destruct (build_graph_from_hierarchy uuid4 recursion_limit structure st3)
        as [[built|e] st4] eqn:Hbd; [|discriminate].
      set (fr0 := Frame st4 (fst built) (snd built)
                    [ ("n_nodes", VInt (Z.of_nat (List.length (fst built)))) ]).
      destruct (enrich_returns json_loads json_dumps generate_content
                  enable structure fr0) as (fr3 & He & _).
      unfold with_frame in H0. fold fr0 in H0. rewrite He in H0.
      inversion H0; subst. exists fr0, fr3.
      split; [|auto].
      exists pt, (PyStr.strip line), st2, st3, built.
      split; [exact Hacq|]. split; [exact Ha|]. split; [exact Htr|].
      split; [exact Hbd|]. repeat split.
    + left. inversion H0; subst. auto.
Qed.

End Stages.

(** ** More on the runs of the orchestrator *)

Section More.
Import Outline BuilderSpec PipelineSpec WorldSpec.
Variable json_loads : string -> option value.
Variable json_dumps : value -> string.
Variable generate_content : nat -> string -> outcome.
Variable uuid4 : nat -> N.
Variable recursion_limit : nat.

(** *** What the stages leave in [meta] *)

Lemma summary_stage_meta enable structure fr fr1 :
  summary_stage json_loads json_dumps generate_content enable structure fr
  = (Ok tt, fr1) ->
  forall k, k <> "summary" -> k <> "quiz" -> k <> "summary_error" ->
            Py.dict_get k (meta fr1) = Py.dict_get k (meta fr).
Proof.
  unfold summary_stage. destruct enable.
  - unfold try_except.
    destruct (summary_try json_loads json_dumps generate_content structure fr)
      as [[[]|e] fr'] eqn:E;
      destruct (summary_try_frame _ _ _ _ _ _ _ E) as (_ & _ & Hm);
      intros H k K1 K2 K3.
    + inversion H; subst. destruct Hm as [->|(s & q & ->)]; [reflexivity|].
      now rewrite !dict_get_set_other.
    + unfold set_meta in H. inversion H; subst. simpl.
      rewrite dict_get_set_other by assumption. now rewrite Hm.
  - intros H; inversion H; subst. reflexivity.
Qed.

Lemma summary_stage_disabled structure fr :
  summary_stage json_loads json_dumps generate_content false structure fr
  = (Ok tt, fr).
Proof. reflexivity. Qed.

Lemma enrich_meta enable structure fr0 r fr3 :
  enrich json_loads json_dumps generate_content enable structure fr0 = (r, fr3) ->
  forall k, k <> "summary" -> k <> "quiz" -> k <> "summary_error" ->
            k <> "tooltip_error" -> k <> "keywords" ->
            Py.dict_get k (meta fr3) = Py.dict_get k (meta fr0).
Proof.
  destruct (summary_stage_returns json_loads json_dumps generate_content
              enable structure fr0) as (fr1 & H1 & _).
  destruct (explanation_stage_returns json_loads generate_content fr1)
    as (fr2 & H2 & _ & _ & Hk2).
  rewrite (enrich_run _ _ _ _ _ _ _ _ H1 H2). cbv zeta.
  intros H k K1 K2 K3 K4 K5; inversion H; subst; simpl.
  rewrite dict_get_set_other by assumption.
  rewrite Hk2 by assumption.
  exact (summary_stage_meta _ _ _ _ H1 k K1 K2 K3).
Qed.

Lemma explained_length ns ns' : explained ns ns' -> List.length ns' = List.length ns.
Proof. intros H. symmetry. exact (Forall2_length H). Qed.

Lemma explained_keeps ns ns' :
  explained ns ns' ->
  Forall2 (fun n n' => forall k, k <> "ai_explanation" ->
                                 Py.dict_get k n' = Py.dict_get k n) ns ns'.
Proof.
  induction 1 as [|n n' ns ns' [x ->] _ IH]; constructor; [|exact IH].
  intros k Hk. unfold set_explanation. now apply dict_get_set_other.
Qed.

(** *** The requests of a run *)

(** What follows the title request sends at most eight requests. *)
Lemma process_after_title text thr enable st pt st1 raw st2 r st' :
  PyStr.is_empty (PyStr.strip text) = false ->
  working_text generate_content (PyStr.strip text) thr st = (Ok pt, st1) ->
  _call_gemini generate_content (Prompts.ROOT_NAME_PROMPT pt) st1 = (Ok raw, st2) ->
  process_text_to_mindmap json_loads json_dumps generate_content uuid4 recursion_limit
                          text thr enable st = (r, st') ->
  exists st0, sends 8 st2 st0 /\ prompts st' = prompts st0.
Proof.
  intros Hne Hw Ht H.
  unfold process_text_to_mindmap in H. rewrite Hne in H.
  unfold bind at 1 in H. rewrite Hw in H.
  unfold bind at 1 in H. rewrite Ht in H.
  unfold bind at 1, lift at 1 in H.
  destruct (first_line raw) as [line|e].
  2:{ inversion H; subst. exists st'. split; [|reflexivity].
      apply (sends_le 0); [lia|apply sends_refl]. }
  unfold bind at 1 in H.
  destruct (acquire_structure json_loads generate_content pt st2)
    as [[structure|e] st3] eqn:Ha;
    destruct (acquire_structure_sends _ _ _ _ _ _ Ha) as (G3 & _).
  2:{ inversion H; subst. exists st'. split; [|reflexivity].
      apply (sends_le 4); [lia|exact G3]. }
  destruct (negb (Py.truthy structure)).
  - unfold bind, _short_id, ret in H. inversion H; subst. simpl.
    exists st3. split; [|reflexivity]. apply (sends_le 4); [lia|exact G3].
  - unfold bind at 1 in H.
    destruct (build_graph_from_hierarchy uuid4 recursion_limit structure st3)
      as [[built|e] st4] eqn:Hb;
      destruct (build_graph_appends _ _ _ _ _ _ Hb) as (Hp4 & _).
    + unfold with_frame in H.
      destruct (enrich json_loads json_dumps generate_content enable structure _)
        as [r5 fr5] eqn:He.
      pose proof (enrich_sends _ _ _ _ _ _ _ _ He) as G5. simpl world in G5.
      inversion H; subst.
      destruct G5 as [(x & Hx & Lx) _]. rewrite Hp4 in Hx.
      exists (State (prompts (world fr5)) (draws st3)). split; [|reflexivity].
      apply (sends_trans 4 4 _ _ _ G3).
      split; [exists x; auto|reflexivity].
    + inversion H; subst. exists st3. split; [|exact Hp4].
      apply (sends_le 4); [lia|exact G3].
Qed.

(** Whatever a run does, it sends at most ten requests beyond the two that
    each chunk of an oversized text may take. *)
Theorem request_budget text thr enable st r st' :
  process_text_to_mindmap json_loads json_dumps generate_content uuid4 recursion_limit
                          text thr enable st = (r, st') ->
  exists extra,
    prompts st' = (prompts st ++ extra)%list
    /\ List.length extra <= 2 * chunk_calls (PyStr.strip text) thr + 10.
Proof.
  intros H.
  enough (Hs : exists st0, sends (2 * chunk_calls (PyStr.strip text) thr + 10) st st0
                           /\ prompts st' = prompts st0).
  { destruct Hs as (st0 & [(x & Hx & Lx) _] & Hp). exists x. now rewrite Hp. }
  destruct (PyStr.is_empty (PyStr.strip text)) eqn:Hne.
  { unfold process_text_to_mindmap in H. rewrite Hne in H.
    inversion H; subst. exists st'. split; [|reflexivity].
    apply (sends_le 0); [lia|apply sends_refl]. }
  destruct (working_text generate_content (PyStr.strip text) thr st)
    as [[pt|e] st1] eqn:Hw; pose proof (working_text_sends _ _ _ _ _ _ Hw) as G1.
  2:{ unfold process_text_to_mindmap in H. rewrite Hne in H.
      unfold bind at 1 in H. rewrite Hw in H.
      inversion H; subst. exists st'. split; [|reflexivity].
      apply (sends_le (2 * chunk_calls (PyStr.strip text) thr)); [lia|exact G1]. }
  destruct (_call_gemini generate_content (Prompts.ROOT_NAME_PROMPT pt) st1)
    as [[raw|e] st2] eqn:Ht;
    destruct (_call_gemini_sends _ _ _ _ _ Ht) as (G2 & (t & Hok)); [|discriminate].
  destruct (process_after_title _ _ _ _ _ _ _ _ _ _ Hne Hw Ht H) as (st0 & G & Hp).
  exists st0. split; [|exact Hp].
  apply (sends_le (2 * chunk_calls (PyStr.strip text) thr + 2 + 8)); [lia|].
  exact (sends_trans _ _ _ _ _ (sends_trans _ _ _ _ _ G1 G2) G).
Qed.

(** *** The shape of what a run returns *)

Lemma process_returns_shape text thr enable st r st' :
  process_text_to_mindmap json_loads json_dumps generate_content uuid4 recursion_limit
                          text thr enable st = (Ok r, st') ->
  exists (ns es : list dict) (mt : dict),
    r = VDict [ ("nodes", VList (map VDict ns)); ("edges", VList (map VDict es));
                ("meta", VDict mt) ]
    /\ draws st' = draws st + List.length ns
    /\ (PyStr.is_empty (PyStr.strip text) = true ->
        ns = [] /\ es = [] /\ Py.dict_get "error" mt = Some (VStr "no_text")
        /\ st' = st)
    /\ (PyStr.is_empty (PyStr.strip text) = false ->
        ns <> [] /\ Py.dict_get "error" mt = None).
Proof.
  intros H.
  destruct (process_returns_inv _ _ _ _ _ _ _ _ _ _ _ H)
    as [(Hb & -> & ->)|(pt & rt & st2 & structure & st3 & Hacq & Ha & Hpath)].
  - exists [], [], [ ("summary", VStr ""); ("error", VStr "no_text") ].
    split; [reflexivity|]. split; [simpl; lia|]. split; [auto|].
    rewrite Hb. discriminate.
  - destruct Hacq as (Hb & st1 & raw & line & Hw & Ht & _).
    pose proof (working_text_sends _ _ _ _ _ _ Hw) as [_ D1].
    destruct (_call_gemini_sends _ _ _ _ _ Ht) as ([_ D2] & _).
    destruct (acquire_structure_sends _ _ _ _ _ _ Ha) as ([_ D3] & _).
    destruct Hpath as [(Htr & -> & ->)|(fr0 & fr3 & Hre & He & -> & ->)].
    + eexists [_], [], _. split; [reflexivity|].
      split; [simpl; lia|]. rewrite Hb.
      split; [discriminate|]. intros _. split; [discriminate|reflexivity].
    + destruct (enrich_returns json_loads json_dumps generate_content
                  enable structure fr0) as (fr3' & He' & Hx & _).
      rewrite He in He'. inversion He'; subst fr3'.
      exists (nodes fr3), (edges fr3), (meta fr3). split; [reflexivity|].
      destruct Hre as (pt' & rt' & st2' & st3' & built & Hacq' & Ha' & Htr & Hbd
                       & Hn & Hed & Hm).
      destruct Hacq' as (_ & st1' & raw' & line' & Hw' & Ht' & _).
      rewrite Hw in Hw'. inversion Hw'; subst pt' st1'.
      rewrite Ht in Ht'. inversion Ht'; subst raw' st2'.
      rewrite Ha in Ha'. inversion Ha'; subst st3'.
      destruct built as [ns es].
      destruct (build_graph_appends _ _ _ _ _ _ Hbd) as (_ & _ & Hok).
      destruct (Hok _ _ eq_refl) as (Hd & Hne). simpl in Hn, Hed.
      pose proof (enrich_sends _ _ _ _ _ _ _ _ He) as [_ D5].
      rewrite (explained_length _ _ Hx), Hn.
      split; [lia|]. rewrite Hb. split; [discriminate|]. intros _. split.
      * intros Hnil. apply (Hne Htr).
        apply (f_equal (@List.length dict)) in Hnil.
        rewrite (explained_length _ _ Hx), Hn in Hnil.
        now destruct ns.
      * rewrite (enrich_meta _ _ _ _ _ He) by discriminate.
        rewrite Hm. reflexivity.
Qed.

End More.

Section RunFacts.
Import Outline BuilderSpec PipelineSpec WorldSpec.
Variable json_loads : string -> option value.
Variable json_dumps : value -> string.
Variable generate_content : nat -> string -> outcome.
Variable uuid4 : nat -> N.
Variable recursion_limit : nat.

(** Every run that returns gives a dict of [nodes], [edges] and [meta], the
    first two being lists of dicts, and has drawn one identifier for each
    node it returns. *)
Theorem run_result_shape text thr enable st r st' :
  process_text_to_mindmap json_loads json_dumps generate_content uuid4 recursion_limit
                          text thr enable st = (Ok r, st') ->
  exists (ns es : list dict) (mt : dict),
    r = VDict [ ("nodes", VList (map VDict ns)); ("edges", VList (map VDict es));
                ("meta", VDict mt) ]
    /\ draws st' = draws st + List.length ns.
Proof.
  intros H.
  destruct (process_returns_shape _ _ _ _ _ _ _ _ _ _ _ H)
    as (ns & es & mt & Hr & Hd & _).
  exists ns, es, mt. auto.
Qed.

(** On blank input the run returns the empty graph with [meta.error] and
    leaves the world as it is; on any other input a run that returns has at
    least one node and no [meta.error]. *)
Theorem blank_input text thr enable st :
  (PyStr.is_empty (PyStr.strip text) = true ->
   process_text_to_mindmap json_loads json_dumps generate_content uuid4 recursion_limit
                           text thr enable st
   = (Ok (VDict [ ("nodes", VList []); ("edges", VList []);
                  ("meta", VDict [ ("summary", VStr "");
                                   ("error", VStr "no_text") ]) ]), st))
  /\ (PyStr.is_empty (PyStr.strip text) = false ->
      forall r st',
        process_text_to_mindmap json_loads json_dumps generate_content uuid4 recursion_limit
                                text thr enable st = (Ok r, st') ->
        exists (n : dict) (ns es : list dict) (mt : dict),
          r = VDict [ ("nodes", VList (map VDict (n :: ns)));
                      ("edges", VList (map VDict es)); ("meta", VDict mt) ]
          /\ Py.dict_get "error" mt = None).
Proof.
  split.
  - intros Hb. unfold process_text_to_mindmap. rewrite Hb. reflexivity.
  - intros Hb r st' H.
    destruct (process_returns_shape _ _ _ _ _ _ _ _ _ _ _ H)
      as (ns & es & mt & -> & _ & _ & Hfull).
    destruct (Hfull Hb) as (Hne & He).
    destruct ns as [|n ns]; [contradiction|].
    exists n, ns, es, mt. auto.
Qed.

(** The enrichment stages leave the graph as the builder made it: the same
    edges, the same nodes in the same order, each with its fields other than
    [ai_explanation] unchanged; and [meta.n_nodes] is the number of nodes. *)
Theorem enrichment_keeps_graph text thr enable st structure fr0 :
  reaches_enrichment json_loads generate_content uuid4 recursion_limit text thr st structure fr0 ->
  exists fr3,
    process_text_to_mindmap json_loads json_dumps generate_content uuid4 recursion_limit
                            text thr enable st
    = (Ok (graph_result fr3), world fr3)
    /\ edges fr3 = edges fr0
    /\ Forall2 (fun n n' => forall k, k <> "ai_explanation" ->
                                      Py.dict_get k n' = Py.dict_get k n)
               (nodes fr0) (nodes fr3)
    /\ Py.dict_get "n_nodes" (meta fr3)
       = Some (VInt (Z.of_nat (List.length (nodes fr3)))).
Proof.
  intros Hre.
  rewrite (process_from_enrichment json_loads json_dumps generate_content uuid4 recursion_limit
             _ _ enable _ _ _ Hre).
  destruct (enrich_returns json_loads json_dumps generate_content
              enable structure fr0) as (fr3 & He & Hx & Hed & _).
  rewrite He. exists fr3. split; [reflexivity|]. split; [exact Hed|].
  split; [exact (explained_keeps _ _ Hx)|].
  rewrite (enrich_meta _ _ _ _ _ _ _ _ He) by discriminate.
  destruct Hre as (_ & _ & _ & _ & built & _ & _ & _ & _ & Hn & _ & ->).
  rewrite (explained_length _ _ Hx), Hn. reflexivity.
Qed.

(** The requests of the explanation stage: the batched prompt, sent at
    most twice. *)
Lemma explanation_stage_log fr fr' :
  explanation_stage json_loads generate_content fr = (Ok tt, fr') ->
  exists titles k,
    prompts (world fr')
    = (prompts (world fr) ++ repeat (Prompts.batch_prompt titles) k)%list
    /\ k <= 2.
Proof.
  assert (Htry : forall r fr2,
            explanation_try json_loads generate_content fr = (r, fr2) ->
            exists titles k,
              prompts (world fr2)
              = (prompts (world fr) ++ repeat (Prompts.batch_prompt titles) k)%list
              /\ k <= 2).
  { intros r fr2. unfold explanation_try, bind, get_nodes, lift.
    destruct (label_titles (nodes fr)) as [titles|e].
    2:{ intros H; inversion H; subst. exists [], 0. simpl.
        rewrite app_nil_r. auto. }
    destruct titles as [|t ts].
    - intros H. rewrite (for_each_node_world _ _ _ _ H). exists [], 0. simpl.
      rewrite app_nil_r. auto.
    - unfold in_world.
      destruct (_call_gemini_log generate_content
                  (Prompts.batch_prompt (t :: ts)) (world fr))
        as (text & k & -> & Hk). simpl.
      destruct (mapping_of _) as [mapping|e].
      + intros H. rewrite (for_each_node_world _ _ _ _ H). simpl.
        exists (t :: ts), k. split; [reflexivity|lia].
      + intros H; inversion H; subst; simpl.
        exists (t :: ts), k. split; [reflexivity|lia]. }
  destruct (explanation_try json_loads generate_content fr) as [[[]|e] fr2] eqn:E.
  - unfold explanation_stage, try_except. rewrite E.
    intros H; inversion H; subst. exact (Htry _ _ eq_refl).
  - rewrite (explanation_stage_raise _ _ _ _ _ E).
    intros H; inversion H; subst; simpl. exact (Htry _ _ eq_refl).
Qed.

(** With [enable_map_summary] off, the summary request is not sent: what
    follows the builder is the batched request for the explanations, at
    most twice, and [meta] has no [summary], [quiz] or [summary_error]. *)
Theorem summary_disabled text thr st structure fr0 :
  reaches_enrichment json_loads generate_content uuid4 recursion_limit text thr st structure fr0 ->
  exists fr3 titles k,
    process_text_to_mindmap json_loads json_dumps generate_content uuid4 recursion_limit
                            text thr false st
    = (Ok (graph_result fr3), world fr3)
    /\ prompts (world fr3)
       = (prompts (world fr0) ++ repeat (Prompts.batch_prompt titles) k)%list
    /\ k <= 2
    /\ Py.dict_get "summary" (meta fr3) = None
    /\ Py.dict_get "quiz" (meta fr3) = None
    /\ Py.dict_get "summary_error" (meta fr3) = None.
Proof.
  intros Hre.
  rewrite (process_from_enrichment json_loads json_dumps generate_content uuid4 recursion_limit
             _ _ false _ _ _ Hre).
  destruct (explanation_stage_returns json_loads generate_content fr0)
    as (fr2 & H2 & _ & _ & Hk).
  rewrite (enrich_run json_loads json_dumps generate_content false structure
             fr0 fr0 fr2 (summary_stage_disabled _ _ _ _ _) H2).
  cbv zeta.
  destruct (explanation_stage_log _ _ H2) as (titles & k & Hx & Lx).
  eexists _, titles, k. split; [reflexivity|]. cbn [world meta].
  split; [exact Hx|]. split; [exact Lx|].
  destruct Hre as (_ & _ & _ & _ & built & _ & _ & _ & _ & _ & _ & Hm).
  repeat split; rewrite dict_get_set_other by discriminate;
    rewrite Hk by discriminate; rewrite Hm; reflexivity.
Qed.

(** Once the root title is there, the run returns whenever the acquired
    outline is empty or unreadable, or is well formed and nested below the
    limit of the interpreter. *)
Theorem returns_on_outline text thr enable st prompt_text root_title st2
    structure st3 :
  reaches_acquisition generate_content text thr st prompt_text root_title st2 ->
  acquire_structure json_loads generate_content prompt_text st2
  = (Ok structure, st3) ->
  Py.truthy structure = false
  \/ (outline_ok structure = true /\ depth structure < recursion_limit) ->
  exists r st',
    process_text_to_mindmap json_loads json_dumps generate_content uuid4 recursion_limit
                            text thr enable st = (Ok r, st').
Proof.
  intros Hacq Ha Hs.
  rewrite (process_from_acquisition json_loads json_dumps generate_content uuid4 recursion_limit
             _ _ enable _ _ _ _ Hacq), Ha.
  destruct (Py.truthy structure) eqn:Htr; cbn [negb]; cbv iota; [|eauto].
  destruct Hs as [Hs|[Hok Hd]]; [discriminate|].
  destruct (build_graph_from_hierarchy_spec uuid4 recursion_limit structure st3
              Hok Hd)
    as (slots & ns & es & -> & _).
  unfold with_frame.
  destruct (enrich_returns json_loads json_dumps generate_content enable structure
              (Frame (State (prompts st3) (draws st3 + count_items structure))
                     (fst (([] ++ ns)%list, ([] ++ es)%list))
                     (snd (([] ++ ns)%list, ([] ++ es)%list))
                     [ ("n_nodes",
                        VInt (Z.of_nat (List.length
                                (fst (([] ++ ns)%list, ([] ++ es)%list))))) ]))
    as (fr3 & -> & _).
  eauto.
Qed.

(** *** The explanations when the reply is of no use *)

Lemma label_titles_labels ns titles :
  label_titles ns = Ok titles ->
  Forall (fun n => exists lbl, node_label n = Ok lbl) ns.
Proof.
  revert titles. induction ns as [|n ns IH]; intros titles H; [constructor|].
  simpl in H. destruct (node_label n) as [lbl|e] eqn:E; [|discriminate].
  constructor; [eauto|].
  destruct (PyStr.is_empty lbl); [eauto|].
  destruct (label_titles ns); [eauto|discriminate].
Qed.

Lemma assign_default ns :
  Forall (fun n => exists lbl, node_label n = Ok lbl) ns ->
  assign_explanations (explanation_for []) ns
  = (map (set_explanation (VStr "No explanation available.")) ns, None).
Proof.
  induction 1 as [|n ns [lbl Hl] _ IH]; simpl; [reflexivity|].
  unfold explanation_for at 1. rewrite Hl. simpl. now rewrite IH.
Qed.

(** When every label is a string and the reply to the batched request
    reads as neither a list nor a dict (or no label is left to ask about),
    every node gets "No explanation available." and [meta] is untouched. *)
Theorem explanations_default fr titles raw w :
  label_titles (nodes fr) = Ok titles ->
  _call_gemini generate_content (Prompts.batch_prompt titles) (world fr)
  = (Ok raw, w) ->
  titles = []
  \/ (Py.is_list (_safe_json_loads json_loads raw) = false
      /\ Py.is_dict (_safe_json_loads json_loads raw) = false) ->
  explanation_stage json_loads generate_content fr
  = (Ok tt,
     Frame (match titles with [] => world fr | _ :: _ => w end)
           (map (set_explanation (VStr "No explanation available.")) (nodes fr))
           (edges fr) (meta fr)).
Proof.
  intros Ht Hc Hu.
  pose proof (label_titles_labels _ _ Ht) as Hl.
  unfold explanation_stage, try_except, explanation_try, bind, get_nodes, lift.
  rewrite Ht. destruct titles as [|t ts].
  - rewrite for_each_node_run, assign_constant. reflexivity.
  - destruct Hu as [Hu|(Hnl & Hnd)]; [discriminate|].
    unfold in_world. rewrite Hc. simpl.
    assert (Hm : mapping_of (_safe_json_loads json_loads raw) = Ok []).
    { destruct (_safe_json_loads json_loads raw); try reflexivity; discriminate. }
    rewrite Hm, for_each_node_run. simpl nodes.
    rewrite (assign_default _ Hl). reflexivity.
Qed.

(** *** The working text *)

(** A text within the threshold is used as it is and nothing is sent; a
    threshold of zero raises before anything is sent; under a negative
    threshold there is no chunk and the working text is empty. *)
Theorem working_text_edges text thr st :
  ((Z.of_nat (String.length text) <= thr)%Z ->
   working_text generate_content text thr st = (Ok text, st))
  /\ (thr = 0%Z -> text <> "" ->
      working_text generate_content text thr st
      = (Raise (Exn "ValueError" "range() arg 3 must not be zero"), st))
  /\ ((thr < 0)%Z -> working_text generate_content text thr st = (Ok "", st)).
Proof.
  unfold working_text. split; [|split].
  - intros H. destruct (Z.ltb_spec thr (Z.of_nat (String.length text))); [lia|].
    reflexivity.
  - intros -> Hne.
    destruct (Z.ltb_spec 0 (Z.of_nat (String.length text))) as [_|H].
    + reflexivity.
    + destruct text; [contradiction|simpl in H; lia].
  - intros H. destruct (Z.ltb_spec thr (Z.of_nat (String.length text))); [|lia].
    unfold bind, lift, chunks_of.
    destruct (Z.eqb_spec thr 0); [lia|].
    destruct (Z.ltb_spec thr 0); [|lia]. reflexivity.
Qed.

(** The chunks of a text under a positive size: they are cut one after the
    other, none is empty or longer than the size, and their number is the
    length of the text divided by the size, rounded up. *)
Theorem chunks_partition text k :
  (0 < k)%Z ->
  exists cs,
    chunks_of text k = Ok cs
    /\ String.concat "" cs = text
    /\ Forall (fun c => 1 <= String.length c <= Z.to_nat k) cs
    /\ List.length cs = chunk_count (String.length text) (Z.to_nat k).
Proof.
  intros Hk. unfold chunks_of.
  destruct (Z.eqb_spec k 0); [lia|]. destruct (Z.ltb_spec k 0); [lia|].
  eexists. split; [reflexivity|]. unfold PyStr.chunks.
  destruct (chunks_fuel_spec (Nat.pred (Z.to_nat k)) (String.length text) text
              (le_n _)) as (Hc & Hb & Hn).
  replace (S (Nat.pred (Z.to_nat k))) with (Z.to_nat k) in * by lia.
  auto.
Qed.

End RunFacts.

Section MetaTypes.
Import Outline BuilderSpec PipelineSpec WorldSpec.
Variable json_loads : string -> option value.
Variable json_dumps : value -> string.
Variable generate_content : nat -> string -> outcome.
Variable uuid4 : nat -> N.
Variable recursion_limit : nat.

Lemma text_valued_set k k' v mt :
  text_valued k mt -> (k = k' -> exists s, v = VStr s) ->
  text_valued k (Py.dict_set k' v mt).
Proof.
  intros Hm Hv x. destruct (string_dec k k') as [->|Hne].
  - rewrite dict_get_set_same. intros H; inversion H; subst. now apply Hv.
  - rewrite dict_get_set_other by assumption. apply Hm.
Qed.

Lemma summary_stage_text k enable structure fr fr1 :
  k <> "quiz" ->
  summary_stage json_loads json_dumps generate_content enable structure fr
  = (Ok tt, fr1) ->
  text_valued k (meta fr) -> text_valued k (meta fr1).
Proof.
  intros Hk. unfold summary_stage. destruct enable.
  - unfold try_except.
    destruct (summary_try json_loads json_dumps generate_content structure fr)
      as [[[]|e] fr'] eqn:E;
      destruct (summary_try_frame _ _ _ _ _ _ _ E) as (_ & _ & Hm);
      intros H Ht.
    + inversion H; subst. destruct Hm as [->|(s & q & ->)]; [exact Ht|].
      apply text_valued_set; [|intros ->; contradiction].
      apply text_valued_set; [exact Ht|eauto].
    + unfold set_meta in H. inversion H; subst. simpl. rewrite Hm.
      apply text_valued_set; [exact Ht|eauto].
  - intros H; inversion H; subst. auto.
Qed.

Lemma explanation_stage_text k fr fr2 :
  explanation_stage json_loads generate_content fr = (Ok tt, fr2) ->
  text_valued k (meta fr) -> text_valued k (meta fr2).
Proof.
  destruct (explanation_try json_loads generate_content fr) as [[[]|e] fr'] eqn:E.
  - unfold explanation_stage, try_except. rewrite E.
    destruct (explanation_try_frame _ _ _ _ _ E) as (Hm & _).
    intros H; inversion H; subst. now rewrite Hm.
  - rewrite (explanation_stage_raise _ _ _ _ _ E).
    intros H; inversion H; subst; simpl. intros Ht.
    apply text_valued_set; [exact Ht|eauto].
Qed.

Lemma keywords_of_strings ns :
  exists ks, keywords_of ns = VList (map VStr ks) /\ List.length ks <= 12.
Proof.
  unfold keywords_of. destruct (node_texts ns) as [texts|e].
  - eexists. split; [reflexivity|].
    unfold top_keywords, most_common. rewrite length_map.
    apply firstn_le_length.
  - exists []. split; [reflexivity|simpl; lia].
Qed.

(** In what a run returns, the entries of [meta] under [summary],
    [summary_error], [tooltip_error], [warning] and [error] are strings, and
    [keywords] is a list of at most 12 strings. *)
Theorem meta_entries_typed text thr enable st r st' :
  process_text_to_mindmap json_loads json_dumps generate_content uuid4 recursion_limit
                          text thr enable st = (Ok r, st') ->
  exists (ns es : list dict) (mt : dict),
    r = VDict [ ("nodes", VList (map VDict ns)); ("edges", VList (map VDict es));
                ("meta", VDict mt) ]
    /\ Forall (fun k => text_valued k mt)
              [ "summary"; "summary_error"; "tooltip_error"; "warning"; "error" ]
    /\ forall v, Py.dict_get "keywords" mt = Some v ->
                 exists ks, v = VList (map VStr ks) /\ List.length ks <= 12.
Proof.
  intros H.
  destruct (process_returns_inv _ _ _ _ _ _ _ _ _ _ _ H)
    as [(Hb & -> & ->)|(pt & rt & st2 & structure & st3 & Hacq & Ha & Hpath)].
  - exists [], [], [ ("summary", VStr ""); ("error", VStr "no_text") ].
    split; [reflexivity|]. split.
    + repeat constructor; intros v Hv; vm_compute in Hv;
        inversion Hv; eauto.
    + intros v Hv. discriminate Hv.
  - destruct Hpath as [(Htr & -> & ->)|(fr0 & fr3 & Hre & He & -> & ->)].
    + eexists [_], [], _. split; [reflexivity|]. split.
      * repeat constructor; intros v Hv; vm_compute in Hv;
          inversion Hv; eauto.
      * intros v Hv. discriminate Hv.
    + exists (nodes fr3), (edges fr3), (meta fr3). split; [reflexivity|].
      destruct (summary_stage_returns json_loads json_dumps generate_content
                  enable structure fr0) as (fr1 & H1 & _).
      destruct (explanation_stage_returns json_loads generate_content fr1)
        as (fr2 & H2 & _).
      rewrite (enrich_run _ _ _ _ _ _ _ _ H1 H2) in He. cbv zeta in He.
      inversion He; subst fr3; clear He. cbn [meta nodes].
      destruct Hre as (_ & _ & _ & _ & built & _ & _ & _ & _ & _ & _ & Hm).
      assert (H0 : forall k, k <> "n_nodes" -> text_valued k (meta fr0)).
      { intros k Hk v. rewrite Hm. simpl.
        destruct (String.eqb_spec k "n_nodes"); [contradiction|discriminate]. }
      assert (Hall : forall k, k <> "n_nodes" -> k <> "quiz" -> k <> "keywords" ->
                text_valued k (Py.dict_set "keywords" (keywords_of (nodes fr2))
                                           (meta fr2))).
      { intros k K1 K2 K3. apply text_valued_set; [|intros ->; contradiction].
        apply (explanation_stage_text _ _ _ H2).
        apply (summary_stage_text _ _ _ _ _ K2 H1). now apply H0. }
      split.
      * repeat constructor; apply Hall; discriminate.
      * rewrite dict_get_set_same. intros v Hv; inversion Hv; subst.
        apply keywords_of_strings.
Qed.

End MetaTypes.

(** ** The builder, item by item *)

Section Walk.
Import Outline BuilderSpec WorldSpec WalkSpec.
Variable uuid4 : nat -> N.
Variable recursion_limit : nat.

Lemma preorder_cons level item r :
  preorder level (VList (item :: r))
  = ((level, item) :: preorder (S level) (subtopics_value item)
                   ++ preorder level (VList r))%list.
Proof.
  simpl. f_equal. f_equal.
  destruct item; try reflexivity.
  unfold subtopics_value.
  induction entries as [|[k v] d IH]; simpl; [reflexivity|].
  destruct (String.eqb "subtopics" k); [reflexivity|exact IH].
Qed.

Lemma not_nested_preorder level v :
  Py.is_list v && Py.truthy v = false -> preorder level v = [].
Proof.
  destruct v; try reflexivity. destruct items; [reflexivity|discriminate].
Qed.

Lemma combine_app {A B} (l1 l2 : list A) (m1 m2 : list B) :
  List.length l1 = List.length m1 ->
  combine (l1 ++ l2) (m1 ++ m2) = (combine l1 m1 ++ combine l2 m2)%list.
Proof.
  revert m1. induction l1 as [|a l1 IH]; intros [|b m1] H; simpl in *;
    try discriminate; [reflexivity|].
  f_equal. apply IH. lia.
Qed.

Lemma slots_of_cons d level item r :
  slots_of d level (VList (item :: r))
  = ((d, (level, item))
     :: slots_of (S d) (S level) (subtopics_value item)
     ++ slots_of (S d + List.length (preorder (S level) (subtopics_value item)))
                 level (VList r))%list.
Proof.
  unfold slots_of. rewrite preorder_cons. cbn [List.length seq combine].
  f_equal. rewrite length_app, seq_app.
  apply combine_app. apply length_seq.
Qed.

Lemma node_of_level id level item n :
  node_of id level item = Ok n ->
  node_level n = level /\ str_field "id" n = id.
Proof.
  unfold node_of.
  destruct (Py.get item "title" _); [|discriminate].
  destruct (Py.slice_to 140 _); [|discriminate].
  destruct (Py.get item "summary" _); [|discriminate].
  destruct (Py.slice_to 400 _); [|discriminate].
  destruct (Py.get item "key_points" _); [|discriminate].
  destruct (Py.slice_to 6 _); [|discriminate].
  intros H; inversion H; subst. unfold node_level. simpl.
  split; [apply Nat2Z.id|reflexivity].
Qed.

Lemma descends_after pre ns e : descends ns e -> descends (pre ++ ns) e.
Proof.
  intros (l1 & n_s & l2 & n_t & l3 & -> & He & Hl).
  exists (pre ++ l1)%list, n_s, l2, n_t, l3.
  split; [|auto]. now rewrite <- app_assoc.
Qed.

Lemma descends_before post ns e : descends ns e -> descends (ns ++ post) e.
Proof.
  intros (l1 & n_s & l2 & n_t & l3 & -> & He & Hl).
  exists l1, n_s, l2, n_t, (l3 ++ post)%list.
  split; [|auto].
  rewrite <- !app_assoc. simpl. rewrite <- !app_assoc. reflexivity.
Qed.

(** One turn of the loop, when it returns. *)
Lemma build_item_walks recur :
  walks uuid4 recur ->
  forall parent level item acc st acc' st',
    build_item uuid4 recur parent level item acc st = (Ok acc', st') ->
    exists n ns es,
      acc' = ((fst acc ++ n :: ns)%list, (snd acc ++ es)%list)
      /\ draws st'
         = S (draws st) + List.length (preorder (S level) (subtopics_value item))
      /\ built_from uuid4 (draws st, (level, item)) n
      /\ Forall2 (built_from uuid4)
                 (slots_of (S (draws st)) (S level) (subtopics_value item)) ns
      /\ Forall (edge_of_call parent level (n :: ns)) es.
Proof.
  intros Hrec parent level item acc st acc' st' H.
  unfold build_item, bind, lift, _short_id in H. cbv beta iota zeta in H.
  destruct (Py.get item "title" (VStr "")) as [title|] eqn:E1; [|discriminate H].
  cbv beta iota in H.
  destruct (Py.slice_to 140 title) as [label|] eqn:E2; [|discriminate H].
  cbv beta iota in H.
  destruct (Py.get item "summary" (VStr "")) as [s0|] eqn:E3; [|discriminate H].
  cbv beta iota in H.
  destruct (Py.slice_to 400 s0) as [summary|] eqn:E4; [|discriminate H].
  cbv beta iota in H.
  destruct (Py.get item "key_points" (VList [])) as [k0|] eqn:E5; [|discriminate H].
  cbv beta iota in H.
  destruct (Py.slice_to 6 k0) as [kp|] eqn:E6; [|discriminate H].
  cbv beta iota in H.
  destruct (Py.get item "subtopics" (VList [])) as [sub|] eqn:E7; [|discriminate H].
  cbv beta iota in H.
  assert (Hsub : sub = subtopics_value item).
  { destruct item; try discriminate. simpl in E7. inversion E7. reflexivity. }
  subst sub.
  fold (short_id_of uuid4 level (draws st)) in H.
  set (nid := short_id_of uuid4 level (draws st)) in *.
  set (n := make_node nid label level summary kp) in *.
  assert (Hn : node_level n = level /\ str_field "id" n = nid).
  { unfold n, node_level. simpl. split; [apply Nat2Z.id|reflexivity]. }
  destruct Hn as (Hnl & Hni).
  assert (Hbf : built_from uuid4 (draws st, (level, item)) n).
  { unfold built_from, node_of. cbn [fst snd]. fold nid.
    now rewrite E1, E2, E3, E4, E5, E6. }
  set (first := match parent_given parent with
                | Some p => [make_edge p nid] | None => [] end).
  assert (He1 : match parent_given parent with
                | Some p => (snd acc ++ [make_edge p nid])%list
                | None => snd acc
                end = (snd acc ++ first)%list).
  { unfold first. destruct (parent_given parent); [reflexivity|].
    now rewrite app_nil_r. }
  rewrite He1 in H. clear He1.
  assert (Hfirst : forall ns, Forall (edge_of_call parent level (n :: ns)) first).
  { intros ns. unfold first. destruct (parent_given parent) as [p|] eqn:Ep;
      constructor; [|constructor].
    left. exists p, n. rewrite Hni. repeat split; auto. now left. }
  destruct (Py.is_list (subtopics_value item)
            && Py.truthy (subtopics_value item)) eqn:Enest.
  - destruct (Hrec _ _ _ _ _ _ _ H) as (ns & es & -> & Hd & HF & HE).
    cbn [fst snd draws] in *.
    exists n, ns, (first ++ es)%list. rewrite <- !app_assoc.
    split; [reflexivity|]. split; [lia|]. split; [exact Hbf|].
    split; [exact HF|].
    apply Forall_app. split; [apply Hfirst|].
    eapply Forall_impl; [|exact HE]. intros e [(p & n_t & Hp & Hin & -> & Hl)|Hde].
    + right. change (parent_given (Some nid)) with (Some nid) in Hp.
      inversion Hp; subst p.
      apply in_split in Hin as (l2 & l3 & ->).
      exists [], n, l2, n_t, l3. rewrite Hni, Hnl. repeat split; auto.
    + right. exact (descends_after [n] _ _ Hde).
  - injection H as Ha Hs. subst acc' st'.
    unfold slots_of. rewrite (not_nested_preorder _ _ Enest).
    exists n, [], first. cbn [draws List.length seq combine].
    split; [reflexivity|]. split; [lia|]. split; [exact Hbf|].
    split; [constructor|apply Hfirst].
Qed.

Lemma edge_of_call_widen parent level pre post ns e :
  edge_of_call parent level ns e ->
  edge_of_call parent level (pre ++ ns ++ post) e.
Proof.
  intros [(p & n_t & Hp & Hin & He & Hl)|Hd].
  - left. exists p, n_t. repeat split; auto.
    apply in_or_app. right. apply in_or_app. now left.
  - right. apply descends_after, descends_before, Hd.
Qed.

Lemma build_items_walks recur :
  walks uuid4 recur ->
  forall items parent level acc st acc' st',
    build_items uuid4 recur parent level items acc st = (Ok acc', st') ->
    exists ns es,
      acc' = ((fst acc ++ ns)%list, (snd acc ++ es)%list)
      /\ draws st' = draws st + List.length (preorder level (VList items))
      /\ Forall2 (built_from uuid4) (slots_of (draws st) level (VList items)) ns
      /\ Forall (edge_of_call parent level ns) es.
Proof.
  intros Hrec. induction items as [|item rest IH];
    intros parent level acc st acc' st' H.
  - inversion H; subst. exists [], []. rewrite !app_nil_r.
    unfold slots_of. cbn [preorder List.length seq combine].
    destruct acc'. split; [reflexivity|]. split; [lia|]. split; constructor.
  - simpl in H. unfold bind at 1 in H.
    destruct (build_item uuid4 recur parent level item acc st)
      as [[acc1|e] st1] eqn:E; [|discriminate H].
    destruct (build_item_walks recur Hrec _ _ _ _ _ _ _ E)
      as (n & sns & ses & -> & Hd1 & Hn & HsF & HsE).
    destruct (IH _ _ _ _ _ _ H) as (rns & res & -> & Hd & HrF & HrE).
    cbn [fst snd] in *.
    exists (n :: sns ++ rns)%list, (ses ++ res)%list.
    rewrite slots_of_cons, preorder_cons. cbn [List.length].
    rewrite length_app.
    split; [|split; [|split]].
    + rewrite <- !app_assoc. reflexivity.
    + lia.
    + constructor; [exact Hn|]. apply Forall2_app; [exact HsF|].
      rewrite Hd1 in HrF. exact HrF.
    + apply Forall_app. split.
      * eapply Forall_impl; [|exact HsE]. intros e He.
        exact (edge_of_call_widen parent level [] rns _ e He).
      * eapply Forall_impl; [|exact HrE]. intros e He.
        pose proof (edge_of_call_widen parent level (n :: sns) [] _ e He) as Hw.
        now rewrite app_nil_r in Hw.
Qed.

Lemma build_graph_fuel_walks fuel : walks uuid4 (build_graph_fuel uuid4 fuel).
Proof.
  induction fuel as [|fuel IH]; intros h parent level acc st acc' st' H.
  - discriminate H.
  - simpl in H. unfold bind at 1, lift in H.
    destruct (Py.iter h) as [items|] eqn:Ei; [|discriminate H].
    destruct h as [| | | |s|l|d]; simpl in Ei; try discriminate;
      inversion Ei; subst; clear Ei.
    + (* a string: its characters are not items *)
      destruct s as [|c s].
      * inversion H; subst. exists [], []. rewrite !app_nil_r.
        unfold slots_of. cbn [preorder List.length seq combine].
        destruct acc'. split; [reflexivity|]. split; [lia|]. split; constructor.
      * simpl in H. unfold bind at 1, build_item, bind, lift, _short_id in H.
        simpl in H. discriminate H.
    + exact (build_items_walks _ IH _ _ _ _ _ _ _ H).
    + destruct d as [|[k v] d].
      * inversion H; subst. exists [], []. rewrite !app_nil_r.
        unfold slots_of. cbn [preorder List.length seq combine].
        destruct acc'. split; [reflexivity|]. split; [lia|]. split; constructor.
      * simpl in H. unfold bind at 1, build_item, bind, lift, _short_id in H.
        simpl in H. discriminate H.
Qed.

(** The nodes of a run of the builder that returns are those of the items
    of the outline in document order, each at its level and under the
    identifier of its level and of its draw. *)
Theorem builder_document_order h st ns es st' :
  build_graph_from_hierarchy uuid4 recursion_limit h st = (Ok (ns, es), st') ->
  Forall2 (built_from uuid4) (slots_of (draws st) 0 h) ns
  /\ draws st' = draws st + List.length (preorder 0 h).
Proof.
  intros H. unfold build_graph_from_hierarchy in H.
  destruct (build_graph_fuel_walks _ _ _ _ _ _ _ _ H)
    as (ns' & es' & Ha & Hd & HF & _).
  simpl in Ha. inversion Ha; subst. auto.
Qed.

(** Every edge of a run of the builder that returns goes from a node to a
    node that comes later in the list, one level down. *)
Theorem builder_edges_descend h st ns es st' :
  build_graph_from_hierarchy uuid4 recursion_limit h st = (Ok (ns, es), st') ->
  Forall (descends ns) es.
Proof.
  intros H. unfold build_graph_from_hierarchy in H.
  destruct (build_graph_fuel_walks _ _ _ _ _ _ _ _ H)
    as (ns' & es' & Ha & _ & _ & HE).
  simpl in Ha. inversion Ha; subst.
  eapply Forall_impl; [|exact HE].
  intros e [(p & n_t & Hp & _)|Hd]; [discriminate Hp|exact Hd].
Qed.

End Walk.

Section Outcome.
Import Outline BuilderSpec PipelineSpec WorldSpec WalkSpec.
Variable json_loads : string -> option value.
Variable json_dumps : value -> string.
Variable generate_content : nat -> string -> outcome.
Variable uuid4 : nat -> N.
Variable recursion_limit : nat.

(** *** The builder returns on well-formed outlines only *)

Lemma slice_to_ok_sliceable n v x : Py.slice_to n v = Ok x -> sliceable v = true.
Proof. destruct v; simpl; try discriminate; reflexivity. Qed.

Lemma get_slice_field_ok k d dflt n x :
  Py.slice_to n (match Py.dict_get k d with Some v => v | None => dflt end) = Ok x ->
  field_ok k d = true.
Proof.
  unfold field_ok. destruct (Py.dict_get k d); [apply slice_to_ok_sliceable|reflexivity].
Qed.

Lemma build_item_accepts recur :
  (forall h p l acc st acc' st',
     recur h p l acc st = (Ok acc', st') -> Py.is_list h = true ->
     outline_ok h = true) ->
  forall parent level item acc st acc' st',
    build_item uuid4 recur parent level item acc st = (Ok acc', st') ->
    outline_ok (VList [item]) = true.
Proof.
  intros Hrec parent level item acc st acc' st' H.
  rewrite outline_ok_cons.
  unfold build_item, bind, lift, _short_id in H. cbv beta iota zeta in H.
  destruct item as [| | | | | |d]; try discriminate H.
  simpl Py.get in H. cbv beta iota in H.
  destruct (Py.slice_to 140 _) as [label|] eqn:E2; [|discriminate H].
  cbv beta iota in H.
  destruct (Py.slice_to 400 _) as [summary|] eqn:E4; [|discriminate H].
  cbv beta iota in H.
  destruct (Py.slice_to 6 _) as [kp|] eqn:E6; [|discriminate H].
  cbv beta iota in H.
  rewrite (get_slice_field_ok _ _ _ _ _ E2), (get_slice_field_ok _ _ _ _ _ E4),
    (get_slice_field_ok _ _ _ _ _ E6).
  change (match Py.dict_get "subtopics" d with Some x => x | None => VList [] end)
    with (subtopics_value (VDict d)) in H.
  cbn [andb]. rewrite andb_true_r.
  destruct (Py.is_list (subtopics_value (VDict d))) eqn:El; [|reflexivity].
  destruct (Py.truthy (subtopics_value (VDict d))) eqn:Et; cbn [andb] in H.
  - exact (Hrec _ _ _ _ _ _ _ H El).
  - destruct (subtopics_value (VDict d)) as [| | | | |l|]; try discriminate.
    destruct l; [reflexivity|discriminate].
Qed.

Lemma build_items_accepts recur :
  (forall h p l acc st acc' st',
     recur h p l acc st = (Ok acc', st') -> Py.is_list h = true ->
     outline_ok h = true) ->
  forall items parent level acc st acc' st',
    build_items uuid4 recur parent level items acc st = (Ok acc', st') ->
    outline_ok (VList items) = true.
Proof.
  intros Hrec. induction items as [|item rest IH];
    intros parent level acc st acc' st' H; [reflexivity|].
  simpl in H. unfold bind at 1 in H.
  destruct (build_item uuid4 recur parent level item acc st)
    as [[acc1|e] st1] eqn:E; [|discriminate H].
  pose proof (build_item_accepts recur Hrec _ _ _ _ _ _ _ E) as H1.
  pose proof (IH _ _ _ _ _ _ H) as H2.
  rewrite outline_ok_cons in H1 |- *.
  apply andb_prop in H1 as [H1 _]. now rewrite H1, H2.
Qed.

Lemma build_graph_fuel_accepts fuel :
  forall h p l acc st acc' st',
    build_graph_fuel uuid4 fuel h p l acc st = (Ok acc', st') ->
    Py.is_list h = true -> outline_ok h = true.
Proof.
  induction fuel as [|fuel IH]; intros h p l acc st acc' st' H Hl.
  - discriminate H.
  - destruct h; try discriminate Hl.
    simpl in H. unfold bind at 1, lift in H.
    exact (build_items_accepts _ IH _ _ _ _ _ _ _ H).
Qed.

(** *** The exceptions of the builder *)

Lemma get_raises v k dflt e : Py.get v k dflt = Raise e -> builder_error e.
Proof.
  destruct v; simpl; try discriminate; intros H; inversion H; left; reflexivity.
Qed.

Lemma slice_to_raises n v e : Py.slice_to n v = Raise e -> builder_error e.
Proof.
  destruct v; simpl; try discriminate; intros H; inversion H;
    right; left; reflexivity.
Qed.

Lemma iter_raises v e : Py.iter v = Raise e -> builder_error e.
Proof.
  destruct v; simpl; try discriminate; intros H; inversion H;
    right; left; reflexivity.
Qed.

Lemma build_item_raises recur bound :
  (forall h p l acc st e st',
     depth h < bound -> recur h p l acc st = (Raise e, st') -> builder_error e) ->
  forall parent level item acc st e st',
    depth item <= bound ->
    build_item uuid4 recur parent level item acc st = (Raise e, st') ->
    builder_error e.
Proof.
  intros Hrec parent level item acc st e st' Hd H.
  unfold build_item, bind, lift, _short_id in H. cbv beta iota zeta in H.
  destruct (Py.get item "title" (VStr "")) as [title|e1] eqn:E1;
    [|inversion H; subst; exact (get_raises _ _ _ _ E1)].
  cbv beta iota in H.
  destruct (Py.slice_to 140 title) as [label|e1] eqn:E2;
    [|inversion H; subst; exact (slice_to_raises _ _ _ E2)].
  cbv beta iota in H.
  destruct (Py.get item "summary" (VStr "")) as [s0|e1] eqn:E3;
    [|inversion H; subst; exact (get_raises _ _ _ _ E3)].
  cbv beta iota in H.
  destruct (Py.slice_to 400 s0) as [summary|e1] eqn:E4;
    [|inversion H; subst; exact (slice_to_raises _ _ _ E4)].
  cbv beta iota in H.
  destruct (Py.get item "key_points" (VList [])) as [k0|e1] eqn:E5;
    [|inversion H; subst; exact (get_raises _ _ _ _ E5)].
  cbv beta iota in H.
  destruct (Py.slice_to 6 k0) as [kp|e1] eqn:E6;
    [|inversion H; subst; exact (slice_to_raises _ _ _ E6)].
  cbv beta iota in H.
  destruct (Py.get item "subtopics" (VList [])) as [sub|e1] eqn:E7;
    [|inversion H; subst; exact (get_raises _ _ _ _ E7)].
  cbv beta iota in H.
  assert (Hsub : sub = subtopics_value item).
  { destruct item; try discriminate. simpl in E7. inversion E7. reflexivity. }
  subst sub.
  destruct (Py.is_list _ && Py.truthy _) eqn:En; [|discriminate H].
  refine (Hrec _ _ _ _ _ _ _ _ H).
  exact (Nat.lt_le_trans _ _ _ (depth_subtopics item En) Hd).
Qed.

Lemma build_items_raises recur bound :
  (forall h p l acc st e st',
     depth h < bound -> recur h p l acc st = (Raise e, st') -> builder_error e) ->
  forall items parent level acc st e st',
    Forall (fun item => depth item <= bound) items ->
    build_items uuid4 recur parent level items acc st = (Raise e, st') ->
    builder_error e.
Proof.
  intros Hrec. induction items as [|item rest IH];
    intros parent level acc st e st' Hd H; [discriminate H|].
  inversion Hd; subst.
  simpl in H. unfold bind at 1 in H.
  destruct (build_item uuid4 recur parent level item acc st)
    as [[acc1|e1] st1] eqn:E.
  - eapply IH; eassumption.
  - inversion H; subst. eapply build_item_raises; eassumption.
Qed.

Lemma depth_items items :
  Forall (fun item => depth item < depth (VList items)) items.
Proof.
  induction items as [|i r IH]; constructor.
  - apply depth_cons_item.
  - eapply Forall_impl; [|exact IH]. intros x Hx.
    exact (Nat.lt_le_trans _ _ _ Hx (depth_cons_rest i r)).
Qed.

Lemma build_graph_fuel_raises fuel :
  forall h p l acc st e st',
    depth h < fuel ->
    build_graph_fuel uuid4 fuel h p l acc st = (Raise e, st') -> builder_error e.
Proof.
  induction fuel as [|fuel IH]; intros h p l acc st e st' Hd H; [lia|].
  simpl in H. unfold bind at 1, lift in H.
  destruct (Py.iter h) as [items|e1] eqn:Ei;
    [|inversion H; subst; exact (iter_raises _ _ Ei)].
  refine (build_items_raises _ fuel IH _ _ _ _ _ _ _ _ H).
  destruct h as [| | | |s|l0|d]; simpl in Ei; try discriminate;
    inversion Ei; subst; clear Ei.
  - apply Forall_forall. intros x Hx. apply in_map_iff in Hx as (c & <- & _).
    simpl. lia.
  - eapply Forall_impl; [|apply depth_items]. intros x Hx. cbv beta in Hx.
    apply Nat.lt_succ_r. exact (Nat.lt_trans _ _ _ Hx Hd).
  - apply Forall_forall. intros x Hx. apply in_map_iff in Hx as (c & <- & _).
    simpl. lia.
Qed.

(** Whatever the frames left, a call raises one of these or a
    [RecursionError]. *)
Lemma build_item_raises_any recur :
  (forall h p l acc st e st',
     recur h p l acc st = (Raise e, st') ->
     builder_error e \/ exn_class e = "RecursionError") ->
  forall parent level item acc st e st',
    build_item uuid4 recur parent level item acc st = (Raise e, st') ->
    builder_error e \/ exn_class e = "RecursionError".
Proof.
  intros Hrec parent level item acc st e st' H.
  unfold build_item, bind, lift, _short_id in H. cbv beta iota zeta in H.
  destruct (Py.get item "title" (VStr "")) as [title|e1] eqn:E1;
    [|inversion H; subst; left; exact (get_raises _ _ _ _ E1)].
  cbv beta iota in H.
  destruct (Py.slice_to 140 title) as [label|e1] eqn:E2;
    [|inversion H; subst; left; exact (slice_to_raises _ _ _ E2)].
  cbv beta iota in H.
  destruct (Py.get item "summary" (VStr "")) as [s0|e1] eqn:E3;
    [|inversion H; subst; left; exact (get_raises _ _ _ _ E3)].
  cbv beta iota in H.
  destruct (Py.slice_to 400 s0) as [summary|e1] eqn:E4;
    [|inversion H; subst; left; exact (slice_to_raises _ _ _ E4)].
  cbv beta iota in H.
  destruct (Py.get item "key_points" (VList [])) as [k0|e1] eqn:E5;
    [|inversion H; subst; left; exact (get_raises _ _ _ _ E5)].
  cbv beta iota in H.
  destruct (Py.slice_to 6 k0) as [kp|e1] eqn:E6;
    [|inversion H; subst; left; exact (slice_to_raises _ _ _ E6)].
  cbv beta iota in H.
  destruct (Py.get item "subtopics" (VList [])) as [sub|e1] eqn:E7;
    [|inversion H; subst; left; exact (get_raises _ _ _ _ E7)].
  cbv beta iota in H.
  destruct (Py.is_list _ && Py.truthy _); [|discriminate H].
  exact (Hrec _ _ _ _ _ _ _ H).
Qed.

Lemma build_items_raises_any recur :
  (forall h p l acc st e st',
     recur h p l acc st = (Raise e, st') ->
     builder_error e \/ exn_class e = "RecursionError") ->
  forall items parent level acc st e st',
    build_items uuid4 recur parent level items acc st = (Raise e, st') ->
    builder_error e \/ exn_class e = "RecursionError".
Proof.
  intros Hrec. induction items as [|item rest IH];
    intros parent level acc st e st' H; [discriminate H|].
  simpl in H. unfold bind at 1 in H.
  destruct (build_item uuid4 recur parent level item acc st)
    as [[acc1|e1] st1] eqn:E.
  - eapply IH; eassumption.
  - inversion H; subst. eapply build_item_raises_any; eassumption.
Qed.

Lemma build_graph_fuel_raises_any fuel :
  forall h p l acc st e st',
    build_graph_fuel uuid4 fuel h p l acc st = (Raise e, st') ->
    builder_error e \/ exn_class e = "RecursionError".
Proof.
  induction fuel as [|fuel IH]; intros h p l acc st e st' H.
  - inversion H; subst. right. reflexivity.
  - simpl in H. unfold bind at 1, lift in H.
    destruct (Py.iter h) as [items|e1] eqn:Ei;
      [|inversion H; subst; left; exact (iter_raises _ _ Ei)].
    exact (build_items_raises_any _ IH _ _ _ _ _ _ _ H).
Qed.

(** The builder returns on well-formed outlines only, and it returns on
    every well-formed outline whose nesting of lists and dicts is below the
    limit of the interpreter.  Whatever it is given, it raises nothing but
    an [AttributeError], a [TypeError] or a [KeyError], or a
    [RecursionError] when the nesting reaches the limit. *)
Theorem builder_outcome h st :
  (Py.is_list h = true ->
   (exists ns es st',
      build_graph_from_hierarchy uuid4 recursion_limit h st = (Ok (ns, es), st')) ->
   outline_ok h = true)
  /\ (outline_ok h = true -> depth h < recursion_limit ->
      exists ns es st',
        build_graph_from_hierarchy uuid4 recursion_limit h st = (Ok (ns, es), st'))
  /\ (forall e st',
        build_graph_from_hierarchy uuid4 recursion_limit h st = (Raise e, st') ->
        builder_error e
        \/ (exn_class e = "RecursionError" /\ recursion_limit <= depth h)).
Proof.
  split; [|split].
  - intros Hl (ns & es & st' & H). unfold build_graph_from_hierarchy in H.
    exact (build_graph_fuel_accepts _ _ _ _ _ _ _ _ H Hl).
  - intros Hok Hd.
    destruct (build_graph_from_hierarchy_spec uuid4 recursion_limit h st Hok Hd)
      as (slots & ns & es & -> & _). eauto.
  - intros e st' H. unfold build_graph_from_hierarchy in H.
    destruct (Nat.lt_ge_cases (depth h) recursion_limit) as [Hd|Hd].
    + left. exact (build_graph_fuel_raises _ _ _ _ _ _ _ _ Hd H).
    + destruct (build_graph_fuel_raises_any _ _ _ _ _ _ _ _ H) as [He|He];
        [left; exact He|right; split; assumption].
Qed.

(** *** The exceptions of a run *)

Lemma first_line_raises s e : first_line s = Raise e -> exn_class e = "IndexError".
Proof.
  unfold first_line. destruct (PyStr.splitlines s); [|discriminate].
  intros H; inversion H; reflexivity.
Qed.

Lemma summarize_chunks_raises chunks :
  forall summaries st e st',
    summarize_chunks generate_content chunks summaries st = (Raise e, st') ->
    exn_class e = "IndexError".
Proof.
  induction chunks as [|c rest IH]; intros summaries st e st' H; [discriminate H|].
  simpl summarize_chunks in H. unfold bind at 1 in H.
  destruct (_call_gemini generate_content _ st) as [[out|e1] st1] eqn:E1;
    destruct (_call_gemini_sends _ _ _ _ _ E1) as (_ & (t1 & Ht1));
    [|discriminate].
  unfold bind at 1, lift in H.
  destruct (first_line out) as [line|e1] eqn:El.
  - exact (IH _ _ _ _ H).
  - inversion H; subst. exact (first_line_raises _ _ El).
Qed.

Lemma working_text_raises text thr st e st' :
  working_text generate_content text thr st = (Raise e, st') ->
  (exn_class e = "ValueError" /\ thr = 0%Z) \/ exn_class e = "IndexError".
Proof.
  unfold working_text.
  destruct (thr <? Z.of_nat (String.length text))%Z; [|discriminate].
  unfold bind at 1, lift.
  destruct (chunks_of text thr) as [cs|e1] eqn:Ec.
  - unfold bind.
    destruct (summarize_chunks generate_content cs [] st) as [[ss|e1] st1] eqn:Es;
      [discriminate|].
    intros H; inversion H; subst. right.
    exact (summarize_chunks_raises _ _ _ _ _ Es).
  - intros H; inversion H; subst. left. unfold chunks_of in Ec.
    destruct (Z.eqb_spec thr 0) as [Hz|Hz].
    + inversion Ec. auto.
    + destruct (thr <? 0)%Z; discriminate.
Qed.

(** A run raises nothing but a [ValueError] (under a threshold of zero
    only), an [IndexError], or what the builder raises: an [AttributeError],
    a [TypeError], a [KeyError] or a [RecursionError]. *)
Theorem run_exceptions text thr enable st e st' :
  process_text_to_mindmap json_loads json_dumps generate_content uuid4 recursion_limit
                          text thr enable st = (Raise e, st') ->
  (exn_class e = "ValueError" /\ thr = 0%Z)
  \/ exn_class e = "IndexError"
  \/ builder_error e
  \/ exn_class e = "RecursionError".
Proof.
  intros H. unfold process_text_to_mindmap in H.
  destruct (PyStr.is_empty (PyStr.strip text)); [discriminate H|].
  unfold bind at 1 in H.
  destruct (working_text generate_content (PyStr.strip text) thr st)
    as [[pt|e1] st1] eqn:Hw.
  2:{ inversion H; subst.
      destruct (working_text_raises _ _ _ _ _ Hw) as [Hv|Hi]; auto. }
  unfold bind at 1 in H.
  destruct (_call_gemini generate_content (Prompts.ROOT_NAME_PROMPT pt) st1)
    as [[raw|e1] st2] eqn:Ht;
    destruct (_call_gemini_sends _ _ _ _ _ Ht) as (_ & (t & Hok)); [|discriminate].
  unfold bind at 1, lift at 1 in H.
  destruct (first_line raw) as [line|e1] eqn:El.
  2:{ inversion H; subst. right. left. exact (first_line_raises _ _ El). }
  unfold bind at 1 in H.
  destruct (acquire_structure json_loads generate_content pt st2)
    as [[structure|e1] st3] eqn:Ha;
    destruct (acquire_structure_sends _ _ _ _ _ _ Ha) as (_ & (s & Hs));
    [|discriminate].
  destruct (negb (Py.truthy structure)).
  - unfold bind, _short_id, ret in H. discriminate H.
  - unfold bind at 1 in H.
    destruct (build_graph_from_hierarchy uuid4 recursion_limit structure st3)
      as [[built|e1] st4] eqn:Hb.
    + unfold with_frame in H.
      destruct (enrich_returns json_loads json_dumps generate_content enable
                  structure
                  (Frame st4 (fst built) (snd built)
                     [ ("n_nodes", VInt (Z.of_nat (List.length (fst built)))) ]))
        as (fr3 & He & _).
      rewrite He in H. discriminate H.
    + inversion H; subst. right. right.
      exact (build_graph_fuel_raises_any _ _ _ _ _ _ _ _ Hb).
Qed.

End Outcome.

(** ** The repair of a wrapped value *)

Section Wrapped.
Import PyStr JsonSpec.

#[local] Arguments Ascii.eqb : simpl never.

Lemma mem_char_none_upto c s : mem_char c s = false -> upto_last c s = None.
Proof.
  induction s as [|a r IH]; simpl; [reflexivity|].
  intros H. apply orb_false_iff in H as [Ha Hr]. rewrite (IH Hr).
  rewrite (Ascii.eqb_sym a c), Ha. reflexivity.
Qed.

Lemma upto_last_closing c mid post :
  mem_char c post = false ->
  upto_last c (mid ++ String c post) = Some (mid ++ String c "").
Proof.
  intros Hp. induction mid as [|a r IH]; simpl.
  - rewrite (mem_char_none_upto _ _ Hp), Ascii.eqb_refl. reflexivity.
  - now rewrite IH.
Qed.

Lemma re_search_span_skip pre s :
  mem_char "{" pre = false -> mem_char "[" pre = false ->
  re_search_span (pre ++ s) = re_search_span s.
Proof.
  induction pre as [|a r IH]; simpl; [reflexivity|].
  intros H1 H2. apply orb_false_iff in H1 as [A1 R1].
  apply orb_false_iff in H2 as [A2 R2].
  rewrite (Ascii.eqb_sym a "{"), A1, (Ascii.eqb_sym a "["), A2. auto.
Qed.

(** A bracketed text between words that have no opening bracket or brace
    before it and no closing character of its kind after it is what the
    pattern matches. *)
Lemma re_search_span_wrapped pre mid post o c :
  bracket_pair o c ->
  mem_char "{" pre = false -> mem_char "[" pre = false ->
  mem_char c post = false ->
  re_search_span (pre ++ String o (mid ++ String c post))
  = Some (String o (mid ++ String c "")).
Proof.
  intros Hp P1 P2 Q. rewrite re_search_span_skip by assumption.
  cbn [re_search_span].
  destruct Hp as [[-> ->]|[-> ->]].
  - change (Ascii.eqb "{" "{") with true. cbv iota.
    rewrite (upto_last_closing _ _ _ Q). reflexivity.
  - change (Ascii.eqb "[" "{") with false. change (Ascii.eqb "[" "[") with true.
    cbv iota. rewrite (upto_last_closing _ _ _ Q). reflexivity.
Qed.

(** When a text does not parse as it is and holds a bracketed text, from a
    brace to a closing brace or from a bracket to a closing bracket, with
    no opening brace or bracket before it and no closing character of that
    kind after it, the repair parser returns what the strict parse of the
    bracketed text gives, and [None] when that fails. *)
Theorem repair_recovers_wrapped (json_loads : string -> option value)
    pre mid post o c :
  bracket_pair o c ->
  mem_char "{" pre = false -> mem_char "[" pre = false ->
  mem_char c post = false ->
  json_loads (pre ++ String o (mid ++ String c post)) = None ->
  _safe_json_loads json_loads (pre ++ String o (mid ++ String c post))
  = match json_loads (String o (mid ++ String c "")) with
    | Some v => v
    | None => VNone
    end.
Proof.
  intros Hp P1 P2 Q Hs. unfold _safe_json_loads.
  now rewrite Hs, (re_search_span_wrapped pre mid post o c Hp P1 P2 Q).
Qed.

End Wrapped.

(** ** The copilot *)

Section CopilotFacts.
Import CopilotSpec.
Variable py_format : value -> string.
Variable generate_content : nat -> string -> outcome.
Variable generate_chat : nat -> list value -> outcome.
Variable no_text_error : response -> exn.

Lemma topic_lines_dicts (ns : list dict) :
  topic_lines py_format (map VDict ns)
  = Ok (map (topic_line py_format) ns).
Proof.
  induction ns as [|n ns IH]; simpl; [reflexivity|]. now rewrite IH.
Qed.

Lemma firstn_map_dict n (ns : list dict) :
  firstn n (map VDict ns) = map VDict (firstn n ns).
Proof. apply firstn_map. Qed.

(** The context of a map with topics, highlights and a summary: the
    heading and the labels of the first 50 nodes, the heading and the first
    40 sentences, the heading and the summary, joined by line feeds. *)
Theorem compose_context_lines d (ns : list dict) ss s :
  Py.dict_get "nodes" d = Some (VList (map VDict ns)) -> ns <> [] ->
  Py.dict_get "sentences" d = Some (VList ss) ->
  Py.dict_get "summary" d = Some (VStr s) -> s <> "" ->
  _compose_context py_format (VDict d)
  = Ok (PyStr.join PyStr.nl
          (("Mind Map Topics:" :: map (topic_line py_format) (firstn 50 ns))
           ++ ((PyStr.nl ++ "Source Text Highlights:")%string
               :: map (highlight_line py_format) (firstn 40 ss))
           ++ [overall_lines s])%list).
Proof.
  intros Hn Hne Hs Hsum Hse.
  unfold _compose_context.
  assert (Ht : Py.truthy (VDict d) = true).
  { destruct d; [discriminate Hn|reflexivity]. }
  rewrite Ht. cbn [negb]. cbv iota.
  unfold Py.get. rewrite Hn.
  unfold topics_block.
  assert (Htn : Py.truthy (VList (map VDict ns)) = true).
  { destruct ns; [contradiction|reflexivity]. }
  rewrite Htn. cbn [Py.slice_to Py.iter].
  rewrite firstn_map_dict, topic_lines_dicts.
  unfold sentences_block. rewrite Hs. cbn [Py.slice_to Py.iter].
  unfold summary_block. rewrite Hsum. cbv zeta.
  assert (Hts : Py.or_empty (VStr s) = VStr s).
  { unfold Py.or_empty. destruct s; [contradiction|reflexivity]. }
  rewrite Hts.
  assert (Htt : Py.truthy (VStr s) = true) by (destruct s; [contradiction|reflexivity]).
  rewrite Htt. cbn [Py.str_add]. reflexivity.
Qed.

(** The context of a map that is empty or [None], of a dict with none of
    the three keys, and of a value that is not a dict. *)
Theorem compose_context_edges map_meta :
  (Py.truthy map_meta = false ->
   _compose_context py_format map_meta = Ok "No map context provided.")
  /\ (forall d, map_meta = VDict d -> d <> [] ->
        Py.dict_get "nodes" d = None -> Py.dict_get "sentences" d = None ->
        Py.dict_get "summary" d = None ->
        _compose_context py_format map_meta = Ok "")
  /\ (Py.truthy map_meta = true -> Py.is_dict map_meta = false ->
      _compose_context py_format map_meta
      = Raise (Py.AttributeError map_meta "get")).
Proof.
  split; [|split].
  - intros H. unfold _compose_context. now rewrite H.
  - intros d -> Hne Hn Hs Hsum. unfold _compose_context.
    assert (Ht : Py.truthy (VDict d) = true) by (destruct d; [contradiction|reflexivity]).
    rewrite Ht. cbn [negb]. cbv iota. unfold Py.get. rewrite Hn.
    unfold topics_block. cbn [Py.truthy]. cbv iota.
    unfold sentences_block, summary_block. rewrite Hs, Hsum. reflexivity.
  - intros Ht Hd. unfold _compose_context. rewrite Ht. cbn [negb]. cbv iota.
    destruct map_meta; try discriminate Hd; reflexivity.
Qed.

(** *** The conversation *)

Lemma conversation_init : conversation init_copilot.
Proof. exists []. simpl. reflexivity. Qed.

(** When the context can be composed, a question adds two turns to the
    history, the question and then the reply that is returned, the model
    being sent the history with the question; a conversation stays one.
    When it cannot, nothing is sent and the exception goes to the caller. *)
Theorem ask_copilot_turns question history map_meta n :
  (forall context,
     _compose_context py_format map_meta = Ok context ->
     exists reply,
       ask_copilot py_format generate_chat no_text_error question history map_meta n
       = (Ok (reply,
              (history ++ [ turn "user" (CopilotText.copilot_prompt context question);
                            turn "model" reply ])%list),
          S n)
       /\ (forall resp t,
             generate_chat n
               (history ++ [turn "user" (CopilotText.copilot_prompt context question)])%list
             = Returns resp ->
             resp_text resp = Some t -> reply = PyStr.strip t)
       /\ (forall e,
             generate_chat n
               (history ++ [turn "user" (CopilotText.copilot_prompt context question)])%list
             = Raises e ->
             reply = error_reply e)
       /\ (conversation history ->
           conversation
             (history ++ [ turn "user" (CopilotText.copilot_prompt context question);
                           turn "model" reply ])%list))
  /\ (forall e,
        _compose_context py_format map_meta = Raise e ->
        ask_copilot py_format generate_chat no_text_error question history map_meta n
        = (Raise e, n)).
Proof.
  split.
  - intros context Hc. unfold ask_copilot. rewrite Hc. cbv zeta.
    eexists. split; [rewrite <- app_assoc; reflexivity|].
    split; [|split].
    + intros resp t Hr Ht. unfold stripped_text. now rewrite Hr, Ht.
    + intros e Hr. unfold stripped_text. now rewrite Hr.
    + intros (ex & ->).
      eexists (ex ++ [(CopilotText.copilot_prompt context question, _)])%list.
      rewrite flat_map_app, <- app_assoc. simpl. reflexivity.
  - intros e Hc. unfold ask_copilot. now rewrite Hc.
Qed.

(** *** The functions that send one prompt *)

Lemma reply_or_run on_error prompt st :
  exists t,
    reply_or generate_content no_text_error on_error prompt st
    = (t, State (prompts st ++ [prompt])%list (draws st))
    /\ (forall resp s,
          generate_content (List.length (prompts st)) prompt = Returns resp ->
          resp_text resp = Some s -> t = PyStr.strip s /\ PyStr.strip t = t)
    /\ (forall e,
          generate_content (List.length (prompts st)) prompt = Raises e ->
          t = on_error e)
    /\ (forall resp,
          generate_content (List.length (prompts st)) prompt = Returns resp ->
          resp_text resp = None -> t = on_error (no_text_error resp)).
Proof.
  unfold reply_or, MODEL_generate_content.
  eexists. split; [reflexivity|]. split; [|split].
  - intros resp s Hr Hs. unfold stripped_text. rewrite Hr, Hs.
    split; [reflexivity|apply strip_strip].
  - intros e Hr. unfold stripped_text. now rewrite Hr.
  - intros resp Hr Hs. unfold stripped_text. now rewrite Hr, Hs.
Qed.

(** [explain_node], [explain_node_in_layman] and [summarize_map] send their
    prompt once and return: the text of the answer without surrounding white
    space, or, when the request raises, the error reply with the message of
    the exception for the first and the third and a fixed sentence for the
    second.  [summarize_map] sends nothing when the context cannot be
    composed: the exception goes to the caller. *)
Theorem one_request_functions text map_meta st :
  (exists t,
     explain_node generate_content no_text_error text st
     = (t, State (prompts st ++ [CopilotText.explain_prompt text])%list (draws st))
     /\ (forall resp s,
           generate_content (List.length (prompts st))
                            (CopilotText.explain_prompt text) = Returns resp ->
           resp_text resp = Some s -> t = PyStr.strip s /\ PyStr.strip t = t)
     /\ (forall e,
           generate_content (List.length (prompts st))
                            (CopilotText.explain_prompt text) = Raises e ->
           t = error_reply e))
  /\ (exists t,
        explain_node_in_layman generate_content no_text_error text st
        = (t, State (prompts st ++ [CopilotText.layman_prompt text])%list (draws st))
        /\ (forall resp s,
              generate_content (List.length (prompts st))
                               (CopilotText.layman_prompt text) = Returns resp ->
              resp_text resp = Some s -> t = PyStr.strip s /\ PyStr.strip t = t)
        /\ (forall e,
              generate_content (List.length (prompts st))
                               (CopilotText.layman_prompt text) = Raises e ->
              t = "Detailed explanation unavailable for now."))
  /\ (forall context,
        _compose_context py_format map_meta = Ok context ->
        exists t,
          summarize_map py_format generate_content no_text_error map_meta st
          = (Ok t, State (prompts st ++ [CopilotText.summarize_prompt context])%list
                         (draws st))
          /\ (forall resp s,
                generate_content (List.length (prompts st))
                                 (CopilotText.summarize_prompt context)
                = Returns resp ->
                resp_text resp = Some s -> t = PyStr.strip s /\ PyStr.strip t = t)
          /\ (forall e,
                generate_content (List.length (prompts st))
                                 (CopilotText.summarize_prompt context) = Raises e ->
                t = error_reply e))
  /\ (forall e,
        _compose_context py_format map_meta = Raise e ->
        summarize_map py_format generate_content no_text_error map_meta st
        = (Raise e, st)).
Proof.
  split; [|split; [|split]].
  - destruct (reply_or_run error_reply (CopilotText.explain_prompt text) st)
      as (t & Hr & Hs & He & _).
    exists t. auto.
  - destruct (reply_or_run (fun _ => "Detailed explanation unavailable for now.")
                (CopilotText.layman_prompt text) st) as (t & Hr & Hs & He & _).
    exists t. auto.
  - intros context Hc. unfold summarize_map. rewrite Hc.
    destruct (reply_or_run error_reply (CopilotText.summarize_prompt context) st)
      as (t & -> & Hs & He & _).
    exists t. auto.
  - intros e Hc. unfold summarize_map. now rewrite Hc.
Qed.

End CopilotFacts.

(** ** The enrichment stages on replies that can be read *)

Section Enrichment.
Import Outline BuilderSpec PipelineSpec WorldSpec EnrichSpec.
Variable json_loads : string -> option value.
Variable json_dumps : value -> string.
Variable generate_content : nat -> string -> outcome.

Lemma all_str_strings ss : forall i, Py.all_str i (map VStr ss) = Ok ss.
Proof.
  induction ss as [|s ss IH]; intros i; simpl; [reflexivity|].
  now rewrite IH.
Qed.

(** The summary stage, entered with an outline that can be sliced, on the
    reply to its one request: it returns and touches nothing but [meta].  A
    reply that reads as a falsy value stores nothing; one that reads as a
    truthy value other than a dict stores only [summary_error], with the
    text of the attribute error; one that reads as a non-empty dict with a
    string (or no) thesis and a list of strings (or no) bullets stores the
    thesis, an empty line and the bullets one per line as [summary], and
    the quiz, or the empty list, as [quiz]. *)
Theorem summary_stage_outcomes structure top3 fr raw w :
  Py.slice_to 3 structure = Ok top3 ->
  _call_gemini generate_content (Prompts.MAP_SUMMARY_PROMPT (json_dumps top3))
               (world fr) = (Ok raw, w) ->
  exists mt,
    summary_stage json_loads json_dumps generate_content true structure fr
    = (Ok tt, Frame w (nodes fr) (edges fr) mt)
    /\ (Py.truthy (_safe_json_loads json_loads raw) = false -> mt = meta fr)
    /\ (Py.truthy (_safe_json_loads json_loads raw) = true ->
        Py.is_dict (_safe_json_loads json_loads raw) = false ->
        mt = Py.dict_set "summary_error"
               (VStr ("'" ++ Py.type_name (_safe_json_loads json_loads raw)
                      ++ "' object has no attribute 'get'"))
               (meta fr))
    /\ (forall d thesis bullets,
          _safe_json_loads json_loads raw = VDict d -> d <> [] ->
          field_or "thesis" (VStr "") d = VStr thesis ->
          field_or "bullets" (VList []) d = VList (map VStr bullets) ->
          mt = Py.dict_set "quiz" (or_empty_list "quiz" d)
                 (Py.dict_set "summary"
                    (VStr (thesis ++ PyStr.nl ++ PyStr.nl
                           ++ PyStr.join PyStr.nl bullets))
                    (meta fr))).
Proof.
  intros Hs Hc.
  unfold summary_stage, try_except, summary_try, bind, lift, in_world.
  rewrite Hs, Hc. cbv beta iota zeta.
  set (p := _safe_json_loads json_loads raw).
  destruct (Py.truthy p) eqn:T.
  - destruct p as [|b|z|f|s|l|d] eqn:P.
    7:{ cbn [Py.get]. fold (field_or "thesis" (VStr "") d).
        fold (field_or "bullets" (VList []) d).
        destruct (Py.add_str (field_or "thesis" (VStr "") d) (PyStr.nl ++ PyStr.nl))
          as [head|e] eqn:Eh.
        - destruct (Py.join PyStr.nl (field_or "bullets" (VList []) d))
            as [tail|e] eqn:Et.
          + eexists. unfold set_meta. cbn [world nodes edges meta].
            split; [reflexivity|]. split; [discriminate|].
            split; [discriminate|].
            intros d' thesis bullets Hd Hne Hth Hbu. inversion Hd; subst d'.
            rewrite Hth in Eh. simpl in Eh. inversion Eh; subst head.
            rewrite Hbu in Et. unfold Py.join in Et. cbn [Py.iter] in Et.
            rewrite all_str_strings in Et. inversion Et; subst tail.
            unfold or_empty_list. rewrite !append_assoc_s. reflexivity.
          + eexists. unfold set_meta. cbn [world nodes edges meta].
            split; [reflexivity|]. split; [discriminate|].
            split; [discriminate|].
            intros d' thesis bullets Hd Hne Hth Hbu. inversion Hd; subst d'.
            rewrite Hbu in Et. unfold Py.join in Et. cbn [Py.iter] in Et.
            rewrite all_str_strings in Et. discriminate.
        - eexists. unfold set_meta. cbn [world nodes edges meta].
          split; [reflexivity|]. split; [discriminate|].
          split; [discriminate|].
          intros d' thesis bullets Hd Hne Hth Hbu. inversion Hd; subst d'.
          rewrite Hth in Eh. discriminate. }
    all: try discriminate T.
    all: eexists; unfold set_meta; cbn [Py.get world nodes edges meta];
      (split; [reflexivity|]); (split; [discriminate|]);
      (split; [intros; reflexivity|]); intros; discriminate.
  - unfold ret. exists (meta fr). split; [reflexivity|]. split; [reflexivity|].
    split; [discriminate|].
    intros d thesis bullets Hd Hne _ _. rewrite Hd in T.
    destruct d; [contradiction|discriminate].
Qed.

(** *** The explanations read from a list *)

Lemma last_titled_titled lbl items found :
  last_titled lbl items = Some found -> titled lbl found = true.
Proof.
  induction items as [|i rest IH]; simpl; [discriminate|].
  destruct (last_titled lbl rest) as [f|].
  - intros H; inversion H; subst. now apply IH.
  - destruct (titled lbl i) eqn:E; [|discriminate].
    intros H; inversion H; subst. exact E.
Qed.

Lemma mapping_of_list_reads items :
  forallb readable items = true ->
  forall m, exists m',
    mapping_of_list items m = Ok m'
    /\ forall lbl,
         Py.dict_get lbl m'
         = match last_titled lbl items with
           | Some (VDict d) => Some (Py.or_empty (field "explanation" d))
           | _ => Py.dict_get lbl m
           end.
Proof.
  induction items as [|i rest IH]; intros Hr m.
  - exists m. split; reflexivity.
  - cbn [forallb] in Hr. apply andb_true_iff in Hr. destruct Hr as [Hi Hr].
    destruct i as [| | | | | |d]; try discriminate Hi.
    cbn [mapping_of_list Py.get]. fold (field "title" d). fold (field "explanation" d).
    cbn [readable] in Hi.
    destruct (Py.or_empty (field "title" d)) as [| | | |s| |] eqn:Et;
      try discriminate Hi.
    cbn [Py.strip].
    destruct (IH Hr (Py.dict_set (PyStr.strip s)
                                 (Py.or_empty (field "explanation" d)) m))
      as (m' & Hm & Hget).
    exists m'. split; [exact Hm|]. intros lbl. rewrite Hget.
    cbn [last_titled].
    destruct (last_titled lbl rest) as [f|] eqn:Ef.
    + pose proof (last_titled_titled _ _ _ Ef) as Hf.
      destruct f; try discriminate Hf. reflexivity.
    + cbn [titled]. rewrite Et.
      destruct (String.eqb_spec lbl (PyStr.strip s)) as [->|Hne].
      * apply dict_get_set_same.
      * now apply dict_get_set_other.
Qed.

Lemma mapping_of_list_raises items :
  forallb readable items = false ->
  forall m, exists e, mapping_of_list items m = Raise e.
Proof.
  induction items as [|i rest IH]; intros Hr m; [discriminate|].
  cbn [forallb] in Hr. cbn [mapping_of_list].
  destruct i as [| | | | | |d]; try (eexists; reflexivity).
  cbn [Py.get]. fold (field "title" d). cbn [readable] in Hr.
  destruct (Py.or_empty (field "title" d)) as [| | | |s| |];
    try (eexists; reflexivity).
  cbn [Py.strip]. simpl in Hr. apply IH. exact Hr.
Qed.

Lemma assign_answers m answer ns :
  (forall lbl, match Py.dict_get lbl m with
               | Some x => x | None => VStr "No explanation available." end
               = answer lbl) ->
  Forall (fun n => exists lbl, node_label n = Ok lbl) ns ->
  exists ns',
    assign_explanations (explanation_for m) ns = (ns', None)
    /\ Forall2 (fun n n' => exists lbl, node_label n = Ok lbl
                                        /\ n' = set_explanation (answer lbl) n)
               ns ns'.
Proof.
  intros Ha. induction 1 as [|n ns [lbl Hl] _ (ns' & IH & HF)].
  - exists []. split; [reflexivity|constructor].
  - exists (set_explanation (answer lbl) n :: ns'). split.
    + cbn [assign_explanations]. unfold explanation_for at 1. rewrite Hl, IH.
      rewrite Ha. reflexivity.
    + constructor; [eauto|exact HF].
Qed.

(** The explanation stage on a reply that reads as a list.  When every
    item is a dict whose title is a string, absent or falsy, every node gets
    the explanation of the last item whose stripped title is the node's
    stripped label (the empty string when that explanation is absent or
    falsy) and the default text when there is none, and [meta] is
    untouched.  When one item is anything else, every node gets
    "Explanation unavailable." and [meta.tooltip_error] is set. *)
Theorem explanations_matched fr t ts raw w items :
  label_titles (nodes fr) = Ok (t :: ts) ->
  _call_gemini generate_content (Prompts.batch_prompt (t :: ts)) (world fr)
  = (Ok raw, w) ->
  _safe_json_loads json_loads raw = VList items ->
  (forallb readable items = true ->
   exists ns',
     explanation_stage json_loads generate_content fr
     = (Ok tt, Frame w ns' (edges fr) (meta fr))
     /\ Forall2 (fun n n' => exists lbl, node_label n = Ok lbl
                             /\ n' = set_explanation (answer_for items lbl) n)
                (nodes fr) ns')
  /\ (forallb readable items = false ->
      exists msg,
        explanation_stage json_loads generate_content fr
        = (Ok tt,
           Frame w (map (set_explanation (VStr "Explanation unavailable."))
                        (nodes fr))
                 (edges fr)
                 (Py.dict_set "tooltip_error" (VStr msg) (meta fr)))).
Proof.
  intros Ht Hc Hp.
  pose proof (label_titles_labels _ _ Ht) as Hl.
  unfold explanation_stage, try_except, explanation_try, bind, get_nodes, lift.
  rewrite Ht. unfold in_world. rewrite Hc. cbv beta iota zeta. rewrite Hp.
  cbn [mapping_of]. split; intros Hr.
  - destruct (mapping_of_list_reads items Hr []) as (m & -> & Hget).
    destruct (assign_answers m (answer_for items) (nodes fr)) as (ns' & Ha & HF);
      [|exact Hl|].
    + intros lbl. rewrite Hget. unfold answer_for.
      destruct (last_titled lbl items) as [f|] eqn:Ef; [|reflexivity].
      pose proof (last_titled_titled _ _ _ Ef) as Hf.
      destruct f; try discriminate Hf. reflexivity.
    + exists ns'. rewrite for_each_node_run. cbn [nodes world edges meta].
      rewrite Ha. split; [reflexivity|exact HF].
  - destruct (mapping_of_list_raises items Hr []) as (e & ->).
    exists (exn_str e). rewrite for_each_node_run, assign_constant.
    reflexivity.
Qed.

End Enrichment.

(** ** The nodes of a run *)

Section EndToEnd.
Import Outline BuilderSpec PipelineSpec WorldSpec WalkSpec EnrichSpec.
Variable json_loads : string -> option value.
Variable json_dumps : value -> string.
Variable generate_content : nat -> string -> outcome.
Variable uuid4 : nat -> N.
Variable recursion_limit : nat.

Lemma reaches_enrichment_draws text thr st structure fr0 :
  reaches_enrichment json_loads generate_content uuid4 recursion_limit text thr st structure fr0 ->
  exists st3 ns es,
    build_graph_from_hierarchy uuid4 recursion_limit structure st3 = (Ok (ns, es), world fr0)
    /\ nodes fr0 = ns /\ draws st3 = draws st.
Proof.
  intros (prompt_text & root_title & st2 & st3 & [ns es] & Hacq & Hs & _ & Hb
          & Hn & _ & _).
  destruct Hacq as (_ & st1 & raw_title & title_line & Hw & Hc & _ & _).
  exists st3, ns, es. split; [exact Hb|]. split; [exact Hn|].
  destruct (working_text_sends _ _ _ _ _ _ Hw) as [_ D1].
  destruct (_call_gemini_sends _ _ _ _ _ Hc) as [[_ D2] _].
  destruct (acquire_structure_sends _ _ _ _ _ _ Hs) as [[_ D3] _].
  congruence.
Qed.

(** On the normal path the returned nodes are those the builder makes of
    the items of the outline, in document order, with identifiers drawn
    from the draws of the run's start on: each one has an [ai_explanation]
    and, under every other key, what the builder stored.  Neither the root
    title nor the summary reply has a part in them. *)
Theorem run_nodes_from_outline text thr enable st structure fr0 :
  reaches_enrichment json_loads generate_content uuid4 recursion_limit text thr st structure fr0 ->
  exists fr3,
    process_text_to_mindmap json_loads json_dumps generate_content uuid4 recursion_limit
                            text thr enable st
    = (Ok (graph_result fr3), world fr3)
    /\ Forall2 (fun slot n' =>
                  exists n, built_from uuid4 slot n
                            /\ has_key "ai_explanation" n'
                            /\ forall k, k <> "ai_explanation" ->
                                         Py.dict_get k n' = Py.dict_get k n)
               (slots_of (draws st) 0 structure) (nodes fr3).
Proof.
  intros Hre.
  rewrite (process_from_enrichment json_loads json_dumps generate_content uuid4 recursion_limit
             _ _ enable _ _ _ Hre).
  destruct (enrich_returns json_loads json_dumps generate_content
              enable structure fr0) as (fr3 & He & Hx & _).
  rewrite He. exists fr3. split; [reflexivity|].
  destruct (reaches_enrichment_draws _ _ _ _ _ Hre) as (st3 & ns & es & Hb & Hn & Hd).
  unfold build_graph_from_hierarchy in Hb.
  destruct (build_graph_fuel_walks _ _ _ _ _ _ _ _ _ Hb)
    as (ns' & es' & Ha & _ & HF & _).
  simpl in Ha. inversion Ha; subst ns' es'. rewrite Hd in HF. rewrite Hn in Hx. clear - HF Hx.
  revert Hx. generalize (nodes fr3).
  induction HF as [|slot n slots ns Hs _ IH]; intros l Hx; inversion Hx; subst;
    constructor.
  - destruct H1 as [x ->]. exists n. split; [exact Hs|]. split.
    + unfold has_key, set_explanation. rewrite dict_get_set_same. discriminate.
    + intros k Hk. unfold set_explanation. now apply dict_get_set_other.
  - now apply IH.
Qed.

End EndToEnd.

(** ** The fallback of the orchestrator *)

Section Fallback.
Import PyStr Outline BuilderSpec PipelineSpec WorldSpec.

Variable json_loads : string -> option value.
Variable json_dumps : value -> string.
Variable generate_content : nat -> string -> outcome.
Variable uuid4 : nat -> N.
Variable recursion_limit : nat.

(** *** The root title is never empty *)

Lemma linebreak_is_space c : is_linebreak c = true -> is_space c = true.
Proof.
  intros H. destruct c as [[] [] [] [] [] [] [] []];
    first [reflexivity | discriminate H].
Qed.

(** The first line of a text that is being read starts with what was read
    of it. *)
Lemma splitlines_from_open s :
  forall cur, exists t rest, splitlines_from cur true false s = (cur ++ t) :: rest.
Proof.
  induction s as [|c r IH]; intros cur.
  - exists "", []. cbn [splitlines_from]. f_equal.
    clear. induction cur as [|a cur IH]; simpl; [reflexivity|now rewrite <- IH].
  - cbn [splitlines_from andb].
    destruct (is_linebreak c).
    + exists "". eexists. f_equal.
      clear. induction cur as [|a cur IH]; simpl; [reflexivity|now rewrite <- IH].
    + destruct (IH (cur ++ String c "")) as (t & rest & ->).
      exists (String c t), rest. f_equal. now rewrite append_assoc_s.
Qed.

Lemma first_line_nonblank raw line :
  keeps_head is_space raw -> first_line raw = Ok line ->
  is_empty (strip line) = false.
Proof.
  unfold first_line, splitlines. destruct raw as [|c r]; [discriminate|].
  cbn [keeps_head]. intros Hc.
  cbn [splitlines_from andb].
  destruct (is_linebreak c) eqn:Hl;
    [rewrite (linebreak_is_space c Hl) in Hc; discriminate|].
  destruct (splitlines_from_open r (String c "")) as (t & rest & E).
  cbn [append] in E |- *. rewrite E.
  intros H; inversion H; subst line.
  unfold strip. cbn [lstrip_with]. rewrite Hc. cbn [rstrip_with].
  destruct (rstrip_with is_space t); [rewrite Hc|]; reflexivity.
Qed.

Lemma _call_gemini_keeps_head prompt st text st' :
  _call_gemini generate_content prompt st = (Ok text, st') ->
  keeps_head is_space text.
Proof.
  unfold _call_gemini, _call_gemini_retry. simpl. unfold MODEL_generate_content.
  destruct (generate_content (List.length (prompts st)) prompt) as [r|e].
  - intros H; inversion H; subst.
    apply rstrip_with_keeps_head, lstrip_with_keeps_head.
  - simpl. destruct (generate_content _ prompt) as [r|e'];
      intros H; inversion H; subst.
    + apply rstrip_with_keeps_head, lstrip_with_keeps_head.
    + reflexivity.
Qed.

(** Whenever the run gets as far as the hierarchy acquisition, the root
    title has at least one character. *)
Lemma root_title_nonempty text thr st prompt_text root_title st2 :
  reaches_acquisition generate_content text thr st prompt_text root_title st2 ->
  is_empty root_title = false.
Proof.
  intros (_ & st1 & raw & line & _ & Ht & Hl & ->).
  exact (first_line_nonblank raw line (_call_gemini_keeps_head _ _ _ _ Ht) Hl).
Qed.

(** *** The builder on what is not a list *)

Lemma builder_rejects_non_list h st :
  Py.truthy h = true -> Py.is_list h = false ->
  exists e st',
    build_graph_from_hierarchy uuid4 recursion_limit h st = (Raise e, st').
Proof.
  intros Ht Hl. unfold build_graph_from_hierarchy.
  destruct recursion_limit as [|fuel]; [eexists _, _; reflexivity|].
  destruct h as [|b|z|f|s|l|d]; try discriminate;
    try (eexists _, _; reflexivity).
  - destruct s as [|c s]; [discriminate|]. eexists _, _. reflexivity.
  - destruct d as [|[k v] d]; [discriminate|]. eexists _, _. reflexivity.
Qed.

(** *** The retry and the fallback *)


(** Claim C2: the code misses the fallback where the claim has it.  A
    blank answer to the title prompt raises [IndexError] when its first
    line is taken, so that the label "Main Topic" is never given: a run
    that gets past the title has a root title of at least one character.
    And a retried answer that is not empty and not a list, which is not a
    valid sequence, is handed to the builder, which raises on it: the run
    raises where the claim has it return the single node. *)
Theorem fallback_not_reached text thr enable st :
  (forall prompt_text st1 st2,
     is_empty (strip text) = false ->
     working_text generate_content (strip text) thr st = (Ok prompt_text, st1) ->
     _call_gemini generate_content (Prompts.ROOT_NAME_PROMPT prompt_text) st1
     = (Ok "", st2) ->
     process_text_to_mindmap json_loads json_dumps generate_content uuid4
                             recursion_limit text thr enable st
     = (Raise (Exn "IndexError" "list index out of range"), st2))
  /\ (forall prompt_text root_title st2,
        reaches_acquisition generate_content text thr st prompt_text root_title
                            st2 ->
        is_empty root_title = false
        /\ forall structure st3,
             acquire_structure json_loads generate_content prompt_text st2
             = (Ok structure, st3) ->
             Py.truthy structure = true -> Py.is_list structure = false ->
             exists e st',
               process_text_to_mindmap json_loads json_dumps generate_content
                                       uuid4 recursion_limit text thr enable st
               = (Raise e, st')
               /\ (builder_error e \/ exn_class e = "RecursionError")).
Proof.
  split.
  - intros prompt_text st1 st2 Hne Hw Ht.
    unfold process_text_to_mindmap. rewrite Hne.
    unfold bind at 1. rewrite Hw.
    unfold bind at 1. rewrite Ht. reflexivity.
  - intros prompt_text root_title st2 Hacq.
    split; [exact (root_title_nonempty _ _ _ _ _ _ Hacq)|].
    intros structure st3 Ha Ht Hl.
    rewrite (process_from_acquisition json_loads json_dumps generate_content
               uuid4 recursion_limit _ _ enable _ _ _ _ Hacq), Ha, Ht.
    cbn [negb]. cbv iota.
    destruct (builder_rejects_non_list structure st3 Ht Hl) as (e & st' & Hb).
    rewrite Hb. exists e, st'. split; [reflexivity|].
    unfold build_graph_from_hierarchy in Hb.
    exact (build_graph_fuel_raises_any uuid4 _ _ _ _ _ _ _ _ Hb).
Qed.

End Fallback.

(** ** Concrete runs *)

Section Runs.
Import Outline BuilderSpec PipelineSpec Examples.

(** Settles a statement about a concrete run by evaluation, one conjunct
    after the other. *)
Ltac concrete :=
  lazymatch goal with
  | |- _ /\ _ => split; concrete
  | |- exists _, _ => eexists; concrete
  | |- reaches_acquisition _ _ _ _ _ _ _ => unfold reaches_acquisition; concrete
  | |- reaches_enrichment _ _ _ _ _ _ _ _ _ => unfold reaches_enrichment; concrete
  | |- _ = _ => first [vm_compute; reflexivity | reflexivity]
  | |- _ <> _ => discriminate
  | |- _ => idtac
  end.

(** Claim C1: the code raises where the claim says it never does.  When
    the model answers the structuring prompt and its retry with a JSON
    object, the second test of the orchestrator lets the object through and
    the builder raises [AttributeError]; when the model answers the title
    prompt with white space only, taking the first line raises
    [IndexError]. *)
Theorem process_raises_to_its_caller :
  _safe_json_loads (Json.loads room) object_a1 = VDict [("a", VInt 1)]
  /\ fst (run object_outline "notes") = Raise (Py.AttributeError (VStr "a") "get")
  /\ fst (run blank_title "notes")
     = Raise (Exn "IndexError" "list index out of range").
Proof. repeat split; vm_compute; reflexivity. Qed.

Lemma fallback_not_reached_witness :
  fst (run blank_title "notes")
  = Raise (Exn "IndexError" "list index out of range")
  /\ exists e st',
       run object_outline "notes" = (Raise e, st')
       /\ (WorldSpec.builder_error e \/ exn_class e = "RecursionError").
Proof.
  unfold run.
  destruct (fallback_not_reached (Json.loads room) Json.dumps blank_title
              uuid_counting room "notes" 18000 true st0) as (Hblank & _).
  destruct (fallback_not_reached (Json.loads room) Json.dumps object_outline
              uuid_counting room "notes" 18000 true st0) as (_ & Hobject).
  split.
  - erewrite Hblank; [reflexivity|concrete ..].
  - edestruct Hobject as (_ & Hraise); [concrete|].
    eapply Hraise; concrete.
Defined.


(** Claim C10 fails as stated: the summary of the fallback node is cut from
    the stripped input. *)
Lemma fallback_node_shape_counterexample :
  exists mt,
    fst (run no_outline " notes")
    = Ok (VDict [ ("nodes",
                   VList [VDict [ ("id", VStr "root_00000000");
                                  ("label", VStr "Cell Biology");
                                  ("level", VInt 0);
                                  ("summary", VStr "notes") ]]);
                  ("edges", VList []); ("meta", VDict mt) ])
    /\ PyStr.take 320 " notes" <> "notes".
Proof. concrete. Qed.

Lemma fallback_node_shape_witness :
  (exists node mt st',
     run no_outline "notes"
     = (Ok (VDict [ ("nodes", VList [VDict node]); ("edges", VList []);
                    ("meta", VDict mt) ]), st')
     /\ Py.dict_get "summary" node = Some (VStr "notes")
     /\ Py.dict_get "key_points" node = None
     /\ Py.dict_get "ai_explanation" node = None)
  /\ (exists fr3,
        run bad_explanations "notes" = (Ok (graph_result fr3), world fr3)
        /\ Forall (fun n => has_key "key_points" n /\ has_key "ai_explanation" n)
                  (nodes fr3)).
Proof.
  unfold run.
  destruct (fallback_node_shape (Json.loads room) Json.dumps no_outline uuid_counting room
              "notes" 18000 true st0) as (Hfb & _).
  destruct (fallback_node_shape (Json.loads room) Json.dumps bad_explanations uuid_counting room
              "notes" 18000 true st0) as (_ & Hnp).
  split.
  - edestruct Hfb as (node & mt & st' & Hrun & Hs & _ & Hk & Ha); [concrete ..|].
    exists node, mt, st'. repeat split; assumption.
  - apply (Hnp cells_outline cells_frame). concrete.
Defined.

(** Claim C7 fails as stated: when the model is unreachable for the batched
    explanations, the gateway returns its failure text, no exception is
    raised, every node gets "No explanation available." and nothing is
    recorded under [meta.tooltip_error], while the summary is there. *)
Lemma enrichment_exception_contained_counterexample :
  fst (_call_gemini no_explanations (Prompts.batch_prompt ["Cells"])
                    (State ["p0"; "p1"; "p2"] 1))
  = Ok "__GEMINI_ERROR__: service unavailable"
  /\ exists n mt,
       fst (run no_explanations "notes")
       = Ok (VDict [ ("nodes", VList [VDict n]); ("edges", VList []);
                     ("meta", VDict mt) ])
       /\ Py.dict_get "label" n = Some (VStr "Cells")
       /\ Py.dict_get "ai_explanation" n = Some (VStr "No explanation available.")
       /\ Py.dict_get "tooltip_error" mt = None
       /\ Py.dict_get "summary" mt <> None.
Proof. concrete. Qed.

Lemma enrichment_exception_contained_witness :
  exists ns mt st',
    run bad_explanations "notes"
    = (Ok (VDict [ ("nodes", VList (map VDict ns)); ("edges", VList []);
                   ("meta", VDict mt) ]), st')
    /\ Py.dict_get "summary" mt <> None
    /\ Forall (fun n => Py.dict_get "ai_explanation" n
                        = Some (VStr "Explanation unavailable.")) ns
    /\ Py.dict_get "tooltip_error" mt
       = Some (VStr "'int' object has no attribute 'get'")
    /\ Py.dict_get "keywords" mt = Some (keywords_of ns).
Proof.
  unfold run.
  destruct (enrichment_exception_contained (Json.loads room) Json.dumps bad_explanations
              uuid_counting room "notes" 18000 st0 cells_outline cells_frame) as (H & _);
    [concrete|].
  edestruct H as (ns & mt & st' & Hrun & Hs & Hx & Ht & Hk); [concrete ..|].
  exists ns, mt, st'. split; [exact Hrun|].
  repeat split; try assumption. rewrite Hs. discriminate.
Defined.

(** Claim C3: the code does not keep the ids unique.  Two draws of
    [uuid.uuid4] that differ and share their first eight hexadecimal digits
    give two nodes of one level the same id. *)
Theorem node_ids_collide :
  outline_ok two_items = true
  /\ is_uuid4 (uuid_colliding 0) = true /\ is_uuid4 (uuid_colliding 1) = true
  /\ uuid_colliding 0 <> uuid_colliding 1
  /\ exists n1 n2 es st',
       build_graph_from_hierarchy uuid_colliding room two_items st0
       = (Ok ([n1; n2], es), st')
       /\ str_field "id" n1 = "n0_deadbeef"
       /\ str_field "id" n2 = "n0_deadbeef".
Proof. concrete. Qed.

Lemma build_graph_counts_and_ids_witness :
  exists ns es,
    build_graph_from_hierarchy uuid_counting room one_tree st0
    = (Ok (ns, es), State [] 3)
    /\ List.length ns = 3
    /\ List.length es = 2
    /\ NoDup (map (str_field "id") ns).
Proof.
  destruct (build_graph_counts_and_ids uuid_counting room one_tree st0 eq_refl
              ltac:(unfold room; simpl; lia))
    as (ns & es & Hrun & Hn & He & Hid).
  exists ns, es. split; [exact Hrun|]. split; [exact Hn|]. split; [exact He|].
  apply Hid. vm_compute.
  repeat constructor; simpl; intuition discriminate.
Defined.

Lemma build_graph_nodes_bounded_witness :
  exists n es st',
    build_graph_from_hierarchy uuid_counting room verbose_outline st0
    = (Ok ([n], es), st')
    /\ Forall node_bounded [n]
    /\ String.length (str_field "label" n) = 140
    /\ String.length (str_field "summary" n) = 400
    /\ option_map Py.len (Py.dict_get "key_points" n) = Some (Some 6).
Proof.
  assert (Hrun : exists n es st',
             build_graph_from_hierarchy uuid_counting room verbose_outline st0
             = (Ok ([n], es), st')
             /\ String.length (str_field "label" n) = 140
             /\ String.length (str_field "summary" n) = 400
             /\ option_map Py.len (Py.dict_get "key_points" n) = Some (Some 6))
    by concrete.
  destruct Hrun as (n & es & st' & Hrun & Hl & Hs & Hk).
  exists n, es, st'. split; [exact Hrun|]. split; [|now repeat split].
  exact (build_graph_nodes_bounded uuid_counting room verbose_outline st0 _ _ _ Hrun).
Defined.

(** Claim C5: the code does not keep one inbound edge for a node.  When
    two draws of [uuid.uuid4] share their first eight hexadecimal digits,
    the two subtopics of an item get the same id, and a node of that id has
    two inbound edges. *)
Theorem edge_targets_collide :
  outline_ok one_tree = true
  /\ is_uuid4 (uuid_colliding 1) = true /\ is_uuid4 (uuid_colliding 2) = true
  /\ uuid_colliding 1 <> uuid_colliding 2
  /\ exists ns es st',
       build_graph_from_hierarchy uuid_colliding room one_tree st0
       = (Ok (ns, es), st')
       /\ exists e n, In e es /\ In n ns
                      /\ str_field "id" n = str_field "target" e
                      /\ inbound es n = 2.
Proof.
  split; [reflexivity|]. split; [reflexivity|]. split; [reflexivity|].
  split; [discriminate|].
  eexists _, _, _. split; [vm_compute; reflexivity|].
  eexists _, _. split; [left; reflexivity|].
  split; [right; left; reflexivity|]. split; reflexivity.
Qed.

Lemma build_graph_tree_shape_witness :
  exists ns es st',
    build_graph_from_hierarchy uuid_counting room one_tree st0 = (Ok (ns, es), st')
    /\ (forall e, In e es ->
          exists n, In n ns /\ str_field "id" n = str_field "target" e
                    /\ forall n', In n' ns ->
                         str_field "id" n' = str_field "target" e ->
                         inbound es n' = 1)
    /\ List.length (filter (fun n => Nat.eqb (inbound es n) 0) ns) = 1.
Proof.
  assert (Hrun : exists ns es st',
             build_graph_from_hierarchy uuid_counting room one_tree st0
             = (Ok (ns, es), st')) by concrete.
  destruct Hrun as (ns & es & st' & Hrun).
  destruct (build_graph_tree_shape uuid_counting room one_tree st0 ns es st'
              eq_refl Hrun) as (Hin & Hroot).
  exists ns, es, st'. split; [exact Hrun|]. split.
  - apply Hin. vm_compute.
    repeat constructor; simpl; intuition discriminate.
  - apply Hroot. reflexivity.
Defined.



(** Claim C8 fails as stated: the length of a token is tested before the
    token is lowercased and stripped, so that a keyword can have 3
    characters; lowercasing and stripping first, as the claim words it,
    gives no keyword here. *)
Lemma keywords_of_a_run_counterexample :
  (exists n mt,
     fst (run short_words "notes")
     = Ok (VDict [ ("nodes", VList [VDict n]); ("edges", VList []);
                   ("meta", VDict mt) ])
     /\ (str_field "label" n ++ " ") ++ str_field "summary" n = "The end. "
     /\ Py.dict_get "keywords" mt = Some (VList [VStr "end"]))
  /\ String.length "end" = 3
  /\ Ranking.keywords_as_worded "The end. " = [].
Proof. concrete. Qed.

Lemma keywords_of_a_run_witness :
  (exists fr3,
     run bad_explanations "notes" = (Ok (graph_result fr3), world fr3)
     /\ Py.dict_get "keywords" (meta fr3)
        = Some (VList [VStr "cells"; VStr "divide"; VStr "grow"]))
  /\ (exists fr3,
        run list_title "notes" = (Ok (graph_result fr3), world fr3)
        /\ Py.dict_get "keywords" (meta fr3) = Some (VList [])).
Proof.
  unfold run. split.
  - destruct (keywords_of_a_run (Json.loads room) Json.dumps bad_explanations
                uuid_counting room "notes" 18000 true st0 cells_outline
                cells_frame)
      as (fr3 & Hrun & _ & _); [concrete|].
    exists fr3. split; [exact Hrun|].
    destruct fr3 as [w3 ns3 es3 mt3]. cbn [meta].
    pose proof Hrun as Hmeta. vm_compute in Hmeta.
    injection Hmeta as _ _ Hmeta _. rewrite <- Hmeta. reflexivity.
  - destruct (keywords_of_a_run (Json.loads room) Json.dumps list_title
                uuid_counting room "notes" 18000 true st0 list_title_outline
                list_title_frame)
      as (fr3 & Hrun & Hk & _); [concrete|].
    exists fr3. split; [exact Hrun|]. exact (Hk eq_refl).
Defined.

Lemma companion_generator_witness :
  generate_quiz_and_flashcards (Json.loads room) quiz_model "  " st0
  = ((VList [], VList []), st0)
  /\ generate_quiz_and_flashcards (Json.loads room) quiz_model "Cells" st0
     = ((VList [VStr "What is a cell?"], VList []),
        State [Prompts.quiz_prompt "Cells"] 0)
  /\ generate_quiz_and_flashcards (Json.loads room) unreachable "Cells" st0
     = ((VList [], VList []), State [Prompts.quiz_prompt "Cells"] 0)
  /\ generate_quiz_and_flashcards_shadowed (Json.loads room) quiz_model "Cells" st0
     = ((VList [], VList []), State [Prompts.quiz_prompt_shadowed "Cells"] 0).
Proof.
  destruct (companion_generator (Json.loads room) quiz_model "  " st0)
    as (Hblank & _).
  destruct (companion_generator (Json.loads room) quiz_model "Cells" st0)
    as (_ & Hfull).
  destruct (companion_generator (Json.loads room) unreachable "Cells" st0)
    as (_ & Hdown).
  split; [exact (proj1 (Hblank eq_refl))|].
  destruct (Hfull eq_refl)
    as ((r & Hrun & _ & _ & Htext) & (r' & Hrun' & _ & _ & Htext')).
  destruct (Hdown eq_refl) as ((r2 & Hrun2 & Hraise & _) & _).
  split; [|split].
  - rewrite Hrun. f_equal.
    destruct (Htext (Response (Some quiz_reply) "") quiz_reply eq_refl eq_refl)
      as (_ & Hgroup).
    destruct (Hgroup ("{" ++ PyStr.quoted "flashcards" ++ ": ["
                      ++ PyStr.quoted "What is a cell?" ++ "]}"))
      as (_ & Hdata); [concrete|].
    destruct (Hdata (VDict [("flashcards", VList [VStr "What is a cell?"])]))
      as (_ & Hdict); [concrete|].
    exact (Hdict _ eq_refl).
  - rewrite Hrun2. f_equal.
    exact (Hraise (Exn "RuntimeError" "service unavailable") eq_refl).
  - rewrite Hrun'. f_equal.
    destruct (Htext' (Response (Some quiz_reply) "") quiz_reply eq_refl eq_refl)
      as (Hnone & _).
    apply Hnone. concrete.
Defined.

End Runs.

(** ** More concrete runs *)

Section MoreRuns.
Import Outline BuilderSpec PipelineSpec WorldSpec WalkSpec CopilotSpec EnrichSpec
  Examples.

Ltac settled :=
  lazymatch goal with
  | |- _ /\ _ => split; settled
  | |- exists _, _ => eexists; settled
  | |- reaches_acquisition _ _ _ _ _ _ _ => unfold reaches_acquisition; settled
  | |- reaches_enrichment _ _ _ _ _ _ _ _ _ => unfold reaches_enrichment; settled
  | |- _ = _ => first [vm_compute; reflexivity | reflexivity]
  | |- _ <> _ => discriminate
  | |- _ => idtac
  end.

Lemma request_budget_witness :
  exists extra,
    prompts (snd (run bad_explanations "notes")) = ([] ++ extra)%list
    /\ List.length extra <= 10.
Proof.
  exact (request_budget (Json.loads room) Json.dumps bad_explanations uuid_counting room
           "notes" 18000 true st0 _ _ (surjective_pairing _)).
Defined.

Lemma run_result_shape_witness :
  exists r st' (ns es : list dict) (mt : dict),
    run bad_explanations "notes" = (Ok r, st')
    /\ r = VDict [ ("nodes", VList (map VDict ns)); ("edges", VList (map VDict es));
                   ("meta", VDict mt) ]
    /\ draws st' = 0 + List.length ns.
Proof.
  assert (H : exists r st', run bad_explanations "notes" = (Ok r, st')) by settled.
  destruct H as (r & st' & H).
  destruct (run_result_shape (Json.loads room) Json.dumps bad_explanations uuid_counting room
              "notes" 18000 true st0 r st' H) as (ns & es & mt & Hr & Hd).
  exists r, st', ns, es, mt. auto.
Defined.

Lemma enrichment_keeps_graph_witness :
  exists fr3,
    run bad_explanations "notes" = (Ok (graph_result fr3), world fr3)
    /\ edges fr3 = []
    /\ Forall2 (fun n n' => forall k, k <> "ai_explanation" ->
                                      Py.dict_get k n' = Py.dict_get k n)
               (nodes cells_frame) (nodes fr3)
    /\ Py.dict_get "n_nodes" (meta fr3)
       = Some (VInt (Z.of_nat (List.length (nodes fr3)))).
Proof.
  unfold run.
  destruct (enrichment_keeps_graph (Json.loads room) Json.dumps bad_explanations
              uuid_counting room "notes" 18000 true st0 cells_outline cells_frame)
    as (fr3 & Hrun & He & Hk & Hn); [settled|].
  exists fr3. auto.
Defined.

Lemma summary_disabled_witness :
  exists fr3 titles k,
    process_text_to_mindmap (Json.loads room) Json.dumps bad_explanations uuid_counting room
                            "notes" 18000 false st0
    = (Ok (graph_result fr3), world fr3)
    /\ prompts (world fr3)
       = (prompts (world cells_frame) ++ repeat (Prompts.batch_prompt titles) k)%list
    /\ k <= 2
    /\ Py.dict_get "summary" (meta fr3) = None
    /\ Py.dict_get "quiz" (meta fr3) = None
    /\ Py.dict_get "summary_error" (meta fr3) = None.
Proof.
  apply (summary_disabled (Json.loads room) Json.dumps bad_explanations uuid_counting room
           "notes" 18000 st0 cells_outline cells_frame).
  settled.
Defined.

Lemma returns_on_outline_witness :
  exists r st', run bad_explanations "notes" = (Ok r, st').
Proof.
  unfold run.
  eapply (returns_on_outline (Json.loads room) Json.dumps bad_explanations uuid_counting room
            "notes" 18000 true st0); [settled|settled|].
  right. split; [reflexivity|]. unfold room. simpl. lia.
Defined.

Lemma explanations_default_witness :
  exists w,
    explanation_stage (Json.loads room) no_explanations cells_frame_late
    = (Ok tt,
       Frame w
             (map (set_explanation (VStr "No explanation available."))
                  (nodes cells_frame_late))
             [] [ ("n_nodes", VInt 1) ]).
Proof.
  eexists.
  apply (explanations_default (Json.loads room) no_explanations cells_frame_late
           [ "Cells" ] "__GEMINI_ERROR__: service unavailable").
  - reflexivity.
  - vm_compute. reflexivity.
  - right. split; reflexivity.
Defined.

Lemma chunks_partition_witness :
  exists cs,
    chunks_of "abcdefg" 3 = Ok cs
    /\ String.concat "" cs = "abcdefg"
    /\ Forall (fun c => 1 <= String.length c <= 3) cs
    /\ List.length cs = 3.
Proof. exact (chunks_partition "abcdefg" 3 eq_refl). Defined.

Lemma meta_entries_typed_witness :
  exists r st' (ns es : list dict) (mt : dict),
    run bad_explanations "notes" = (Ok r, st')
    /\ r = VDict [ ("nodes", VList (map VDict ns)); ("edges", VList (map VDict es));
                   ("meta", VDict mt) ]
    /\ Forall (fun k => text_valued k mt)
              [ "summary"; "summary_error"; "tooltip_error"; "warning"; "error" ]
    /\ forall v, Py.dict_get "keywords" mt = Some v ->
                 exists ks, v = VList (map VStr ks) /\ List.length ks <= 12.
Proof.
  assert (H : exists r st', run bad_explanations "notes" = (Ok r, st')) by settled.
  destruct H as (r & st' & H).
  destruct (meta_entries_typed (Json.loads room) Json.dumps bad_explanations uuid_counting room
              "notes" 18000 true st0 r st' H) as (ns & es & mt & Hr & Ht & Hk).
  exists r, st', ns, es, mt. auto.
Defined.

Lemma builder_document_order_witness :
  exists ns es st',
    build_graph_from_hierarchy uuid_counting room one_tree st0 = (Ok (ns, es), st')
    /\ Forall2 (built_from uuid_counting) (slots_of 0 0 one_tree) ns
    /\ draws st' = 3.
Proof.
  assert (H : exists ns es st',
             build_graph_from_hierarchy uuid_counting room one_tree st0
             = (Ok (ns, es), st')) by settled.
  destruct H as (ns & es & st' & H).
  destruct (builder_document_order uuid_counting room one_tree st0 ns es st' H)
    as (HF & Hd).
  exists ns, es, st'. auto.
Defined.

Lemma builder_edges_descend_witness :
  exists ns es st',
    build_graph_from_hierarchy uuid_counting room one_tree st0 = (Ok (ns, es), st')
    /\ List.length es = 2
    /\ Forall (descends ns) es.
Proof.
  assert (H : exists ns es st',
             build_graph_from_hierarchy uuid_counting room one_tree st0
             = (Ok (ns, es), st') /\ List.length es = 2) by settled.
  destruct H as (ns & es & st' & H & Hl).
  exists ns, es, st'. split; [exact H|]. split; [exact Hl|].
  exact (builder_edges_descend uuid_counting room one_tree st0 ns es st' H).
Defined.

Lemma run_exceptions_witness :
  exists e st',
    run object_outline "notes" = (Raise e, st')
    /\ exn_class e = "AttributeError"
    /\ ((exn_class e = "ValueError" /\ 18000%Z = 0%Z)
        \/ exn_class e = "IndexError"
        \/ builder_error e
        \/ exn_class e = "RecursionError").
Proof.
  assert (H : exists e st', run object_outline "notes" = (Raise e, st')
                            /\ exn_class e = "AttributeError") by settled.
  destruct H as (e & st' & H & Hc).
  exists e, st'. split; [exact H|]. split; [exact Hc|].
  exact (run_exceptions (Json.loads room) Json.dumps object_outline uuid_counting room
           "notes" 18000 true st0 e st' H).
Defined.

Lemma repair_recovers_wrapped_witness :
  _safe_json_loads (Json.loads room)
    ("Here you go: " ++ Json.dumps wrapped_value ++ " Enjoy.")
  = wrapped_value.
Proof.
  assert (Hread : Json.loads room (Json.dumps wrapped_value) = Some wrapped_value)
    by (vm_compute; reflexivity).
  pose proof (repair_recovers_wrapped (Json.loads room) "Here you go: "
                ("{" ++ PyStr.quoted "title" ++ ": " ++ PyStr.quoted "Cells" ++ "}")
                " Enjoy." "["%char "]"%char) as H.
  change (Json.loads room (Json.dumps wrapped_value) = Some wrapped_value)
    in Hread.
  etransitivity; [apply H|].
  - right. split; reflexivity.
  - reflexivity.
  - reflexivity.
  - reflexivity.
  - vm_compute. reflexivity.
  - vm_compute. reflexivity.
Defined.

Lemma compose_context_lines_witness :
  _compose_context (fun _ => "") (VDict cells_map)
  = Ok (PyStr.join PyStr.nl
          [ "Mind Map Topics:"; "- Cells";
            PyStr.nl ++ "Source Text Highlights:";
            Prompts.bullet ++ " Cells divide.";
            PyStr.nl ++ "Overall Summary:" ++ PyStr.nl ++ "About cells" ]).
Proof.
  exact (compose_context_lines (fun _ => "") cells_map
           [ [ ("label", VStr "Cells") ] ] [ VStr "Cells divide." ] "About cells"
           eq_refl ltac:(discriminate) eq_refl eq_refl ltac:(discriminate)).
Defined.

Lemma summary_stage_outcomes_witness :
  exists w,
    summary_stage (Json.loads room) Json.dumps bad_explanations true cells_outline
                  cells_frame
    = (Ok tt,
       Frame w (nodes cells_frame) []
             (Py.dict_set "quiz" (VList [])
                (Py.dict_set "summary"
                   (VStr ("Cells are units of life" ++ PyStr.nl ++ PyStr.nl
                          ++ "mitosis"))
                   [ ("n_nodes", VInt 1) ]))).
Proof.
  assert (Hc : exists w,
             _call_gemini bad_explanations
               (Prompts.MAP_SUMMARY_PROMPT (Json.dumps cells_outline))
               (world cells_frame)
             = (Ok summary_text, w)) by settled.
  destruct Hc as (w & Hc).
  destruct (summary_stage_outcomes (Json.loads room) Json.dumps bad_explanations
              cells_outline cells_outline cells_frame summary_text w
              eq_refl Hc) as (mt & Hrun & _ & _ & Hd).
  exists w. rewrite Hrun.
  rewrite (Hd [ ("thesis", VStr "Cells are units of life");
                ("bullets", VList [ VStr "mitosis" ]); ("quiz", VList []) ]
              "Cells are units of life" [ "mitosis" ]);
    first [reflexivity | discriminate | vm_compute; reflexivity].
Defined.

Lemma explanations_matched_witness :
  exists w ns',
    explanation_stage (Json.loads room) twice_explained cells_frame_late
    = (Ok tt, Frame w ns' [] [ ("n_nodes", VInt 1) ])
    /\ Forall2 (fun n n' =>
                  exists lbl, node_label n = Ok lbl
                              /\ n' = set_explanation
                                        (answer_for explanations_read lbl) n)
               (nodes cells_frame_late) ns'.
Proof.
  assert (Hc : exists w,
             _call_gemini twice_explained (Prompts.batch_prompt [ "Cells" ])
                          (world cells_frame_late)
             = (Ok explanations_text, w)) by settled.
  destruct Hc as (w & Hc).
  destruct (explanations_matched (Json.loads room) twice_explained cells_frame_late
              "Cells" [] explanations_text w explanations_read
              eq_refl Hc ltac:(vm_compute; reflexivity)) as [Hm _].
  destruct (Hm eq_refl) as (ns' & Hrun & HF).
  exists w, ns'. split; [exact Hrun|exact HF].
Defined.

Lemma run_nodes_from_outline_witness :
  exists fr3,
    run bad_explanations "notes" = (Ok (graph_result fr3), world fr3)
    /\ Forall2 (fun slot n' =>
                  exists n, built_from uuid_counting slot n
                            /\ has_key "ai_explanation" n'
                            /\ forall k, k <> "ai_explanation" ->
                                         Py.dict_get k n' = Py.dict_get k n)
               (slots_of 0 0 cells_outline) (nodes fr3).
Proof.
  unfold run.
  destruct (run_nodes_from_outline (Json.loads room) Json.dumps bad_explanations
              uuid_counting room "notes" 18000 true st0 cells_outline cells_frame)
    as (fr3 & Hrun & HF); [settled|].
  exists fr3. split; [exact Hrun|exact HF].
Defined.

End MoreRuns.
